(** * Resource discovery and aggregation pipeline

    A shallow embedding of the resource search of the career advisor:
    - [domain/entities.py]: [ResourceType], [Resource];
    - [infrastructure/vector_store/chroma_store.py]: [ChromaVectorStore];
    - [infrastructure/repositories/resource_repository.py]:
      [VectorResourceRepository];
    - [infrastructure/searcher/web_searcher.py]: [WebSearcher] and its parsers;
    - [application/services/career_service.py]:
      [CareerService._find_resources_for_skills].

    Python exceptions are values of [exn]; code that awaits the vector store or
    the network runs in a state-and-exception monad [M] over an abstract
    outside world.  Strings are byte strings (UTF-8). *)

From Stdlib Require Import String Ascii ZArith QArith.
From stdpp Require Import base option list strings gmap sets.

Local Open Scope string_scope.
Local Open Scope list_scope.
Local Open Scope Z_scope.
Local Open Scope nat_scope.

(** ** Exceptions and results *)

Inductive exn : Type :=
  | KeyError (key : string)
  | IndexError
  | AttributeError
  | ValueError (msg : string)
  | TypeError
  | ExternalError (msg : string).

Inductive result (A : Type) : Type :=
  | Ok (a : A)
  | Raise (e : exn).
Arguments Ok {A} a.
Arguments Raise {A} e.

(** ** [domain/entities.py] *)

Inductive ResourceType : Type :=
  COURSE | ARTICLE | VACANCY | PROJECT | COMPETITION.

Definition ResourceType_value (t : ResourceType) : string :=
  match t with
  | COURSE => "course"
  | ARTICLE => "article"
  | VACANCY => "vacancy"
  | PROJECT => "project"
  | COMPETITION => "competition"
  end.

(** [ResourceType(s)]: the member whose value is [s], [ValueError] otherwise. *)
Definition ResourceType_of_value (s : string) : result ResourceType :=
  if String.eqb s "course" then Ok COURSE
  else if String.eqb s "article" then Ok ARTICLE
  else if String.eqb s "vacancy" then Ok VACANCY
  else if String.eqb s "project" then Ok PROJECT
  else if String.eqb s "competition" then Ok COMPETITION
  else Raise (ValueError ("'" +:+ s +:+ "' is not a valid ResourceType")).

(** Values of the [metadata] dictionary of a resource. *)
Inductive meta_val : Type :=
  | MStr (s : string)
  | MInt (z : Z).

(** The [Resource] dataclass.  [created_at], a wall-clock stamp taken when the
    object is built, is left out. *)
Record Resource : Type := mkResource {
  id : option string;
  title : string;
  url : string;
  description : string;
  resource_type : ResourceType;
  skill : string;
  metadata : list (string * meta_val)
}.

(** [Resource(title=.., url=.., description=.., resource_type=.., metadata=..)]
    with the dataclass defaults for the other fields. *)
Definition new_Resource (t u d : string) (rt : ResourceType)
    (md : list (string * meta_val)) : Resource :=
  {| id := None; title := t; url := u; description := d;
     resource_type := rt; skill := ""; metadata := md |}.

(** ** De-duplication and cap
    ([CareerService._find_resources_for_skills], lines 240-248) *)

(** The inner loop over one category's list: [seen.1] is [seen_urls],
    [seen.2] is [unique_resources].  [resource.url] is truthy when non-empty. *)
Definition unique_step (st : gset string * list Resource) (resource : Resource)
    : gset string * list Resource :=
  if bool_decide (url resource ≠ "") && bool_decide (url resource ∉ st.1)
  then ({[ url resource ]} ∪ st.1, st.2 ++ [resource])
  else st.

Definition unique_loop (seen_urls : gset string) (rs : list Resource)
    : gset string * list Resource :=
  foldl unique_step (seen_urls, []) rs.

(** The outer loop over the categories of the dictionary, in insertion order;
    [seen_urls] is created once, before the loop, and carried across it. *)
Fixpoint dedup_categories (seen_urls : gset string)
    (cats : list (string * list Resource)) : list (string * list Resource) :=
  match cats with
  | [] => []
  | (category, rs) :: rest =>
      let '(seen', unique_resources) := unique_loop seen_urls rs in
      (category, take 10 unique_resources) :: dedup_categories seen' rest
  end.

Definition remove_duplicates (resources_by_category : list (string * list Resource))
    : list (string * list Resource) :=
  dedup_categories ∅ resources_by_category.

(** ** Python strings *)

(** [str.strip()]: removes leading and trailing white space.  The white-space
    characters of Python are U+0009-000D, U+001C-0020, U+0085, U+00A0, U+1680,
    U+2000-200A, U+2028, U+2029, U+202F, U+205F and U+3000; they are matched
    here in their UTF-8 encoding.  [lstrip_bytes false] drops them from the
    front of a byte list, [lstrip_bytes true] from the front of a reversed
    one. *)
Definition is_space1 (b : N) : bool :=
  ((9 <=? b) && (b <=? 13) || (28 <=? b) && (b <=? 32))%N.

Definition is_space2 (b1 b2 : N) : bool :=
  ((b1 =? 194) && ((b2 =? 133) || (b2 =? 160)))%N.

Definition is_space3 (b1 b2 b3 : N) : bool :=
  ((b1 =? 225) && (b2 =? 154) && (b3 =? 128)
   || (b1 =? 226) && (b2 =? 128)
      && ((128 <=? b3) && (b3 <=? 138) || (b3 =? 168) || (b3 =? 169) || (b3 =? 175))
   || (b1 =? 226) && (b2 =? 129) && (b3 =? 159)
   || (b1 =? 227) && (b2 =? 128) && (b3 =? 128))%N.

Fixpoint lstrip_bytes (reversed : bool) (bs : list N) : list N :=
  match bs with
  | [] => []
  | b1 :: bs1 =>
      if is_space1 b1 then lstrip_bytes reversed bs1
      else match bs1 with
      | [] => bs
      | b2 :: bs2 =>
          if (if reversed then is_space2 b2 b1 else is_space2 b1 b2)
          then lstrip_bytes reversed bs2
          else match bs2 with
          | [] => bs
          | b3 :: bs3 =>
              if (if reversed then is_space3 b3 b2 b1 else is_space3 b1 b2 b3)
              then lstrip_bytes reversed bs3
              else bs
          end
      end
  end.

Definition bytes_of_string (s : string) : list N :=
  N_of_ascii <$> list_ascii_of_string s.

Definition string_of_bytes (bs : list N) : string :=
  string_of_list_ascii (ascii_of_N <$> bs).

Definition strip (s : string) : string :=
  string_of_bytes
    (rev (lstrip_bytes true (rev (lstrip_bytes false (bytes_of_string s))))).

(** Truthiness of a string: [if title:]. *)
Definition truthy (s : string) : bool := negb (String.eqb s "").

(** ** The document tree built by [BeautifulSoup(html, 'html.parser')]

    A tag has a name, the list of its CSS classes (the multi-valued [class]
    attribute, [[]] when absent), its other attributes and its children.
    [Text] is a string that [get_text()] collects, [Comment] one that it
    skips. *)
#[warnings="-register-all"]
Inductive node : Type :=
  | Text (s : string)
  | Comment (s : string)
  | Tag (name : string) (classes : list string)
        (attrs : list (string * string)) (children : list node).

(** A tag of the tree together with its ancestors, nearest first. *)
Definition element : Type := node * list node.

Fixpoint get_text_node (n : node) : string :=
  match n with
  | Text s => s
  | Comment _ => ""
  | Tag _ _ _ children =>
      (fix go (l : list node) : string :=
         match l with
         | [] => ""
         | c :: l' => get_text_node c +:+ go l'
         end) children
  end.

Definition get_text (e : element) : string := get_text_node e.1.

(** The tags below (and including) [n], in document order. *)
Fixpoint walk (ancestors : list node) (n : node) : list element :=
  match n with
  | Tag _ _ _ children =>
      (n, ancestors) ::
      (fix go (l : list node) : list element :=
         match l with
         | [] => []
         | c :: l' => walk (n :: ancestors) c ++ go l'
         end) children
  | _ => []
  end.

Definition children_of (n : node) : list node :=
  match n with
  | Tag _ _ _ children => children
  | _ => []
  end.

Definition descendants (e : element) : list element :=
  flat_map (walk (e.1 :: e.2)) (children_of e.1).

(** The filter of [find_all(name, class_=c)] and [find(name, class_=c)]:
    the tag name is [name] and, when a class is asked for, it is one of the
    tag's classes. *)
Definition matches (name : string) (class_ : option string) (e : element) : bool :=
  match e.1 with
  | Tag nm classes _ _ =>
      String.eqb nm name &&
      match class_ with
      | None => true
      | Some c => existsb (String.eqb c) classes
      end
  | _ => false
  end.

(** [soup.find_all(name, class_=c)] *)
Definition find_all (soup : list node) (name : string) (class_ : option string)
    : list element :=
  filter (fun e => Is_true (matches name class_ e)) (flat_map (walk []) soup).

(** [tag.find(name, class_=c)]: the first matching descendant, or [None]. *)
Definition find (e : element) (name : string) (class_ : option string)
    : option element :=
  head (filter (fun d => Is_true (matches name class_ d)) (descendants e)).

(** [tag.find_parent(name)]: the nearest ancestor with that name, or [None]. *)
Fixpoint find_parent_in (name : string) (ancestors : list node) : option element :=
  match ancestors with
  | [] => None
  | a :: rest =>
      if matches name None (a, rest) then Some (a, rest)
      else find_parent_in name rest
  end.

Definition find_parent (e : element) (name : string) : option element :=
  find_parent_in name e.2.

Fixpoint assoc_get {V : Type} (key : string) (d : list (string * V)) : option V :=
  match d with
  | [] => None
  | (k, v) :: d' => if String.eqb k key then Some v else assoc_get key d'
  end.

(** [tag[key]]: [KeyError] when the tag has no such attribute. *)
Definition getitem (e : element) (key : string) : result string :=
  match e.1 with
  | Tag _ _ attrs _ =>
      match assoc_get key attrs with
      | Some v => Ok v
      | None => Raise (KeyError key)
      end
  | _ => Raise (KeyError key)
  end.

(** ** The exception monad of the parsers *)

Definition rbind {A B : Type} (r : result A) (f : A -> result B) : result B :=
  match r with
  | Ok a => f a
  | Raise e => Raise e
  end.

(** [for x in xs: acc = body(acc, x)], stopping at the first exception. *)
Fixpoint for_each {A B : Type} (body : B -> A -> result B) (xs : list A) (acc : B)
    : result B :=
  match xs with
  | [] => Ok acc
  | x :: xs' => rbind (body acc x) (for_each body xs')
  end.

(** ** The parsers of [WebSearcher] *)

Definition coursera_body (courses : list Resource) (res : element)
    : result (list Resource) :=
  let title := strip (get_text res) in
  let link_tag := find_parent res "a" in
  rbind (match link_tag with
         | Some t => rbind (getitem t "href")
                       (fun h => Ok ("https://www.coursera.org" +:+ h))
         | None => Ok ""
         end)
    (fun link =>
       if truthy title
       then Ok (courses ++ [new_Resource title link "" COURSE
                              [("source", MStr "coursera")]])
       else Ok courses).

Definition parse_courses_from_coursera (soup : list node) : result (list Resource) :=
  let results := find_all soup "h2" (Some "card-title") in
  for_each coursera_body (take 3 results) [].

Definition stepik_body (courses : list Resource) (res : element)
    : result (list Resource) :=
  let title := strip (get_text res) in
  rbind (rbind (getitem res "href") (fun h => Ok ("https://stepik.org" +:+ h)))
    (fun link =>
       Ok (courses ++ [new_Resource title link "" COURSE
                         [("source", MStr "stepik")]])).

Definition parse_courses_from_stepik (soup : list node) : result (list Resource) :=
  let results := find_all soup "a" (Some "course-card__title") in
  for_each stepik_body (take 3 results) [].

Definition habr_article_body (articles : list Resource) (res : element)
    : result (list Resource) :=
  let title_tag := find res "h2" None in
  let title := match title_tag with
               | Some t => strip (get_text t)
               | None => "Статья"
               end in
  let link_tag := find res "a" (Some "post__title_link") in
  rbind (match link_tag with
         | Some t => getitem t "href"
         | None => Ok ""
         end)
    (fun link =>
       Ok (articles ++ [new_Resource title link "" ARTICLE
                          [("source", MStr "habr")]])).

Definition parse_articles_from_habr (soup : list node) : result (list Resource) :=
  let results := find_all soup "article" (Some "post") in
  for_each habr_article_body (take 3 results) [].

Definition habr_vacancy_body (vacancies : list Resource) (card : element)
    : result (list Resource) :=
  let title_tag := find card "a" None in
  let title := match title_tag with
               | Some t => strip (get_text t)
               | None => "Вакансия"
               end in
  rbind (match title_tag with
         | Some t => rbind (getitem t "href")
                       (fun h => Ok ("https://career.habr.com" +:+ h))
         | None => Ok ""
         end)
    (fun link =>
       Ok (vacancies ++ [new_Resource title link "" VACANCY
                           [("source", MStr "habr_career")]])).

Definition parse_vacancies_from_habr (soup : list node) : result (list Resource) :=
  let cards := find_all soup "div" (Some "vacancy-card__title") in
  for_each habr_vacancy_body (take 3 cards) [].

(** The JSON document of the GitHub search API.  Where the parser reads a
    container (the document, the value under [items], an element of that
    list) the value is the container or JSON [null].  The four fields that
    fill a [Resource] are typed after it: the key is absent ([None]) or holds
    a string, an integer for the stars. *)
Inductive nullable (A : Type) : Type :=
  | JNull
  | JValue (a : A).
Arguments JNull {A}.
Arguments JValue {A} a.

Record repo_json : Type := mkRepo {
  repo_name : option string;
  repo_html_url : option string;
  repo_description : option string;
  repo_stargazers_count : option Z
}.

Record github_object : Type := mkGithub {
  items : option (nullable (list (nullable repo_json)))
}.

Definition github_json : Type := nullable github_object.

(** The empty dictionary [{}]. *)
Definition empty_json : github_json := JValue {| items := None |}.

(** [json_data.get('items', [])]: [None] has no [get]. *)
Definition get_items (json_data : github_json)
    : result (nullable (list (nullable repo_json))) :=
  match json_data with
  | JNull => Raise AttributeError
  | JValue d => Ok (default (JValue []) (items d))
  end.

(** [x[:3]]: [None] cannot be sliced. *)
Definition first_three {A : Type} (x : nullable (list A)) : result (list A) :=
  match x with
  | JNull => Raise TypeError
  | JValue l => Ok (take 3 l)
  end.

Definition github_body (projects : list Resource) (repo : nullable repo_json)
    : result (list Resource) :=
  match repo with
  | JNull => Raise AttributeError
  | JValue repo =>
      Ok (projects ++ [new_Resource (default "" (repo_name repo))
                         (default "" (repo_html_url repo))
                         (default "" (repo_description repo))
                         PROJECT
                         [("source", MStr "github");
                          ("stars", MInt (default 0%Z (repo_stargazers_count repo)))]])
  end.

Definition parse_projects_from_github (json_data : github_json) : result (list Resource) :=
  rbind (get_items json_data) (fun found =>
  rbind (first_three found) (fun items =>
  for_each github_body items [])).

Definition kaggle_body (comps : list Resource) (card : element)
    : result (list Resource) :=
  let title_tag := find card "div" (Some "title") in
  let title := match title_tag with
               | Some t => strip (get_text t)
               | None => "Competition"
               end in
  let link_tag := find_parent card "a" in
  rbind (match link_tag with
         | Some t => rbind (getitem t "href")
                       (fun h => Ok ("https://www.kaggle.com" +:+ h))
         | None => Ok ""
         end)
    (fun link =>
       Ok (comps ++ [new_Resource title link "" COMPETITION
                       [("source", MStr "kaggle")]])).

Definition parse_competitions_from_kaggle (soup : list node) : result (list Resource) :=
  let cards := find_all soup "div" (Some "competition-card__header") in
  for_each kaggle_body (take 3 cards) [].

(** ** The outside world

    [World] is the state of everything outside the process: the Chroma
    database, the network, the clock.  A computation of [M A] takes the world
    and the history of calls made so far, and gives back the new world and
    history together with a value or an exception; what was done before an
    exception stays done. *)

Inductive event : Type :=
  | EvGetOrCreate (collection : string)
  | EvQuery (collection query : string) (n_results : nat)
            (where_ : option (list (string * string)))
  | EvAdd (collection : string) (ids : list string)
  | EvHttpGet (url : string).

Section Pipeline.

Context {World : Type}.

Definition state : Type := World * list event.

Definition M (A : Type) : Type := state -> state * result A.

Definition ret {A : Type} (a : A) : M A := fun st => (st, Ok a).

Definition raise {A : Type} (e : exn) : M A := fun st => (st, Raise e).

Definition bind {A B : Type} (m : M A) (f : A -> M B) : M B :=
  fun st =>
    match m st with
    | (st', Ok a) => f a st'
    | (st', Raise e) => (st', Raise e)
    end.

(** [try: body  except Exception as e: handler(e)] *)
Definition try_except {A : Type} (body : M A) (handler : exn -> M A) : M A :=
  fun st =>
    match body st with
    | (st', Ok a) => (st', Ok a)
    | (st', Raise e) => handler e st'
    end.

Definition lift {A : Type} (r : result A) : M A := fun st => (st, r).

(** A call of the outside world: the call is recorded, the world moves on. *)
Definition call {A : Type} (ev : event) (op : World -> World * result A) : M A :=
  fun st =>
    let '(w', r) := op st.1 in ((w', st.2 ++ [ev]), r).

Notation "x <- m ;; k" := (bind m (fun x => k))
  (at level 100, m at next level, right associativity).

(** [for x in xs: acc = body(acc, x)] with awaits in the body. *)
Fixpoint for_eachM {A B : Type} (body : B -> A -> M B) (xs : list A) (acc : B)
    : M B :=
  match xs with
  | [] => ret acc
  | x :: xs' => acc' <- body acc x ;; for_eachM body xs' acc'
  end.

(** *** The chromadb client *)

(** What [collection.query] returns: lists with one entry per query text. *)
Record QueryResult : Type := mkQueryResult {
  qr_ids : list (list string);
  qr_documents : option (list (list string));
  qr_metadatas : option (list (list (option (list (string * string)))));
  qr_distances : option (list (list Q))
}.

Record ChromaClient : Type := mkChromaClient {
  get_or_create_collection : string -> World -> World * result unit;
  collection_query :
    string -> string -> nat -> option (list (string * string)) ->
    World -> World * result QueryResult;
  collection_add :
    string -> list string -> list (list (string * string)) -> list string ->
    World -> World * result unit
}.

(** *** The network and the libraries *)

Record ClientResponse : Type := mkResponse {
  status : Z;
  text : result string;
  json : result github_json
}.

Record Runtime : Type := mkRuntime {
  session_get : string -> list (string * string) -> World -> World * result ClientResponse;
  BeautifulSoup : string -> list node;
  json_loads : string -> result (list (string * meta_val));
  json_dumps : list (string * meta_val) -> string;
  fromisoformat : string -> result unit;
  GITHUB_TOKEN : option string;
  now_timestamp : World -> World * string;
  hash : string -> string
}.

Context (rt : Runtime).

(** ** [ChromaVectorStore] *)

Record ChromaVectorStore : Type := mkChromaVectorStore {
  client : ChromaClient
}.

Record hit : Type := mkHit {
  hit_id : string;
  hit_document : string;
  hit_metadata : option (list (string * string));
  hit_distance : Q
}.

(** [l[0][i]], raising [IndexError] out of range. *)
Definition index0 {A : Type} (l : list (list A)) (i : nat) : result A :=
  match l !! 0 with
  | Some l0 => match l0 !! i with
               | Some a => Ok a
               | None => Raise IndexError
               end
  | None => Raise IndexError
  end.

(** [l[0][i] if l else d]: [None] and the empty list are falsy. *)
Definition index0_or {A : Type} (l : option (list (list A))) (d : A) (i : nat)
    : result A :=
  match l with
  | None | Some [] => Ok d
  | Some l' => index0 l' i
  end.

Definition format_hit (results : QueryResult) (formatted_results : list hit) (i : nat)
    : result (list hit) :=
  rbind (index0 (qr_ids results) i) (fun hid =>
  rbind (index0_or (qr_documents results) "" i) (fun doc =>
  rbind (index0_or (qr_metadatas results) (Some []) i) (fun md =>
  rbind (index0_or (qr_distances results) 0%Q i) (fun dist =>
  Ok (formatted_results ++ [mkHit hid doc md dist]))))).

Definition format_results (results : QueryResult) : result (list hit) :=
  match qr_ids results with
  | ids0 :: _ =>
      if bool_decide (0 < length ids0)
      then for_each (format_hit results) (seq 0 (length ids0)) []
      else Ok []
  | [] => Ok []
  end.

(** [ChromaVectorStore.create_collection] *)
Definition create_collection (self : ChromaVectorStore) (collection_name : string)
    : M bool :=
  try_except
    (_ <- call (EvGetOrCreate collection_name)
            (get_or_create_collection (client self) collection_name) ;;
     ret true)
    (fun _ => ret false).

(** [ChromaVectorStore.add_documents], called with explicit metadata and ids;
    the handler logs and re-raises. *)
Definition add_documents (self : ChromaVectorStore) (collection_name : string)
    (documents : list string) (metadatas : list (list (string * string)))
    (ids : list string) : M (list string) :=
  try_except
    (_ <- call (EvGetOrCreate collection_name)
            (get_or_create_collection (client self) collection_name) ;;
     _ <- call (EvAdd collection_name ids)
            (collection_add (client self) collection_name documents metadatas ids) ;;
     ret ids)
    (fun e => raise e).

(** [ChromaVectorStore.search]: any failure is logged and answered by [[]]. *)
Definition search (self : ChromaVectorStore) (collection_name query : string)
    (n_results : nat) (filter : option (list (string * string))) : M (list hit) :=
  try_except
    (_ <- call (EvGetOrCreate collection_name)
            (get_or_create_collection (client self) collection_name) ;;
     results <- call (EvQuery collection_name query n_results filter)
                  (collection_query (client self) collection_name query
                     n_results filter) ;;
     lift (format_results results))
    (fun _ => ret []).

(** ** [VectorResourceRepository] *)

Record VectorResourceRepository : Type := mkVectorResourceRepository {
  vector_store : ChromaVectorStore
}.

Definition COLLECTION_NAME : string := "resources".

Definition _create_collection_if_not_exists (self : VectorResourceRepository)
    : M unit :=
  try_except
    (_ <- create_collection (vector_store self) COLLECTION_NAME ;; ret tt)
    (fun _ => ret tt).

Fixpoint join (sep : string) (parts : list string) : string :=
  match parts with
  | [] => ""
  | [p] => p
  | p :: ps => p +:+ sep +:+ join sep ps
  end.

Definition _resource_to_text (resource : Resource) : string :=
  let parts := [title resource] in
  let parts := if truthy (description resource)
               then parts ++ [description resource] else parts in
  let parts := if truthy (skill resource)
               then parts ++ ["Навык: " +:+ skill resource] else parts in
  join " | " parts.

(** The dictionary stored with a resource (without [created_at]). *)
Definition stored_metadata (resource_id : string) (resource : Resource)
    : list (string * string) :=
  [("id", resource_id);
   ("title", title resource);
   ("url", url resource);
   ("description", description resource);
   ("resource_type", ResourceType_value (resource_type resource));
   ("skill", skill resource);
   ("metadata", json_dumps rt (metadata resource))].

Definition set_id (resource_id : string) (r : Resource) : Resource :=
  {| id := Some resource_id; title := title r; url := url r;
     description := description r; resource_type := resource_type r;
     skill := skill r; metadata := metadata r |}.

(** [f"resource_{datetime.now().timestamp()}_{hash(resource.url)}"] *)
Definition fresh_resource_id (u : string) : M string :=
  fun st => let '(w', ts) := now_timestamp rt st.1 in
            ((w', st.2), Ok ("resource_" +:+ ts +:+ "_" +:+ hash rt u)).

(** [resource.id or f"resource_..."]: [None] and the empty string are falsy. *)
Definition resource_id_of (resource : Resource) : M string :=
  match id resource with
  | Some i => if truthy i then ret i else fresh_resource_id (url resource)
  | None => fresh_resource_id (url resource)
  end.

(** The loop of [save_batch].  The accumulator holds [documents], [metadatas],
    [ids] and the resources as the loop leaves them: [resource.id = resource_id]
    updates the object that the caller still holds. *)
Definition save_batch_body
    (acc : list string * list (list (string * string)) * list string * list Resource)
    (resource : Resource)
    : M (list string * list (list (string * string)) * list string * list Resource) :=
  let '(documents, metadatas, ids, saved) := acc in
  resource_id <- resource_id_of resource ;;
  let resource := set_id resource_id resource in
  ret (documents ++ [_resource_to_text resource],
       metadatas ++ [stored_metadata resource_id resource],
       ids ++ [resource_id],
       saved ++ [resource]).

(** [VectorResourceRepository.save_batch]: returns the ids, and with them the
    resources as updated in place. *)
Definition save_batch (self : VectorResourceRepository) (resources : list Resource)
    : M (list string * list Resource) :=
  _ <- _create_collection_if_not_exists self ;;
  built <- for_eachM save_batch_body resources ([], [], [], []) ;;
  let '(documents, metadatas, ids, saved) := built in
  _ <- add_documents (vector_store self) COLLECTION_NAME documents metadatas ids ;;
  ret (ids, saved).

(** [metadata.get(key, default)] *)
Definition dict_get (key : string) (d : list (string * string)) (dflt : string)
    : string :=
  default dflt (assoc_get key d).

Definition _metadata_to_resource (metadata : option (list (string * string)))
    : result Resource :=
  match metadata with
  | None => Raise AttributeError
  | Some md =>
      rbind (ResourceType_of_value (dict_get "resource_type" md "course")) (fun rtype =>
      rbind (json_loads rt (dict_get "metadata" md "{}")) (fun meta =>
      rbind (match assoc_get "created_at" md with
             | Some d => fromisoformat rt d
             | None => Ok tt
             end) (fun _ =>
      Ok {| id := assoc_get "id" md;
            title := dict_get "title" md "";
            url := dict_get "url" md "";
            description := dict_get "description" md "";
            resource_type := rtype;
            skill := dict_get "skill" md "";
            metadata := meta |})))
  end.

(** The loop of [search_by_skill]: a record that cannot be converted is logged
    and skipped. *)
Definition convert_hit (resources : list Resource) (result : hit) : list Resource :=
  match _metadata_to_resource (hit_metadata result) with
  | Ok resource => resources ++ [resource]
  | Raise _ => resources
  end.

(** [VectorResourceRepository.search_by_skill] *)
Definition search_by_skill (self : VectorResourceRepository) (skill : string)
    (resource_type : option string) (limit : nat) : M (list Resource) :=
  let filter_dict := [("skill", skill)] in
  let filter_dict :=
    match resource_type with
    | Some t => if truthy t then filter_dict ++ [("resource_type", t)] else filter_dict
    | None => filter_dict
    end in
  results <- search (vector_store self) COLLECTION_NAME skill limit (Some filter_dict) ;;
  ret (foldl convert_hit [] results).

(** ** [WebSearcher] *)

Record WebSearcher : Type := mkWebSearcher {
  resource_repository : VectorResourceRepository
}.

Definition COURSERA_SEARCH_URL (query : string) : string :=
  "https://www.coursera.org/search?query=" +:+ query.
Definition STEPIK_SEARCH_URL (query : string) : string :=
  "https://stepik.org/catalog/search?query=" +:+ query.
Definition HABR_ARTICLES_SEARCH_URL (query : string) : string :=
  "https://habr.com/ru/search/?q=" +:+ query +:+ "&target_type=posts&order=relevance".
Definition HABR_VACANCY_SEARCH_URL (query : string) : string :=
  "https://career.habr.com/vacancies?keywords=" +:+ query.
Definition GITHUB_SEARCH_API (query : string) : string :=
  "https://api.github.com/search/repositories?q=" +:+ query
  +:+ "+in:name,description&sort=stars".
Definition KAGGLE_COMPETITIONS_URL (query : string) : string :=
  "https://www.kaggle.com/competitions?search=" +:+ query.

(** [WebSearcher.fetch_text]: the page, or [""] on a status other than 200 or on
    any failure. *)
Definition fetch_text (self : WebSearcher) (url : string) : M string :=
  try_except
    (response <- call (EvHttpGet url)
                   (session_get rt url [("User-Agent", "Mozilla/5.0")]) ;;
     if bool_decide (status response ≠ 200%Z) then ret ""
     else lift (text response))
    (fun _ => ret "").

(** A task given to [asyncio.gather(..., return_exceptions=True)]: its
    exception, if any, is returned as a value. *)
Definition gathered {A : Type} (task : M A) : M (result A) :=
  fun st => let '(st', r) := task st in (st', Ok r).

Definition set_skill (s : string) (r : Resource) : Resource :=
  {| id := id r; title := title r; url := url r;
     description := description r; resource_type := resource_type r;
     skill := s; metadata := metadata r |}.

(** The five lists of one search on the web: courses, articles, vacancies,
    projects, competitions. *)
Definition web_lists : Type :=
  list Resource * list Resource * list Resource * list Resource * list Resource.

(** The result dictionary of [find_resources_for_skill]. *)
Definition web_dict (p : web_lists) : list (string * list Resource) :=
  let '(courses, articles, vacancies, projects, competitions) := p in
  [("courses", courses); ("articles", articles); ("vacancies", vacancies);
   ("projects", projects); ("competitions", competitions)].

Definition all_resources (p : web_lists) : list Resource :=
  let '(courses, articles, vacancies, projects, competitions) := p in
  courses ++ articles ++ vacancies ++ projects ++ competitions.

Definition fan_out_urls (skill : string) : list string :=
  [COURSERA_SEARCH_URL skill; STEPIK_SEARCH_URL skill;
   HABR_ARTICLES_SEARCH_URL skill; HABR_VACANCY_SEARCH_URL skill;
   GITHUB_SEARCH_API skill; KAGGLE_COMPETITIONS_URL skill].

(** The first part of [find_resources_for_skill] (lines 160-213): the six
    requests, gathered in the order in which the tasks are listed, the six
    parsers, and the skill written into every resource. *)
Definition fan_out (self : WebSearcher) (skill : string) : M web_lists :=
  let query := skill in
  coursera_html <- fetch_text self (COURSERA_SEARCH_URL query) ;;
  stepik_html <- fetch_text self (STEPIK_SEARCH_URL query) ;;
  habr_articles_html <- fetch_text self (HABR_ARTICLES_SEARCH_URL query) ;;
  habr_vacancies_html <- fetch_text self (HABR_VACANCY_SEARCH_URL query) ;;
  let github_headers :=
    match GITHUB_TOKEN rt with
    | Some gh_token =>
        if truthy gh_token then [("Authorization", "token " +:+ gh_token)] else []
    | None => []
    end in
  github_resp <- gathered (call (EvHttpGet (GITHUB_SEARCH_API skill))
                             (session_get rt (GITHUB_SEARCH_API skill) github_headers)) ;;
  kaggle_html <- fetch_text self (KAGGLE_COMPETITIONS_URL query) ;;
  let github_data :=
    match github_resp with
    | Ok response => match json response with
                     | Ok data => data
                     | Raise _ => empty_json
                     end
    | Raise _ => empty_json
    end in
  coursera <- lift (parse_courses_from_coursera (BeautifulSoup rt coursera_html)) ;;
  stepik <- lift (parse_courses_from_stepik (BeautifulSoup rt stepik_html)) ;;
  let courses := coursera ++ stepik in
  articles <- lift (parse_articles_from_habr (BeautifulSoup rt habr_articles_html)) ;;
  vacancies <- lift (parse_vacancies_from_habr (BeautifulSoup rt habr_vacancies_html)) ;;
  projects <- lift (parse_projects_from_github github_data) ;;
  competitions <- lift (parse_competitions_from_kaggle (BeautifulSoup rt kaggle_html)) ;;
  ret (set_skill skill <$> courses, set_skill skill <$> articles,
       set_skill skill <$> vacancies, set_skill skill <$> projects,
       set_skill skill <$> competitions).

(** The objects of the five lists after [save_batch] has written their ids:
    [saved] lists them in the order of [all_resources]. *)
Definition with_saved (p : web_lists) (saved : list Resource) : web_lists :=
  let '(courses, articles, vacancies, projects, competitions) := p in
  let n1 := length courses in
  let n2 := length articles in
  let n3 := length vacancies in
  let n4 := length projects in
  (take n1 saved,
   take n2 (drop n1 saved),
   take n3 (drop (n1 + n2) saved),
   take n4 (drop (n1 + n2 + n3) saved),
   drop (n1 + n2 + n3 + n4) saved).

(** [WebSearcher.find_resources_for_skill]: the fan-out, then (lines 215-226)
    the resources are saved when there are any, and the dictionary is
    returned.  A failure of [save_batch] is not handled here. *)
Definition find_resources_for_skill (self : WebSearcher) (skill : string)
    : M (list (string * list Resource)) :=
  p <- fan_out self skill ;;
  match all_resources p with
  | [] => ret (web_dict p)
  | _ :: _ =>
      saved <- save_batch (resource_repository self) (all_resources p) ;;
      ret (web_dict (with_saved p saved.2))
  end.

(** ** [CareerService] *)

Record CareerService : Type := mkCareerService {
  resource_repo : VectorResourceRepository;
  web_searcher : option WebSearcher
}.

(** [d.get(key, [])] *)
Definition get_list (key : string) (d : list (string * list Resource)) : list Resource :=
  default [] (assoc_get key d).

(** [d[key].extend(rs)] for a key of the dictionary. *)
Fixpoint extend (key : string) (rs : list Resource) (d : list (string * list Resource))
    : list (string * list Resource) :=
  match d with
  | [] => []
  | (k, v) :: d' =>
      if String.eqb k key then (k, v ++ rs) :: d' else (k, v) :: extend key rs d'
  end.

Definition empty_buckets : list (string * list Resource) :=
  [("courses", []); ("articles", []); ("vacancies", []);
   ("projects", []); ("competitions", [])].

(** The four lists of one skill: courses, articles, projects, competitions. *)
Definition skill_lists : Type :=
  list Resource * list Resource * list Resource * list Resource.

(** The reads of the vector store for one skill (lines 203-222). *)
Definition store_lookup (self : CareerService) (skill : string) : M skill_lists :=
  courses <- search_by_skill (resource_repo self) skill
               (Some (ResourceType_value COURSE)) 5 ;;
  articles <- search_by_skill (resource_repo self) skill
                (Some (ResourceType_value ARTICLE)) 5 ;;
  projects <- search_by_skill (resource_repo self) skill
                (Some (ResourceType_value PROJECT)) 5 ;;
  competitions <- search_by_skill (resource_repo self) skill
                    (Some (ResourceType_value COMPETITION)) 5 ;;
  ret (courses, articles, projects, competitions).

Definition store_count (l : skill_lists) : nat :=
  let '(courses, articles, projects, competitions) := l in
  length courses + length articles + length projects + length competitions.

(** The search on the web when the store gave little (lines 225-233): the
    lists of the store, followed by what the web gave.  Nothing is appended
    when the web search raises, since the four [extend] calls come after it. *)
Definition web_fallback (self : CareerService) (skill : string) (l : skill_lists)
    : M skill_lists :=
  let '(courses, articles, projects, competitions) := l in
  match web_searcher self with
  | Some ws =>
      if bool_decide (store_count l < 5) then
        try_except
          (web_resources <- find_resources_for_skill ws skill ;;
           ret (courses ++ get_list "courses" web_resources,
                articles ++ get_list "articles" web_resources,
                projects ++ get_list "projects" web_resources,
                competitions ++ get_list "competitions" web_resources))
          (fun _ => ret l)
      else ret l
  | None => ret l
  end.

(** The lists of one skill, as they are added to the result (lines 201-233). *)
Definition resolve_skill (self : CareerService) (skill : string) : M skill_lists :=
  l <- store_lookup self skill ;;
  web_fallback self skill l.

(** The body of [for skill in skills] (lines 201-238). *)
Definition skill_body (self : CareerService)
    (resources_by_category : list (string * list Resource)) (skill : string)
    : M (list (string * list Resource)) :=
  l <- resolve_skill self skill ;;
  let '(courses, articles, projects, competitions) := l in
  ret (extend "competitions" competitions
         (extend "projects" projects
            (extend "articles" articles
               (extend "courses" courses resources_by_category)))).

(** The dictionary after the loop over the skills (lines 193-238). *)
Definition collect (self : CareerService) (skills : list string)
    : M (list (string * list Resource)) :=
  for_eachM (skill_body self) skills empty_buckets.

(** [CareerService._find_resources_for_skills] *)
Definition _find_resources_for_skills (self : CareerService) (skills : list string)
    : M (list (string * list Resource)) :=
  resources_by_category <- collect self skills ;;
  ret (remove_duplicates resources_by_category).

End Pipeline.

(** ** Specification vocabulary *)

(** The addresses requested over HTTP in a history. *)
Definition http_urls (evs : list event) : list string :=
  flat_map (fun ev => match ev with EvHttpGet u => [u] | _ => [] end) evs.

(** [m] returns, whatever the world, and what it returns satisfies [Q]. *)
Definition returns {World A : Type} (m : M (World := World) A) (Q : A -> Prop) : Prop :=
  forall st, exists st' a, m st = (st', Ok a) /\ Q a.

(** [m] extends the history, and the requests that it adds over HTTP are
    exactly [urls], whether it returns or raises. *)
Definition requests {World A : Type} (m : M (World := World) A) (urls : list string)
    : Prop :=
  forall st, exists evs, (m st).1.2 = st.2 ++ evs /\ http_urls evs = urls.

(** [m] extends the history with events that all satisfy [P], whether it
    returns or raises. *)
Definition emits {World A : Type} (m : M (World := World) A) (P : event -> Prop)
    : Prop :=
  forall st, exists evs, (m st).1.2 = st.2 ++ evs /\ Forall P evs.

(** A query of the store that can bring back vacancies: its filter asks for
    them, or it has no filter on the type. *)
Definition queries_vacancies (ev : event) : bool :=
  match ev with
  | EvQuery _ _ _ (Some where_) =>
      match assoc_get "resource_type" where_ with
      | Some t => String.eqb t (ResourceType_value VACANCY)
      | None => true
      end
  | EvQuery _ _ _ None => true
  | _ => false
  end.

Definition no_vacancies (ev : event) : Prop := queries_vacancies ev = false.


(** The de-duplication of one sequence as the design describes it: a running
    set of seen urls; a candidate is dropped if its url is empty or already
    seen, otherwise it is kept and its url recorded. *)
Fixpoint dedupe_from (seen : list string) (candidates : list Resource) : list Resource :=
  match candidates with
  | [] => []
  | c :: rest =>
      if bool_decide (url c = "" \/ url c ∈ seen) then dedupe_from seen rest
      else c :: dedupe_from (url c :: seen) rest
  end.

Definition dedupe (candidates : list Resource) : list Resource :=
  dedupe_from [] candidates.

(** De-duplication applied to each category on its own, then the cap. *)
Definition dedupe_per_category (resources_by_category : list (string * list Resource))
    : list (string * list Resource) :=
  (fun kv => (kv.1, take 10 (dedupe kv.2))) <$> resources_by_category.

Definition CATEGORY_KEYS : list string :=
  ["courses"; "articles"; "vacancies"; "projects"; "competitions"].

(** The lists of the store followed, category by category, by those of the
    web. *)
Definition merge_lists (store web : skill_lists) : skill_lists :=
  let '(courses, articles, projects, competitions) := store in
  let '(w_courses, w_articles, w_projects, w_competitions) := web in
  (courses ++ w_courses, articles ++ w_articles,
   projects ++ w_projects, competitions ++ w_competitions).

(** What the aggregation loop takes from the dictionary of the web search. *)
Definition web_part (web_resources : list (string * list Resource)) : skill_lists :=
  (get_list "courses" web_resources, get_list "articles" web_resources,
   get_list "projects" web_resources, get_list "competitions" web_resources).

Definition no_lists : skill_lists := ([], [], [], []).

(** The shape of the dictionary all along the loop over the skills: the five
    keys, and nothing under [vacancies]. *)
Definition well_formed (d : list (string * list Resource)) : Prop :=
  d.*1 = CATEGORY_KEYS /\ assoc_get "vacancies" d = Some [].

(** ** Concrete worlds

    Small worlds on which the pipeline is run: the world itself carries no
    state, the pages are told apart by their address. *)
Module Scenario.

Definition page_of_url (url : string) : ClientResponse :=
  {| status := 200%Z; text := Ok url; json := Ok empty_json |}.

(** Stepik answers the search for Docker with one course card and Habr Career
    with one vacancy card; every other page has no result. *)
Definition soup_of (html : string) : list node :=
  if String.eqb html (STEPIK_SEARCH_URL "Docker")
  then [Tag "a" ["course-card__title"] [("href", "/course/1")] [Text "Docker basics"]]
  else if String.eqb html (HABR_VACANCY_SEARCH_URL "Docker")
  then [Tag "div" ["vacancy-card__title"] []
          [Tag "a" [] [("href", "/vacancies/7")] [Text "DevOps engineer"]]]
  else [].

Definition runtime : Runtime (World := unit) :=
  {| session_get := fun url _ w => (w, Ok (page_of_url url));
     BeautifulSoup := soup_of;
     json_loads := fun _ => Ok [];
     json_dumps := fun _ => "{}";
     fromisoformat := fun _ => Ok tt;
     GITHUB_TOKEN := None;
     now_timestamp := fun w => (w, "0");
     hash := fun u => u |}.

Definition no_result : QueryResult :=
  {| qr_ids := [[]]; qr_documents := Some [[]]; qr_metadatas := Some [[]];
     qr_distances := Some [[]] |}.

(** A store that holds nothing. *)
Definition empty_client : ChromaClient (World := unit) :=
  {| get_or_create_collection := fun _ w => (w, Ok tt);
     collection_query := fun _ _ _ _ w => (w, Ok no_result);
     collection_add := fun _ _ _ _ w => (w, Ok tt) |}.

(** A store that holds nothing and refuses every write. *)
Definition read_only_client : ChromaClient (World := unit) :=
  {| get_or_create_collection := fun _ w => (w, Ok tt);
     collection_query := fun _ _ _ _ w => (w, Ok no_result);
     collection_add := fun _ _ _ _ w => (w, Raise (ExternalError "read-only")) |}.

(** One stored record of the given type about Docker; the address is the
    same whatever the type. *)
Definition one_hit (rtype : string) : QueryResult :=
  {| qr_ids := [["r-" +:+ rtype]];
     qr_documents := Some [["Docker in depth"]];
     qr_metadatas :=
       Some [[Some [("id", "r-" +:+ rtype); ("title", "Docker in depth");
                    ("url", "https://example.org/docker");
                    ("resource_type", rtype); ("skill", "Docker")]]];
     qr_distances := None |}.

(** A store in which the same address is filed both as a course and as an
    article. *)
Definition shared_url_client : ChromaClient (World := unit) :=
  {| get_or_create_collection := fun _ w => (w, Ok tt);
     collection_query := fun _ _ _ where_ w =>
       (w, Ok match where_ with
              | Some [_; (_, rtype)] =>
                  if String.eqb rtype "course" || String.eqb rtype "article"
                  then one_hit rtype else no_result
              | _ => no_result
              end);
     collection_add := fun _ _ _ _ w => (w, Ok tt) |}.

Definition stored (n : string) : option (list (string * string)) :=
  Some [("id", "course-" +:+ n); ("title", "Docker, part " +:+ n);
        ("url", "https://example.org/docker/" +:+ n);
        ("resource_type", "course"); ("skill", "Docker")].

Definition five_hits : QueryResult :=
  {| qr_ids := [["course-1"; "course-2"; "course-3"; "course-4"; "course-5"]];
     qr_documents := None;
     qr_metadatas := Some [[stored "1"; stored "2"; stored "3"; stored "4"; stored "5"]];
     qr_distances := None |}.

(** A store with five courses about Docker. *)
Definition full_client : ChromaClient (World := unit) :=
  {| get_or_create_collection := fun _ w => (w, Ok tt);
     collection_query := fun _ _ _ where_ w =>
       (w, Ok match where_ with
              | Some [_; (_, rtype)] =>
                  if String.eqb rtype "course" then five_hits else no_result
              | _ => no_result
              end);
     collection_add := fun _ _ _ _ w => (w, Ok tt) |}.


Definition service (c : ChromaClient (World := unit)) (web : bool) : CareerService :=
  let repo := {| vector_store := {| client := c |} |} in
  {| resource_repo := repo;
     web_searcher := if web then Some {| resource_repository := repo |} else None |}.

Definition start : state (World := unit) := (tt, []).

End Scenario.


(** ** Vocabulary for the further properties *)

(** Whenever [m] returns, what it returns satisfies [Q]. *)
Definition ensures {World A : Type} (m : M (World := World) A) (Q : A -> Prop) : Prop :=
  forall st st' a, m st = (st', Ok a) -> Q a.

(** The type of the resources filed under a key of the dictionaries. *)
Definition category_type (key : string) : option ResourceType :=
  if String.eqb key "courses" then Some COURSE
  else if String.eqb key "articles" then Some ARTICLE
  else if String.eqb key "vacancies" then Some VACANCY
  else if String.eqb key "projects" then Some PROJECT
  else if String.eqb key "competitions" then Some COMPETITION
  else None.

(** The repositories listed in a document of the GitHub search API. *)
Definition repositories (json_data : github_json) : list (nullable repo_json) :=
  match json_data with
  | JValue {| items := Some (JValue repos) |} => repos
  | _ => []
  end.

(** The ids given to resources by a save: none is empty, and a resource that
    had a non-empty id keeps it. *)
Definition ids_kept (resources : list Resource) (ids : list string) : Prop :=
  Forall2 (fun r i => i ≠ "" /\ forall i0, id r = Some i0 -> i0 ≠ "" -> i = i0)
    resources ids.

(** A resource as a parser builds it for the category of type [t], and as the
    web search returns it for [skill_name]. *)
Definition fresh_of (t : ResourceType) (r : Resource) : Prop :=
  resource_type r = t /\ id r = None.

Definition found_for (skill_name : string) (t : ResourceType) (r : Resource) : Prop :=
  resource_type r = t /\ skill r = skill_name.

(** The resources after a save are the resources before it, each with a
    non-empty id. *)
Definition saved_as (r r' : Resource) : Prop :=
  exists i, i ≠ "" /\ r' = set_id i r.

(** The skills resolved one after the other, each from the state in which the
    one before left the world. *)
Fixpoint resolve_all {World : Type} (rt : Runtime (World := World))
    (self : CareerService (World := World)) (skills : list string)
    : M (World := World) (list skill_lists) :=
  match skills with
  | [] => ret []
  | skill_name :: rest =>
      bind (resolve_skill rt self skill_name) (fun l =>
      bind (resolve_all rt self rest) (fun ls => ret (l :: ls)))
  end.

(** The dictionary of the five categories with the given lists. *)
Definition buckets (courses articles vacancies projects competitions : list Resource)
    : list (string * list Resource) :=
  [("courses", courses); ("articles", articles); ("vacancies", vacancies);
   ("projects", projects); ("competitions", competitions)].

(** The lists of the skills put end to end, category by category. *)
Definition buckets_of (ls : list skill_lists) : list (string * list Resource) :=
  buckets (concat ((fun l : skill_lists => l.1.1.1) <$> ls))
          (concat ((fun l : skill_lists => l.1.1.2) <$> ls))
          []
          (concat ((fun l : skill_lists => l.1.2) <$> ls))
          (concat ((fun l : skill_lists => l.2) <$> ls)).

(** The requests of a call, skill by skill: the six of the fan-out for the
    skills marked [true], none for the others. *)
Definition requests_of (flags : list bool) (skills : list string) : list string :=
  concat (zip_with (fun (b : bool) skill_name =>
                      if b then fan_out_urls skill_name else []) flags skills).

(** Values of the dictionary of [Resource.to_dict]. *)
Inductive field : Type :=
  | FNone
  | FStr (s : string)
  | FDict (d : list (string * meta_val)).

(** [Resource.to_dict] (without [created_at]). *)
Definition to_dict (self : Resource) : list (string * field) :=
  [("id", match id self with Some i => FStr i | None => FNone end);
   ("title", FStr (title self));
   ("url", FStr (url self));
   ("description", FStr (description self));
   ("resource_type", FStr (ResourceType_value (resource_type self)));
   ("skill", FStr (skill self));
   ("metadata", FDict (metadata self))].

(** [CareerService.find_resources_for_skills] *)
Definition find_resources_for_skills {World : Type} (rt : Runtime (World := World))
    (self : CareerService (World := World)) (skills : list string)
    : M (World := World) (list (string * list (list (string * field)))) :=
  bind (_find_resources_for_skills rt self skills) (fun resources =>
  ret ((fun kv : string * list Resource => (kv.1, to_dict <$> kv.2)) <$> resources)).

(** [sum(len(resources[category]) for category in resources)], the count that
    the endpoint [/api/find-resources] reports. *)
Definition total_resources {A : Type} (resources : list (string * list A)) : nat :=
  foldl (fun total category =>
           total + length (default [] (assoc_get category resources)))
    0 resources.*1.

(** ** The stand-alone agent ([career_advisor_agent_async])

    [searcher.py] has its own copies of the six parsers and of the search for
    one skill; they give dictionaries instead of [Resource] objects.  A value
    of such a dictionary is a string or [None]. *)
Module Standalone.

Definition item : Type := list (string * option string).

(** [d[key] = v]: the value is replaced where the key is, or added at the
    end. *)
Fixpoint set_key {V : Type} (key : string) (v : V) (d : list (string * V))
    : list (string * V) :=
  match d with
  | [] => [(key, v)]
  | (k, v0) :: d' =>
      if String.eqb k key then (k, v) :: d' else (k, v0) :: set_key key v d'
  end.

(** [d[key].append(x)] for a key of the dictionary. *)
Fixpoint append_to {A : Type} (key : string) (x : A) (d : list (string * list A))
    : list (string * list A) :=
  match d with
  | [] => []
  | (k, v) :: d' =>
      if String.eqb k key then (k, v ++ [x]) :: d' else (k, v) :: append_to key x d'
  end.

(** [{"title": title, "url": link}] *)
Definition title_url (t link : string) : item :=
  [("title", Some t); ("url", Some link)].

Definition coursera_body (courses : list item) (res : element) : result (list item) :=
  let t := strip (get_text res) in
  let link_tag := find_parent res "a" in
  rbind (match link_tag with
         | Some tag => rbind (getitem tag "href")
                         (fun h => Ok ("https://www.coursera.org" +:+ h))
         | None => Ok ""
         end)
    (fun link => if truthy t then Ok (courses ++ [title_url t link]) else Ok courses).

Definition parse_courses_from_coursera (soup : list node) : result (list item) :=
  let results := find_all soup "h2" (Some "card-title") in
  for_each coursera_body (take 3 results) [].

Definition stepik_body (courses : list item) (res : element) : result (list item) :=
  let t := strip (get_text res) in
  rbind (rbind (getitem res "href") (fun h => Ok ("https://stepik.org" +:+ h)))
    (fun link => Ok (courses ++ [title_url t link])).

Definition parse_courses_from_stepik (soup : list node) : result (list item) :=
  let results := find_all soup "a" (Some "course-card__title") in
  for_each stepik_body (take 3 results) [].

Definition habr_article_body (articles : list item) (res : element)
    : result (list item) :=
  let title_tag := find res "h2" None in
  let t := match title_tag with
           | Some tag => strip (get_text tag)
           | None => "Статья"
           end in
  let link_tag := find res "a" (Some "post__title_link") in
  rbind (match link_tag with
         | Some tag => getitem tag "href"
         | None => Ok ""
         end)
    (fun link => Ok (articles ++ [title_url t link])).

Definition parse_articles_from_habr (soup : list node) : result (list item) :=
  let results := find_all soup "article" (Some "post") in
  for_each habr_article_body (take 3 results) [].

Definition habr_vacancy_body (vacancies : list item) (card : element)
    : result (list item) :=
  let title_tag := find card "a" None in
  let t := match title_tag with
           | Some tag => strip (get_text tag)
           | None => "Вакансия"
           end in
  rbind (match title_tag with
         | Some tag => rbind (getitem tag "href")
                         (fun h => Ok ("https://career.habr.com" +:+ h))
         | None => Ok ""
         end)
    (fun link => Ok (vacancies ++ [title_url t link])).

Definition parse_vacancies_from_habr (soup : list node) : result (list item) :=
  let cards := find_all soup "div" (Some "vacancy-card__title") in
  for_each habr_vacancy_body (take 3 cards) [].

(** [repo.get('name')] and [repo.get('html_url')] are [None] when the key is
    absent; only the description has a default. *)
Definition github_body (projects : list item) (repo : nullable repo_json)
    : result (list item) :=
  match repo with
  | JNull => Raise AttributeError
  | JValue repo =>
      Ok (projects ++ [[("title", repo_name repo);
                        ("url", repo_html_url repo);
                        ("description", Some (default "" (repo_description repo)))]])
  end.

Definition parse_projects_from_github (json_data : github_json) : result (list item) :=
  rbind (get_items json_data) (fun found =>
  rbind (first_three found) (fun items =>
  for_each github_body items [])).

Definition kaggle_body (comps : list item) (card : element) : result (list item) :=
  let title_tag := find card "div" (Some "title") in
  let t := match title_tag with
           | Some tag => strip (get_text tag)
           | None => "Competition"
           end in
  let link_tag := find_parent card "a" in
  rbind (match link_tag with
         | Some tag => rbind (getitem tag "href")
                         (fun h => Ok ("https://www.kaggle.com" +:+ h))
         | None => Ok ""
         end)
    (fun link => Ok (comps ++ [title_url t link])).

Definition parse_competitions_from_kaggle (soup : list node) : result (list item) :=
  let cards := find_all soup "div" (Some "competition-card__header") in
  for_each kaggle_body (take 3 cards) [].

Section Agent.

Context {World : Type} (rt : Runtime (World := World)).

(** [searcher.fetch_text]: no handler here, a failure of the request is
    raised. *)
Definition fetch_text (url : string) : M (World := World) string :=
  bind (call (EvHttpGet url) (session_get rt url [("User-Agent", "Mozilla/5.0")]))
    (fun response =>
       if bool_decide (status response ≠ 200%Z) then ret "" else lift (text response)).

(** [responses[i] if isinstance(responses[i], str) else ""] *)
Definition text_or_empty (response : result string) : string :=
  match response with
  | Ok html => html
  | Raise _ => ""
  end.

Definition empty_resources : list (string * list item) :=
  [("courses", []); ("articles", []); ("vacancies", []);
   ("projects", []); ("competitions", [])].

(** [searcher.find_resources_for_skill] *)
Definition find_resources_for_skill (skill_name : string)
    : M (World := World) (list (string * list item)) :=
  let query := skill_name in
  bind (gathered (fetch_text (COURSERA_SEARCH_URL query))) (fun r0 =>
  bind (gathered (fetch_text (STEPIK_SEARCH_URL query))) (fun r1 =>
  bind (gathered (fetch_text (HABR_ARTICLES_SEARCH_URL query))) (fun r2 =>
  bind (gathered (fetch_text (HABR_VACANCY_SEARCH_URL query))) (fun r3 =>
  let github_headers :=
    match GITHUB_TOKEN rt with
    | Some gh_token =>
        if truthy gh_token then [("Authorization", "token " +:+ gh_token)] else []
    | None => []
    end in
  bind (gathered (call (EvHttpGet (GITHUB_SEARCH_API skill_name))
                    (session_get rt (GITHUB_SEARCH_API skill_name) github_headers)))
    (fun github_resp =>
  bind (gathered (fetch_text (KAGGLE_COMPETITIONS_URL query))) (fun r5 =>
  let coursera_html := text_or_empty r0 in
  let stepik_html := text_or_empty r1 in
  let habr_articles_html := text_or_empty r2 in
  let habr_vacancies_html := text_or_empty r3 in
  let kaggle_html := text_or_empty r5 in
  let github_data :=
    match github_resp with
    | Ok response => match json response with
                     | Ok data => data
                     | Raise _ => empty_json
                     end
    | Raise _ => empty_json
    end in
  bind (lift (parse_courses_from_coursera (BeautifulSoup rt coursera_html))) (fun coursera =>
  bind (lift (parse_courses_from_stepik (BeautifulSoup rt stepik_html))) (fun stepik =>
  bind (lift (parse_articles_from_habr (BeautifulSoup rt habr_articles_html))) (fun articles =>
  bind (lift (parse_vacancies_from_habr (BeautifulSoup rt habr_vacancies_html))) (fun vacancies =>
  bind (lift (parse_projects_from_github github_data)) (fun projects =>
  bind (lift (parse_competitions_from_kaggle (BeautifulSoup rt kaggle_html))) (fun competitions =>
  ret [("courses", coursera ++ stepik); ("articles", articles);
       ("vacancies", vacancies); ("projects", projects);
       ("competitions", competitions)])))))))))))).

(** The searches of [run_agent_async] (lines 19-29): one task per skill,
    gathered in the order of the skills; a search that raised counts as one
    that found nothing; the results are kept in a dictionary under the
    skill. *)
Fixpoint gather_skills (missing_skills : list string)
    : M (World := World) (list (result (list (string * list item)))) :=
  match missing_skills with
  | [] => ret []
  | skill_name :: rest =>
      bind (gathered (find_resources_for_skill skill_name)) (fun r =>
      bind (gather_skills rest) (fun rs => ret (r :: rs)))
  end.

Definition result_or_empty (r : result (list (string * list item)))
    : list (string * list item) :=
  match r with
  | Ok res => res
  | Raise _ => empty_resources
  end.

Definition resources_by_skill (missing_skills : list string)
    (results : list (result (list (string * list item))))
    : list (string * list (string * list item)) :=
  foldl (fun d sr => set_key sr.1 (result_or_empty sr.2) d) []
    (zip missing_skills results).

(** The loop over one category of one skill (lines 33-35 and the like):
    [x["skill"] = skill; combined[key].append(x)]. *)
Definition combine_category (skill_name key : string) (res : list (string * list item))
    (combined : list (string * list item)) : list (string * list item) :=
  foldl (fun comb x => append_to key (set_key "skill" (Some skill_name) x) comb)
    combined (default [] (assoc_get key res)).

(** The loop over the skills (lines 31-47). *)
Definition combine (by_skill : list (string * list (string * list item)))
    : list (string * list item) :=
  foldl (fun combined sr =>
           combine_category sr.1 "competitions" sr.2
             (combine_category sr.1 "projects" sr.2
                (combine_category sr.1 "vacancies" sr.2
                   (combine_category sr.1 "articles" sr.2
                      (combine_category sr.1 "courses" sr.2 combined)))))
    empty_resources by_skill.

(** Steps 3 and 4 of [run_agent_async]. *)
Definition combined_recommendations (missing_skills : list string)
    : M (World := World) (list (string * list item)) :=
  bind (gather_skills missing_skills) (fun results =>
  ret (combine (resources_by_skill missing_skills results))).

End Agent.

End Standalone.

(** What the two families of parsers are compared on. *)
Definition rmap {A B : Type} (f : A -> B) (r : result A) : result B :=
  match r with
  | Ok a => Ok (f a)
  | Raise e => Raise e
  end.

Definition item_of (r : Resource) : Standalone.item :=
  Standalone.title_url (title r) (url r).

(** Title and address of an item, [""] standing for an absent one. *)
Definition item_texts (it : Standalone.item) : string * string :=
  (default "" (mjoin (assoc_get "title" it)), default "" (mjoin (assoc_get "url" it))).

(** The items of one category that a skill brings to the combined
    dictionary. *)
Definition stamped (skill_name key : string)
    (r : result (list (string * list Standalone.item))) : list Standalone.item :=
  Standalone.set_key "skill" (Some skill_name)
    <$> default [] (assoc_get key (Standalone.result_or_empty r)).

(** Titles and addresses, category by category, of what the two searches
    return. *)
Definition texts_of (res : list (string * list Standalone.item))
    : list (string * list (string * string)) :=
  (fun kv : string * list Standalone.item => (kv.1, item_texts <$> kv.2)) <$> res.

Definition texts_of_web (p : web_lists) : list (string * list (string * string)) :=
  (fun kv : string * list Resource => (kv.1, (fun r => (title r, url r)) <$> kv.2))
    <$> web_dict p.

(** The five buckets of items. *)
Definition item_buckets (courses articles vacancies projects competitions
    : list Standalone.item) : list (string * list Standalone.item) :=
  [("courses", courses); ("articles", articles); ("vacancies", vacancies);
   ("projects", projects); ("competitions", competitions)].

(** ** More of [ChromaVectorStore] and [VectorResourceRepository] *)

(** What [collection.get] returns. *)
Record GetResult : Type := mkGetResult {
  gr_ids : list string;
  gr_documents : option (list string);
  gr_metadatas : option (list (option (list (string * string))))
}.

Record stored_record : Type := mkStoredRecord {
  rec_id : string;
  rec_document : string;
  rec_metadata : option (list (string * string))
}.

Section Repository.

Context {World : Type} (rt : Runtime (World := World)).

(** [collection.get(ids=ids)] of the chromadb client. *)
Context (collection_get : string -> list string -> World -> World * result GetResult).

(** A call of the outside world of which the history keeps no trace. *)
Definition call_unrecorded {A : Type} (op : World -> World * result A)
    : M (World := World) A :=
  fun st => let '(w', r) := op st.1 in ((w', st.2), r).

(** [l[i]], raising [IndexError] out of range. *)
Definition index {A : Type} (l : list A) (i : nat) : result A :=
  match l !! i with
  | Some a => Ok a
  | None => Raise IndexError
  end.

(** [l[i] if l else d] *)
Definition index_or {A : Type} (l : option (list A)) (d : A) (i : nat) : result A :=
  match l with
  | None | Some [] => Ok d
  | Some l' => index l' i
  end.

Definition format_record (results : GetResult) (formatted_results : list stored_record)
    (i : nat) : result (list stored_record) :=
  rbind (index (gr_ids results) i) (fun rid =>
  rbind (index_or (gr_documents results) "" i) (fun doc =>
  rbind (index_or (gr_metadatas results) (Some []) i) (fun md =>
  Ok (formatted_results ++ [mkStoredRecord rid doc md])))).

Definition format_records (results : GetResult) : result (list stored_record) :=
  match gr_ids results with
  | [] => Ok []
  | _ :: _ => for_each (format_record results) (seq 0 (length (gr_ids results))) []
  end.

(** [ChromaVectorStore.get_by_ids]: any failure is logged and answered by
    [[]]. *)
Definition get_by_ids (self : ChromaVectorStore (World := World))
    (collection_name : string) (ids : list string) : M (list stored_record) :=
  try_except
    (bind (call (EvGetOrCreate collection_name)
             (get_or_create_collection (client self) collection_name)) (fun _ =>
     bind (call_unrecorded (collection_get collection_name ids)) (fun results =>
     lift (format_records results))))
    (fun _ => ret []).

(** [VectorResourceRepository.get_by_id] *)
Definition get_by_id (self : VectorResourceRepository (World := World))
    (resource_id : string) : M (option Resource) :=
  bind (get_by_ids (vector_store self) COLLECTION_NAME [resource_id]) (fun results =>
  match results with
  | [] => ret None
  | first :: _ =>
      bind (lift (_metadata_to_resource rt (rec_metadata first))) (fun resource =>
      ret (Some resource))
  end).

(** [VectorResourceRepository.save]: returns the id, and with it the resource
    as updated in place. *)
Definition save (self : VectorResourceRepository (World := World)) (resource : Resource)
    : M (string * Resource) :=
  bind (_create_collection_if_not_exists self) (fun _ =>
  bind (resource_id_of rt resource) (fun resource_id =>
  let resource := set_id resource_id resource in
  let text := _resource_to_text resource in
  let metadata := stored_metadata rt resource_id resource in
  bind (add_documents (vector_store self) COLLECTION_NAME [text] [metadata] [resource_id])
    (fun _ =>
  ret (resource_id, resource)))).

End Repository.

(** ** [LLMService]: the texts built from the resources *)

Definition NL : string := String (ascii_of_nat 10) "".

(** The [UserProfile] dataclass, without its two time stamps. *)
Record UserProfile : Type := mkUserProfile {
  user_id : string;
  goals : string;
  skills : list string;
  experience : string;
  challenges : string;
  missing_skills : list string
}.

Definition category_names : list (string * string) :=
  [("courses", "Курсы"); ("articles", "Статьи"); ("vacancies", "Вакансии");
   ("projects", "Проекты"); ("competitions", "Соревнования")].

(** [category_names.get(category, category)] *)
Definition category_name (category : string) : string :=
  default category (assoc_get category category_names).

(** The inner loop of [_format_fallback_recommendations]. *)
Definition fallback_items (message : string) (items : list Resource) : string :=
  foldl (fun message item =>
           message +:+ "- " +:+ title item +:+ ": " +:+ url item +:+ NL)
    message (take 5 items).

Definition fallback_category (message : string) (kv : string * list Resource) : string :=
  match kv.2 with
  | [] => message
  | _ :: _ =>
      fallback_items (message +:+ category_name kv.1 +:+ ":" +:+ NL) kv.2 +:+ NL
  end.

(** [LLMService._format_fallback_recommendations] *)
Definition _format_fallback_recommendations (user_profile : UserProfile)
    (resources : list (string * list Resource)) : string :=
  let message :=
    "Основываясь на ваших целях (" +:+ goals user_profile
    +:+ ") и выявленных пробелах в навыках ("
    +:+ join ", " (missing_skills user_profile)
    +:+ "), рекомендую следующие ресурсы:" +:+ NL +:+ NL in
  foldl fallback_category message resources.

(** The inner loop of [_format_recommendations_prompt]. *)
Definition prompt_items (prompt_lines : list string) (items : list Resource)
    : list string :=
  foldl (fun prompt_lines item =>
           let prompt_lines :=
             prompt_lines ++ ["- " +:+ title item +:+ " (" +:+ url item +:+ ")"] in
           if truthy (description item)
           then prompt_lines ++ ["  " +:+ description item]
           else prompt_lines)
    prompt_lines (take 10 items).

Definition prompt_category (prompt_lines : list string) (kv : string * list Resource)
    : list string :=
  match kv.2 with
  | [] => prompt_lines
  | _ :: _ =>
      prompt_items (prompt_lines ++ [NL +:+ category_name kv.1 +:+ ":" +:+ NL]) kv.2
  end.

(** The list [prompt_lines] of [_format_recommendations_prompt], before it is
    joined. *)
Definition recommendations_prompt_lines (user_profile : UserProfile)
    (resources : list (string * list Resource)) : list string :=
  let intro :=
    "Пользователь стремится: " +:+ goals user_profile +:+ "." +:+ NL
    +:+ "Текущие трудности: " +:+ challenges user_profile +:+ "." +:+ NL
    +:+ "Выявленные пробелы в навыках: "
    +:+ join ", " (missing_skills user_profile) +:+ "." +:+ NL +:+ NL in
  let intro :=
    intro +:+ "На основании этого, сгенерируй персональные рекомендации для пользователя. "
    +:+ "Представь их структурировано по категориям (курсы, статьи, вакансии, проекты, соревнования) "
    +:+ "и поясни, как каждый пункт поможет закрыть пробелы и достичь целей." +:+ NL +:+ NL in
  let prompt_lines := [intro; "Ресурсы для рекомендаций:" +:+ NL] in
  let prompt_lines := foldl prompt_category prompt_lines resources in
  prompt_lines ++ [NL +:+ "Теперь составь итоговое сообщение для пользователя:"].

(** [LLMService._format_recommendations_prompt] *)
Definition _format_recommendations_prompt (user_profile : UserProfile)
    (resources : list (string * list Resource)) : string :=
  join NL (recommendations_prompt_lines user_profile resources).

(** ** The conversation as a text

    [str.lower] and [str.capitalize] are those of Python. *)
Section Conversation.

Context (lower capitalize : string -> string).

Definition message : Type := list (string * string).

Definition format_line (role content : string) : string :=
  if String.eqb role "user" then "Пользователь: " +:+ content
  else if String.eqb role "assistant" || String.eqb role "ai"
  then "Консультант: " +:+ content
  else capitalize role +:+ ": " +:+ content.

(** [msg[key]] *)
Definition message_item (msg : message) (key : string) : result string :=
  match assoc_get key msg with
  | Some v => Ok v
  | None => Raise (KeyError key)
  end.

(** [loader.format_conversation] *)
Definition loader_format_body (formatted_lines : list string) (msg : message)
    : result (list string) :=
  rbind (message_item msg "role") (fun role =>
  let role := lower role in
  rbind (message_item msg "message") (fun content =>
  Ok (formatted_lines ++ [format_line role content]))).

Definition loader_format_conversation (messages : list message) : result string :=
  rbind (for_each loader_format_body messages []) (fun formatted_lines =>
  Ok (join NL formatted_lines)).

(** The check of [loader.load_conversation] on the messages read from the
    file (lines 18-21). *)
Definition check_message (checked : unit) (msg : message) : result unit :=
  match assoc_get "role" msg, assoc_get "message" msg with
  | Some _, Some _ => Ok tt
  | _, _ => Raise (ValueError "JSON messages must contain 'role' and 'message' fields")
  end.

Definition check_messages (data : list message) : result (list message) :=
  rbind (for_each check_message data tt) (fun _ => Ok data).

(** [CareerService._format_conversation] *)
Definition _format_conversation (messages : list message) : string :=
  join NL
    (foldl (fun formatted_lines msg =>
              let role := lower (default "unknown" (assoc_get "role" msg)) in
              let content :=
                let m := default "" (assoc_get "message" msg) in
                if truthy m then m else default "" (assoc_get "content" msg) in
              formatted_lines ++ [format_line role content])
       [] messages).

End Conversation.

(** ** More concrete worlds *)

Module Cases.

(** The network is down: every request raises. *)
Definition offline_runtime : Runtime (World := unit) :=
  {| session_get := fun _ _ w => (w, Raise (ExternalError "connection refused"));
     BeautifulSoup := Scenario.soup_of;
     json_loads := fun _ => Ok [];
     json_dumps := fun _ => "{}";
     fromisoformat := fun _ => Ok tt;
     GITHUB_TOKEN := None;
     now_timestamp := fun w => (w, "0");
     hash := fun u => u |}.

(** Stepik answers the search for Docker with a card that has no address,
    and Habr Career the search for Python with one vacancy card; every other
    page has no result. *)
Definition broken_soup_of (html : string) : list node :=
  if String.eqb html (STEPIK_SEARCH_URL "Docker")
  then [Tag "a" ["course-card__title"] [] [Text "Docker basics"]]
  else if String.eqb html (HABR_VACANCY_SEARCH_URL "Python")
  then [Tag "div" ["vacancy-card__title"] []
          [Tag "a" [] [("href", "/vacancies/9")] [Text "Python developer"]]]
  else [].

Definition broken_runtime : Runtime (World := unit) :=
  {| session_get := fun url _ w => (w, Ok (Scenario.page_of_url url));
     BeautifulSoup := broken_soup_of;
     json_loads := fun _ => Ok [];
     json_dumps := fun _ => "{}";
     fromisoformat := fun _ => Ok tt;
     GITHUB_TOKEN := None;
     now_timestamp := fun w => (w, "0");
     hash := fun u => u |}.



Definition docker_course : Resource :=
  new_Resource "Docker basics" "https://stepik.org/course/1" "" COURSE [].

Definition repository : VectorResourceRepository (World := unit) :=
  {| vector_store := {| client := Scenario.empty_client |} |}.

(** A collection that holds the record of [docker_course] under [r-1], and
    fails on every other read. *)
Definition collection_get (name : string) (ids : list string) (w : unit)
    : unit * result GetResult :=
  match ids with
  | [i] =>
      if String.eqb i "r-1"
      then (w, Ok {| gr_ids := ["r-1"]; gr_documents := Some ["Docker basics"];
                     gr_metadatas :=
                       Some [Some (stored_metadata Scenario.runtime "r-1" docker_course)] |})
      else (w, Raise (ExternalError "get failed"))
  | _ => (w, Raise (ExternalError "get failed"))
  end.


(** [str.lower] and [str.capitalize] on ASCII text. *)
Definition lower_ascii (c : ascii) : ascii :=
  let n := nat_of_ascii c in
  if Nat.leb 65 n && Nat.leb n 90 then ascii_of_nat (n + 32) else c.

Definition upper_ascii (c : ascii) : ascii :=
  let n := nat_of_ascii c in
  if Nat.leb 97 n && Nat.leb n 122 then ascii_of_nat (n - 32) else c.

Fixpoint lower (s : string) : string :=
  match s with
  | EmptyString => EmptyString
  | String c s' => String (lower_ascii c) (lower s')
  end.

Definition capitalize (s : string) : string :=
  match s with
  | EmptyString => EmptyString
  | String c s' => String (upper_ascii c) (lower s')
  end.

Definition conversation : list message :=
  [[("role", "User"); ("message", "I want to learn Docker")];
   [("role", "assistant"); ("message", "What do you know already?")];
   [("role", "system"); ("message", ""); ("content", "")]].

End Cases.

(** * Properties *)

(** ** The monad *)

Section MonadFacts.

Context {World : Type}.
Abbreviation M := (M (World := World)).

Lemma returns_ret {A : Type} (a : A) (Q : A -> Prop) : Q a -> returns (ret a : M A) Q.
Proof. intros Ha st. exists st, a. done. Qed.

Lemma returns_bind {A B : Type} (m : M A) (f : A -> M B) (P : A -> Prop) (Q : B -> Prop) :
  returns m P -> (forall a, P a -> returns (f a) Q) -> returns (bind m f) Q.
Proof.
  intros Hm Hf st. destruct (Hm st) as (st1 & a & Hrun & Ha).
  destruct (Hf a Ha st1) as (st2 & b & Hrun' & Hb).
  exists st2, b. unfold bind. rewrite Hrun. done.
Qed.

Lemma returns_weaken {A : Type} (m : M A) (P Q : A -> Prop) :
  returns m P -> (forall a, P a -> Q a) -> returns m Q.
Proof.
  intros Hm HPQ st. destruct (Hm st) as (st' & a & Hrun & Ha). eauto.
Qed.

(** A handler that always returns makes the whole [try] return. *)
Lemma returns_try {A : Type} (body : M A) (handler : exn -> M A) (Q : A -> Prop) :
  (forall st st' a, body st = (st', Ok a) -> Q a) ->
  (forall e, returns (handler e) Q) ->
  returns (try_except body handler) Q.
Proof.
  intros Hbody Hh st. unfold try_except.
  destruct (body st) as [st1 [a | e]] eqn:Hrun.
  - exists st1, a. eauto.
  - apply Hh.
Qed.

Lemma returns_for_eachM {A B : Type} (body : B -> A -> M B) (I : B -> Prop) (xs : list A) :
  (forall acc x, I acc -> returns (body acc x) I) ->
  forall acc, I acc -> returns (for_eachM body xs acc) I.
Proof.
  intros Hbody. induction xs as [| x xs IH]; intros acc Hacc; simpl.
  - by apply returns_ret.
  - eapply returns_bind; [by apply Hbody | exact IH].
Qed.

Lemma requests_ret {A : Type} (a : A) : requests (ret a : M A) [].
Proof. intros st. exists []. by rewrite app_nil_r. Qed.

Lemma requests_raise {A : Type} (e : exn) : requests (raise e : M A) [].
Proof. intros st. exists []. by rewrite app_nil_r. Qed.

Lemma requests_lift {A : Type} (r : result A) : requests (lift r : M A) [].
Proof. intros st. exists []. by rewrite app_nil_r. Qed.

Lemma http_urls_app (l1 l2 : list event) : http_urls (l1 ++ l2) = http_urls l1 ++ http_urls l2.
Proof. unfold http_urls. apply flat_map_app. Qed.

Lemma requests_call {A : Type} (ev : event) (op : World -> World * result A) :
  requests (call ev op) (http_urls [ev]).
Proof.
  intros st. exists [ev]. unfold call. by destruct (op st.1).
Qed.

(** Requests of a sequence whose second part makes none. *)
Lemma requests_bind_quiet {A B : Type} (m : M A) (f : A -> M B) (urls : list string) :
  requests m urls -> (forall a, requests (f a) []) -> requests (bind m f) urls.
Proof.
  intros Hm Hf st. destruct (Hm st) as (evs & Hevs & Hurls). unfold bind.
  destruct (m st) as [st1 [a | e]] eqn:Hrun; simpl in *.
  - destruct (Hf a st1) as (evs' & Hevs' & Hurls').
    exists (evs ++ evs'). rewrite Hevs', Hevs, http_urls_app, Hurls, Hurls'.
    by rewrite app_assoc, app_nil_r.
  - eauto.
Qed.

(** Requests of a sequence whose first part always returns. *)
Lemma requests_bind {A B : Type} (m : M A) (f : A -> M B) (P : A -> Prop)
    (urls1 urls2 : list string) :
  returns m P -> requests m urls1 -> (forall a, requests (f a) urls2) ->
  requests (bind m f) (urls1 ++ urls2).
Proof.
  intros Hret Hm Hf st. destruct (Hm st) as (evs & Hevs & Hurls).
  destruct (Hret st) as (st1 & a & Hrun & _). unfold bind.
  rewrite Hrun in *. simpl in *.
  destruct (Hf a st1) as (evs' & Hevs' & Hurls').
  exists (evs ++ evs'). rewrite Hevs', Hevs, http_urls_app, Hurls, Hurls'.
  by rewrite app_assoc.
Qed.

Lemma requests_try {A : Type} (body : M A) (handler : exn -> M A) (urls : list string) :
  requests body urls -> (forall e, requests (handler e) []) ->
  requests (try_except body handler) urls.
Proof.
  intros Hm Hh st. destruct (Hm st) as (evs & Hevs & Hurls). unfold try_except.
  destruct (body st) as [st1 [a | e]] eqn:Hrun; simpl in *.
  - eauto.
  - destruct (Hh e st1) as (evs' & Hevs' & Hurls').
    exists (evs ++ evs'). rewrite Hevs', Hevs, http_urls_app, Hurls, Hurls'.
    by rewrite app_assoc, app_nil_r.
Qed.

Lemma requests_for_eachM {A B : Type} (body : B -> A -> M B) (xs : list A) :
  (forall acc x, requests (body acc x) []) ->
  forall acc, requests (for_eachM body xs acc) [].
Proof.
  intros Hbody. induction xs as [| x xs IH]; intros acc; simpl.
  - apply requests_ret.
  - apply requests_bind_quiet; [apply Hbody | exact IH].
Qed.

Lemma requests_gathered {A : Type} (task : M A) (urls : list string) :
  requests task urls -> requests (gathered task) urls.
Proof.
  intros Hm st. destruct (Hm st) as (evs & Hevs & Hurls). exists evs.
  unfold gathered. by destruct (task st).
Qed.

Lemma returns_gathered {A : Type} (task : M A) : returns (gathered task) (fun _ => True).
Proof.
  intros st. unfold gathered. destruct (task st) as [st' r]. by exists st', r.
Qed.

Lemma emits_ret {A : Type} (a : A) (P : event -> Prop) : emits (ret a : M A) P.
Proof. intros st. exists []. by rewrite app_nil_r. Qed.

Lemma emits_raise {A : Type} (e : exn) (P : event -> Prop) : emits (raise e : M A) P.
Proof. intros st. exists []. by rewrite app_nil_r. Qed.

Lemma emits_lift {A : Type} (r : result A) (P : event -> Prop) : emits (lift r : M A) P.
Proof. intros st. exists []. by rewrite app_nil_r. Qed.

Lemma emits_call {A : Type} (ev : event) (op : World -> World * result A)
    (P : event -> Prop) :
  P ev -> emits (call ev op) P.
Proof.
  intros Hev st. exists [ev]. unfold call. destruct (op st.1). simpl.
  split; [done | by constructor].
Qed.

Lemma emits_bind {A B : Type} (m : M A) (f : A -> M B) (P : event -> Prop) :
  emits m P -> (forall a, emits (f a) P) -> emits (bind m f) P.
Proof.
  intros Hm Hf st. destruct (Hm st) as (evs & Hevs & HP). unfold bind.
  destruct (m st) as [st1 [a | e]] eqn:Hrun; simpl in *.
  - destruct (Hf a st1) as (evs' & Hevs' & HP').
    exists (evs ++ evs'). rewrite Hevs', Hevs, app_assoc.
    split; [done | by apply Forall_app].
  - eauto.
Qed.

Lemma emits_try {A : Type} (body : M A) (handler : exn -> M A) (P : event -> Prop) :
  emits body P -> (forall e, emits (handler e) P) -> emits (try_except body handler) P.
Proof.
  intros Hm Hh st. destruct (Hm st) as (evs & Hevs & HP). unfold try_except.
  destruct (body st) as [st1 [a | e]] eqn:Hrun; simpl in *.
  - eauto.
  - destruct (Hh e st1) as (evs' & Hevs' & HP').
    exists (evs ++ evs'). rewrite Hevs', Hevs, app_assoc.
    split; [done | by apply Forall_app].
Qed.

Lemma emits_for_eachM {A B : Type} (body : B -> A -> M B) (xs : list A)
    (P : event -> Prop) :
  (forall acc x, emits (body acc x) P) ->
  forall acc, emits (for_eachM body xs acc) P.
Proof.
  intros Hbody. induction xs as [| x xs IH]; intros acc; simpl.
  - apply emits_ret.
  - apply emits_bind; [apply Hbody | exact IH].
Qed.

Lemma emits_gathered {A : Type} (task : M A) (P : event -> Prop) :
  emits task P -> emits (gathered task) P.
Proof.
  intros Hm st. destruct (Hm st) as (evs & Hevs & HP). exists evs.
  unfold gathered. by destruct (task st).
Qed.

End MonadFacts.

(** ** De-duplication and cap *)

Section Dedup.

Implicit Types (seen : gset string) (rs xs : list Resource) (r : Resource).

Lemma unique_step_cases seen (acc : list Resource) r :
  (url r ≠ "" /\ (url r ∉ seen) /\
     unique_step (seen, acc) r = ({[ url r ]} ∪ seen, acc ++ [r])) \/
  ((url r = "" \/ url r ∈ seen) /\ unique_step (seen, acc) r = (seen, acc)).
Proof.
  unfold unique_step; simpl.
  destruct (decide (url r = "")) as [He | He].
  - right. split; [by left |]. rewrite bool_decide_eq_false_2; [done | by intros H; apply H].
  - destruct (decide (url r ∈ seen)) as [Hs | Hs].
    + right. split; [by right |].
      rewrite (bool_decide_eq_false_2 (url r ∉ seen)); [| by intros H; apply H].
      by rewrite andb_false_r.
    + left. by rewrite !bool_decide_eq_true_2.
Qed.

(** The inner loop computes the designed de-duplication of the candidates
    whose url is not in [blocked], provided [seen] holds the non-empty urls
    of [blocked] and of [seenl]. *)
Lemma unique_loop_dedupe xs :
  forall seen (seenl blocked : list string) (acc : list Resource),
    (forall u, u ≠ "" -> (u ∈ seen <-> u ∈ seenl \/ u ∈ blocked)) ->
    (foldl unique_step (seen, acc) xs).2
    = acc ++ dedupe_from seenl (filter (fun r => url r ∉ blocked) xs).
Proof.
  induction xs as [| r xs IH]; intros seen seenl blocked acc Hrel; simpl.
  - by rewrite app_nil_r.
  - destruct (unique_step_cases seen acc r) as [(Hne & Hns & ->) | (Hdrop & ->)].
    + assert (Hnb : url r ∉ blocked) by (intros Hb; apply Hns, Hrel; auto).
      assert (Hnl : url r ∉ seenl) by (intros Hb; apply Hns, Hrel; auto).
      rewrite filter_cons_True by done. simpl.
      rewrite bool_decide_eq_false_2 by (intros [? | ?]; done).
      rewrite (IH _ (url r :: seenl) blocked).
      * by rewrite <- app_assoc.
      * intros u Hu. rewrite elem_of_union, elem_of_singleton, elem_of_cons.
        specialize (Hrel u Hu). tauto.
    + destruct (decide (url r ∈ blocked)) as [Hb | Hb].
      * rewrite filter_cons_False by (intros H; by apply H). by apply IH.
      * rewrite filter_cons_True by done. simpl.
        rewrite bool_decide_eq_true_2; [by apply IH |].
        destruct (decide (url r = "")) as [He | He]; [by left | right].
        destruct Hdrop as [? | Hs]; [done |].
        apply Hrel in Hs; [| done]. by destruct Hs.
Qed.

(** The urls that the inner loop leaves in [seen_urls]. *)
Lemma unique_loop_seen xs :
  forall seen (acc : list Resource) u,
    u ≠ "" ->
    (u ∈ (foldl unique_step (seen, acc) xs).1 <-> u ∈ seen \/ u ∈ url <$> xs).
Proof.
  induction xs as [| r xs IH]; intros seen acc u Hu; simpl.
  - rewrite elem_of_nil. tauto.
  - rewrite elem_of_cons.
    destruct (unique_step_cases seen acc r) as [(Hne & Hns & ->) | (Hdrop & ->)].
    + rewrite IH, elem_of_union, elem_of_singleton by done. tauto.
    + rewrite IH by done. split; [tauto |].
      intros [? | [-> | ?]]; [tauto | | tauto].
      destruct Hdrop; [done | tauto].
Qed.

Lemma dedupe_from_spec xs :
  forall seenl : list string,
    NoDup (url <$> dedupe_from seenl xs) /\
    Forall (fun r => url r ≠ "" /\ (url r ∉ seenl)) (dedupe_from seenl xs) /\
    dedupe_from seenl xs `sublist_of` xs.
Proof.
  induction xs as [| r xs IH]; intros seenl; simpl.
  - split; [constructor | split; [constructor | done]].
  - case_bool_decide as Hd.
    + destruct (IH seenl) as (Hnd & Hall & Hsub).
      split; [done | split; [done | by apply sublist_cons]].
    + destruct (IH (url r :: seenl)) as (Hnd & Hall & Hsub).
      split; [| split].
      * rewrite fmap_cons. constructor; [| done].
        intros Hin. apply list_elem_of_fmap in Hin as (r' & Heq & Hin).
        rewrite Forall_forall in Hall. destruct (Hall r' Hin) as [_ Hnot].
        apply Hnot. rewrite Heq. by left.
      * constructor; [tauto |].
        eapply Forall_impl; [exact Hall |]. simpl. intros r' [? Hnot].
        split; [done |]. intros Hin. apply Hnot. by right.
      * by apply sublist_skip.
Qed.

(** The bucket that the outer loop leaves for the category at a given
    place: [blocked] lists the urls met before the loop reached [pre]. *)
Lemma dedup_categories_lookup (pre : list (string * list Resource)) :
  forall seen (blocked : list string) c xs post,
    (forall u, u ≠ "" -> (u ∈ seen <-> u ∈ blocked)) ->
    dedup_categories seen (pre ++ (c, xs) :: post) !! length pre
    = Some (c, take 10 (dedupe (filter
               (fun r => url r ∉ blocked ++ (url <$> concat pre.*2)) xs))).
Proof.
  induction pre as [| [c0 xs0] pre IH]; intros seen blocked c xs post Hrel; simpl.
  - destruct (unique_loop seen xs) as [seen' uniq] eqn:Hloop. simpl.
    rewrite app_nil_r. do 3 f_equal.
    change uniq with (seen', uniq).2. rewrite <- Hloop. unfold unique_loop.
    rewrite (unique_loop_dedupe xs seen [] blocked []); [done |].
    intros u Hu. rewrite (Hrel u Hu), elem_of_nil. tauto.
  - destruct (unique_loop seen xs0) as [seen' uniq] eqn:Hloop. simpl.
    rewrite (IH seen' (blocked ++ (url <$> xs0))).
    + by rewrite fmap_app, app_assoc.
    + intros u Hu. change seen' with (seen', uniq).1. rewrite <- Hloop.
      unfold unique_loop. rewrite unique_loop_seen by done.
      rewrite elem_of_app, (Hrel u Hu). tauto.
Qed.

(** Every bucket that the outer loop leaves is the first 10 of the list
    [unique_resources] built for its category. *)
Lemma dedup_categories_buckets (cats : list (string * list Resource)) :
  forall seen,
    Forall2 (fun kv kv' =>
               kv'.1 = kv.1 /\
               exists uniq,
                 kv'.2 = take 10 uniq /\
                 uniq `sublist_of` kv.2 /\
                 NoDup (url <$> uniq) /\
                 Forall (fun r => url r ≠ "") uniq)
      cats (dedup_categories seen cats).
Proof.
  induction cats as [| [c xs] cats IH]; intros seen; simpl; [constructor |].
  destruct (unique_loop seen xs) as [seen' uniq] eqn:Hloop.
  constructor; [| apply IH]. simpl. split; [done |]. exists uniq.
  assert (Huniq : uniq = dedupe_from (elements seen)
                           (filter (fun r => url r ∉ @nil string) xs)).
  { change uniq with (seen', uniq).2. rewrite <- Hloop. unfold unique_loop.
    rewrite (unique_loop_dedupe xs seen (elements seen) [] []); [done |].
    intros u _. rewrite elem_of_elements, elem_of_nil. tauto. }
  destruct (dedupe_from_spec (filter (fun r => url r ∉ @nil string) xs)
              (elements seen)) as (Hnd & Hall & Hsub).
  rewrite <- Huniq in *. split; [done |]. split; [| split; [done |]].
  - etrans; [exact Hsub |]. apply sublist_filter.
  - eapply Forall_impl; [exact Hall |]. simpl. tauto.
Qed.

Lemma dedup_categories_keys (cats : list (string * list Resource)) :
  forall seen, (dedup_categories seen cats).*1 = cats.*1.
Proof.
  induction cats as [| [c xs] cats IH]; intros seen; simpl; [done |].
  destruct (unique_loop seen xs). simpl. by rewrite IH.
Qed.

(** A category that received nothing stays empty. *)
Lemma dedup_categories_empty (cats : list (string * list Resource)) :
  forall seen key,
    assoc_get key cats = Some [] ->
    assoc_get key (dedup_categories seen cats) = Some [].
Proof.
  induction cats as [| [c xs] cats IH]; intros seen key; simpl; [done |].
  destruct (unique_loop seen xs) as [seen' uniq] eqn:Hloop. simpl.
  destruct (String.eqb c key); [| by apply IH].
  intros [= ->]. by inversion Hloop.
Qed.

(** The whole result of the loops, bucket by bucket: for the category at
    place [i], the first 10 of the designed de-duplication of its candidates
    whose url does not occur in the categories before it. *)
Lemma remove_duplicates_buckets (rbc : list (string * list Resource)) :
  remove_duplicates rbc
  = imap (fun i kv =>
            (kv.1, take 10 (dedupe (filter
                      (fun r => url r ∉ url <$> concat (take i rbc).*2) kv.2))))
      rbc.
Proof.
  apply list_eq. intros i. rewrite list_lookup_imap.
  destruct (rbc !! i) as [[c xs] |] eqn:Hi; simpl.
  - pose proof (lookup_lt_Some _ _ _ Hi) as Hlt.
    assert (Hrel : forall u : string, u ≠ "" -> (u ∈ (∅ : gset string) <-> u ∈ @nil string)).
    { intros u _. rewrite elem_of_nil. set_solver. }
    pose proof (dedup_categories_lookup (take i rbc) ∅ [] c xs (drop (S i) rbc) Hrel)
      as Hbucket.
    rewrite (take_drop_middle _ _ _ Hi), length_take_le in Hbucket by lia.
    exact Hbucket.
  - apply lookup_ge_None. apply lookup_ge_None in Hi.
    unfold remove_duplicates.
    rewrite <- (length_fmap fst), dedup_categories_keys, length_fmap. exact Hi.
Qed.

End Dedup.

(** ** The vector store and the web searcher *)

Section PipelineFacts.

Context {World : Type} (rt : Runtime (World := World)).
Abbreviation M := (M (World := World)).

Lemma requests_store_call {A : Type} (ev : event) (op : World -> World * result A) :
  http_urls [ev] = [] -> requests (call ev op) [].
Proof. intros <-. apply requests_call. Qed.

Lemma search_returns (self : ChromaVectorStore (World := World)) collection_name query n_results filter :
  returns (search self collection_name query n_results filter) (fun _ => True).
Proof. apply returns_try; [done |]. intros e. by apply returns_ret. Qed.

Lemma search_requests (self : ChromaVectorStore (World := World)) collection_name query n_results filter :
  requests (search self collection_name query n_results filter) [].
Proof.
  apply requests_try; [| intros; apply requests_ret].
  apply requests_bind_quiet; [by apply requests_store_call |]. intros _.
  apply requests_bind_quiet; [by apply requests_store_call |]. intros results.
  apply requests_lift.
Qed.

Lemma search_by_skill_returns (self : VectorResourceRepository (World := World)) skill resource_type limit :
  returns (search_by_skill rt self skill resource_type limit) (fun _ => True).
Proof.
  eapply returns_bind; [apply search_returns |].
  intros results _. by apply returns_ret.
Qed.

Lemma search_by_skill_requests (self : VectorResourceRepository (World := World)) skill resource_type limit :
  requests (search_by_skill rt self skill resource_type limit) [].
Proof.
  apply requests_bind_quiet; [apply search_requests |].
  intros results. apply requests_ret.
Qed.


Lemma store_lookup_returns (self : CareerService (World := World)) skill :
  returns (store_lookup rt self skill) (fun _ => True).
Proof.
  unfold store_lookup.
  repeat (eapply returns_bind; [apply search_by_skill_returns | intros ? _]).
  by apply returns_ret.
Qed.

Lemma store_lookup_requests (self : CareerService (World := World)) skill :
  requests (store_lookup rt self skill) [].
Proof.
  unfold store_lookup.
  repeat (apply requests_bind_quiet; [apply search_by_skill_requests | intros ?]).
  apply requests_ret.
Qed.

Lemma create_collection_requests (self : ChromaVectorStore (World := World)) collection_name :
  requests (create_collection self collection_name) [].
Proof.
  apply requests_try; [| intros; apply requests_ret].
  apply requests_bind_quiet; [by apply requests_store_call |].
  intros _. apply requests_ret.
Qed.

Lemma add_documents_requests (self : ChromaVectorStore (World := World)) collection_name documents
    metadatas ids :
  requests (add_documents self collection_name documents metadatas ids) [].
Proof.
  apply requests_try; [| intros; apply requests_raise].
  apply requests_bind_quiet; [by apply requests_store_call |]. intros _.
  apply requests_bind_quiet; [by apply requests_store_call |]. intros _.
  apply requests_ret.
Qed.

Lemma resource_id_of_requests (resource : Resource) :
  requests (resource_id_of rt resource) [].
Proof.
  assert (Hgen : forall u : string, requests (fresh_resource_id rt u) []).
  { intros u st. exists []. unfold fresh_resource_id.
    destruct (now_timestamp rt st.1). simpl. by rewrite app_nil_r. }
  unfold resource_id_of. destruct (id resource) as [i |]; [| apply Hgen].
  destruct (truthy i); [apply requests_ret | apply Hgen].
Qed.

Lemma save_batch_requests (self : VectorResourceRepository (World := World)) resources :
  requests (save_batch rt self resources) [].
Proof.
  unfold save_batch.
  apply requests_bind_quiet.
  { apply requests_try; [| intros; apply requests_ret].
    apply requests_bind_quiet; [apply create_collection_requests |].
    intros _. apply requests_ret. }
  intros _. apply requests_bind_quiet.
  { apply requests_for_eachM. intros [[[documents metadatas] ids] saved] resource.
    apply requests_bind_quiet; [apply resource_id_of_requests |].
    intros resource_id. apply requests_ret. }
  intros [[[documents metadatas] ids] saved].
  apply requests_bind_quiet; [apply add_documents_requests |].
  intros _. apply requests_ret.
Qed.

Lemma fetch_text_returns (self : WebSearcher (World := World)) url :
  returns (fetch_text rt self url) (fun _ => True).
Proof. apply returns_try; [done |]. intros e. by apply returns_ret. Qed.

Lemma fetch_text_requests (self : WebSearcher (World := World)) url :
  requests (fetch_text rt self url) [url].
Proof.
  apply requests_try; [| intros; apply requests_ret].
  apply (requests_bind_quiet _ _ [url]); [apply requests_call |].
  intros response. case_bool_decide; [apply requests_ret | apply requests_lift].
Qed.

(** The fan-out makes its six requests, whatever they answer and whether or
    not a parser raises afterwards. *)
Lemma fan_out_requests (self : WebSearcher (World := World)) skill :
  requests (fan_out rt self skill) (fan_out_urls skill).
Proof.
  unfold fan_out, fan_out_urls.
  do 4 (eapply (requests_bind _ _ _ [_]);
        [apply fetch_text_returns | apply fetch_text_requests | intros ?]).
  eapply (requests_bind _ _ _ [_]);
    [apply returns_gathered | apply requests_gathered, requests_call | intros ?].
  apply (requests_bind_quiet _ _ [_]); [apply fetch_text_requests | intros ?].
  repeat (apply requests_bind_quiet; [apply requests_lift | intros ?]).
  apply requests_ret.
Qed.

Lemma find_resources_for_skill_requests (self : WebSearcher (World := World)) skill :
  requests (find_resources_for_skill rt self skill) (fan_out_urls skill).
Proof.
  apply requests_bind_quiet; [apply fan_out_requests |]. intros p.
  destruct (all_resources p); [apply requests_ret |].
  apply requests_bind_quiet; [apply save_batch_requests |].
  intros saved. apply requests_ret.
Qed.

Lemma web_fallback_returns (self : CareerService (World := World)) skill l :
  returns (web_fallback rt self skill l) (fun _ => True).
Proof.
  destruct l as [[[courses articles] projects] competitions]. unfold web_fallback.
  destruct (web_searcher self) as [ws |]; [| by apply returns_ret].
  case_bool_decide; [| by apply returns_ret].
  apply returns_try; [done |]. intros e. by apply returns_ret.
Qed.

Lemma resolve_skill_returns (self : CareerService (World := World)) skill :
  returns (resolve_skill rt self skill) (fun _ => True).
Proof.
  eapply returns_bind; [apply store_lookup_returns |].
  intros l _. apply web_fallback_returns.
Qed.

Lemma extend_keys key rs (d : list (string * list Resource)) :
  (extend key rs d).*1 = d.*1.
Proof.
  induction d as [| [k v] d IH]; simpl; [done |].
  destruct (String.eqb k key); simpl; [done | f_equal; exact IH].
Qed.

Lemma extend_other key key' rs (d : list (string * list Resource)) :
  String.eqb key key' = false ->
  assoc_get key' (extend key rs d) = assoc_get key' d.
Proof.
  intros Hne. induction d as [| [k v] d IH]; simpl; [done |].
  destruct (String.eqb k key) eqn:Hk; simpl.
  - apply String.eqb_eq in Hk as ->. by rewrite Hne.
  - destruct (String.eqb k key'); [done | exact IH].
Qed.

Lemma skill_body_returns (self : CareerService (World := World)) d skill :
  well_formed d -> returns (skill_body rt self d skill) well_formed.
Proof.
  intros [Hkeys Hvac]. eapply returns_bind; [apply resolve_skill_returns |].
  intros [[[courses articles] projects] competitions] _. apply returns_ret.
  split.
  - by rewrite !extend_keys.
  - by rewrite !extend_other.
Qed.

Lemma collect_returns (self : CareerService (World := World)) skills :
  returns (collect rt self skills) well_formed.
Proof.
  apply returns_for_eachM; [intros; by apply skill_body_returns | done].
Qed.

(** *** No query of the store can bring back vacancies *)

Lemma search_by_skill_no_vacancies (self : VectorResourceRepository (World := World))
    skill (t : ResourceType) :
  t ≠ VACANCY ->
  emits (search_by_skill rt self skill (Some (ResourceType_value t)) 5) no_vacancies.
Proof.
  intros Ht. apply emits_bind; [| intros; apply emits_ret].
  apply emits_try; [| intros; apply emits_ret].
  apply emits_bind; [apply emits_call; reflexivity |]. intros _.
  apply emits_bind; [| intros; apply emits_lift].
  apply emits_call. destruct t; try reflexivity; done.
Qed.

Lemma save_batch_no_vacancies (self : VectorResourceRepository (World := World)) resources :
  emits (save_batch rt self resources) no_vacancies.
Proof.
  unfold save_batch. apply emits_bind.
  { apply emits_try; [| intros; apply emits_ret].
    apply emits_bind; [| intros; apply emits_ret].
    apply emits_try; [| intros; apply emits_ret].
    apply emits_bind; [apply emits_call; reflexivity | intros; apply emits_ret]. }
  intros _. apply emits_bind.
  { apply emits_for_eachM. intros [[[documents metadatas] ids] saved] resource.
    apply emits_bind; [| intros; apply emits_ret].
    assert (Hgen : forall u : string, emits (fresh_resource_id rt u) no_vacancies).
    { intros u st. exists []. unfold fresh_resource_id.
      destruct (now_timestamp rt st.1). simpl. by rewrite app_nil_r. }
    unfold resource_id_of. destruct (id resource) as [i |]; [| apply Hgen].
    destruct (truthy i); [apply emits_ret | apply Hgen]. }
  intros [[[documents metadatas] ids] saved].
  apply emits_bind; [| intros; apply emits_ret].
  apply emits_try; [| intros; apply emits_raise].
  apply emits_bind; [apply emits_call; reflexivity |]. intros _.
  apply emits_bind; [apply emits_call; reflexivity | intros; apply emits_ret].
Qed.

Lemma fetch_text_no_vacancies (self : WebSearcher (World := World)) url :
  emits (fetch_text rt self url) no_vacancies.
Proof.
  apply emits_try; [| intros; apply emits_ret].
  apply emits_bind; [apply emits_call; reflexivity |].
  intros response. case_bool_decide; [apply emits_ret | apply emits_lift].
Qed.

Lemma find_resources_for_skill_no_vacancies (self : WebSearcher (World := World)) skill :
  emits (find_resources_for_skill rt self skill) no_vacancies.
Proof.
  apply emits_bind.
  { unfold fan_out.
    do 4 (apply emits_bind; [apply fetch_text_no_vacancies | intros ?]).
    apply emits_bind; [apply emits_gathered, emits_call; reflexivity | intros ?].
    apply emits_bind; [apply fetch_text_no_vacancies | intros ?].
    repeat (apply emits_bind; [apply emits_lift | intros ?]).
    apply emits_ret. }
  intros p. destruct (all_resources p); [apply emits_ret |].
  apply emits_bind; [apply save_batch_no_vacancies | intros; apply emits_ret].
Qed.

Lemma collect_no_vacancies (self : CareerService (World := World)) skills :
  emits (collect rt self skills) no_vacancies.
Proof.
  apply emits_for_eachM. intros d skill.
  apply emits_bind; [| intros [[[? ?] ?] ?]; apply emits_ret].
  apply emits_bind.
  { unfold store_lookup.
    do 4 (apply emits_bind; [by apply search_by_skill_no_vacancies | intros ?]).
    apply emits_ret. }
  intros [[[courses articles] projects] competitions]. unfold web_fallback.
  destruct (web_searcher self) as [ws |]; [| apply emits_ret].
  case_bool_decide; [| apply emits_ret].
  apply emits_try; [| intros; apply emits_ret].
  apply emits_bind; [apply find_resources_for_skill_no_vacancies |].
  intros; apply emits_ret.
Qed.

End PipelineFacts.

(** ** The aggregated result *)

Section Aggregation.

Context {World : Type} (rt : Runtime (World := World)).
Implicit Types (self : CareerService (World := World)) (st : state (World := World)).

(** C1 (as amended).  The loop that removes duplicates keeps one set of seen
    urls for all categories, which it visits in the order of the
    dictionary.  The bucket left for a category is the first 10 of the
    designed de-duplication of its sequence, once the candidates whose url
    occurs in the sequence of an earlier category have been removed; and in
    every bucket left no url is empty and no two candidates share a url. *)
Theorem dedup_shares_seen_urls (pre post : list (string * list Resource)) c xs :
  let res := remove_duplicates (pre ++ (c, xs) :: post) in
  res !! length pre
  = Some (c, take 10 (dedupe (filter (fun r => url r ∉ url <$> concat pre.*2) xs)))
  /\ Forall (fun kv => NoDup (url <$> kv.2) /\ Forall (fun r => url r ≠ "") kv.2) res.
Proof.
  split.
  - unfold remove_duplicates.
    rewrite (dedup_categories_lookup pre ∅ []); [done |].
    intros u _. rewrite elem_of_nil. set_solver.
  - unfold remove_duplicates.
    eapply Forall2_Forall_r; [apply dedup_categories_buckets |].
    apply Forall_forall. intros kv _ kv' (_ & uniq & -> & _ & Hnd & Hne).
    split; [| by apply Forall_take].
    rewrite fmap_take. eapply sublist_NoDup; [exact Hnd | apply sublist_take].
Qed.

(** C8.  Every aggregation call returns, and in what it returns every bucket
    holds at most 10 candidates: it is the first 10 of a list that keeps the
    candidates of the category in the order in which they were collected.
    That list is the one of the surviving candidates in the order of their
    first occurrence: the bucket at place [i] is the first 10 of the designed
    de-duplication, which keeps the first candidate met for each url, of the
    candidates of its category whose url occurs in no category before it. *)
Theorem cap_invariant self (skills : list string) st :
  exists st' rbc,
    collect rt self skills st = (st', Ok rbc) /\
    _find_resources_for_skills rt self skills st = (st', Ok (remove_duplicates rbc)) /\
    Forall2 (fun kv kv' =>
               kv'.1 = kv.1 /\ length kv'.2 <= 10 /\
               exists uniq, uniq `sublist_of` kv.2 /\ kv'.2 = take 10 uniq)
      rbc (remove_duplicates rbc) /\
    remove_duplicates rbc
    = imap (fun i kv =>
              (kv.1, take 10 (dedupe (filter
                        (fun r => url r ∉ url <$> concat (take i rbc).*2) kv.2))))
        rbc.
Proof.
  destruct (collect_returns rt self skills st) as (st' & rbc & Hrun & _).
  exists st', rbc. split; [done |]. split; [| split].
  - unfold _find_resources_for_skills, bind. by rewrite Hrun.
  - eapply Forall2_impl; [apply dedup_categories_buckets |].
    intros kv kv' (Hkey & uniq & Hb & Hsub & _). split; [done |]. split.
    + rewrite Hb, length_take. lia.
    + by exists uniq.
  - apply remove_duplicates_buckets.
Qed.

(** C9.  For every list of skills the call returns a dictionary with the
    five categories as its keys, in this order; for the empty list it
    returns five empty buckets and touches nothing. *)
Theorem structural_completeness self (skills : list string) st :
  (exists st' res,
     _find_resources_for_skills rt self skills st = (st', Ok res) /\
     res.*1 = CATEGORY_KEYS) /\
  _find_resources_for_skills rt self [] st = (st, Ok empty_buckets).
Proof.
  split; [| done].
  destruct (collect_returns rt self skills st) as (st' & rbc & Hrun & Hkeys & _).
  exists st', (remove_duplicates rbc). split.
  - unfold _find_resources_for_skills, bind. by rewrite Hrun.
  - unfold remove_duplicates. by rewrite dedup_categories_keys.
Qed.

(** C10.  For every list of skills the call returns, and the bucket of
    vacancies in what it returns is empty: no query of the store made by the
    call can bring back a vacancy, and nothing is put under [vacancies]
    during the loop over the skills. *)
Theorem vacancies_always_empty self (skills : list string) st :
  exists st' res evs,
    _find_resources_for_skills rt self skills st = (st', Ok res) /\
    assoc_get "vacancies" res = Some [] /\
    st'.2 = st.2 ++ evs /\
    Forall (fun ev => queries_vacancies ev = false) evs.
Proof.
  destruct (collect_returns rt self skills st) as (st' & rbc & Hrun & _ & Hvac).
  destruct (collect_no_vacancies rt self skills st) as (evs & Hevs & Hquiet).
  rewrite Hrun in Hevs. simpl in Hevs.
  exists st', (remove_duplicates rbc), evs. split.
  - unfold _find_resources_for_skills, bind. by rewrite Hrun.
  - split; [by apply dedup_categories_empty | done].
Qed.

End Aggregation.

(** ** One skill *)

Section OneSkill.

Context {World : Type} (rt : Runtime (World := World)).
Implicit Types (self : CareerService (World := World)) (st : state (World := World))
  (ws : WebSearcher (World := World)).

(** What [web_fallback] returns: the lists of the store, followed by the web
    part, which is empty or comes from a search on the web that returned. *)
Lemma web_fallback_merge self skill store st st' l :
  web_fallback rt self skill store st = (st', Ok l) ->
  exists web,
    l = merge_lists store web /\
    (web = no_lists \/
     exists ws web_resources,
       web_searcher self = Some ws /\
       find_resources_for_skill rt ws skill st = (st', Ok web_resources) /\
       web = web_part web_resources).
Proof.
  destruct store as [[[courses articles] projects] competitions].
  assert (Hnone : (courses, articles, projects, competitions)
                  = merge_lists (courses, articles, projects, competitions) no_lists).
  { simpl. by rewrite !app_nil_r. }
  unfold web_fallback. destruct (web_searcher self) as [ws |] eqn:Hws.
  - case_bool_decide.
    + unfold try_except, bind.
      destruct (find_resources_for_skill rt ws skill st) as [st2 [d | e]] eqn:Hweb.
      * intros [= <- <-]. exists (web_part d). split; [done |]. right.
        by exists ws, d.
      * intros [= <- <-]. exists no_lists. split; [exact Hnone | by left].
    + intros [= <- <-]. exists no_lists. split; [exact Hnone | by left].
  - intros [= <- <-]. exists no_lists. split; [exact Hnone | by left].
Qed.


Lemma store_lookup_quiet self skill st st1 r :
  store_lookup rt self skill st = (st1, r) -> http_urls st1.2 = http_urls st.2.
Proof.
  intros Hrun. destruct (store_lookup_requests rt self skill st) as (evs & Hevs & Hurls).
  rewrite Hrun in Hevs. simpl in Hevs.
  by rewrite Hevs, http_urls_app, Hurls, app_nil_r.
Qed.

(** C2.  When the four reads of the store give 5 candidates or more, the
    skill is resolved in the state in which the reads left the world: no
    request goes out.  When they give fewer and a web searcher is
    configured, [find_resources_for_skill] runs and the six requests of the
    fan-out go out. *)
Theorem threshold_gating self skill st st1 l :
  store_lookup rt self skill st = (st1, Ok l) ->
  (5 <= store_count l ->
     resolve_skill rt self skill st = (st1, Ok l) /\
     http_urls st1.2 = http_urls st.2) /\
  (store_count l < 5 ->
     forall ws, web_searcher self = Some ws ->
       exists st2 l',
         resolve_skill rt self skill st = (st2, Ok l') /\
         (find_resources_for_skill rt ws skill st1).1 = st2 /\
         http_urls st2.2 = http_urls st.2 ++ fan_out_urls skill).
Proof.
  intros Hrun. pose proof (store_lookup_quiet _ _ _ _ _ Hrun) as Hquiet.
  unfold resolve_skill, bind. rewrite Hrun.
  destruct l as [[[courses articles] projects] competitions]. split.
  - intros Hmany. split; [| done]. unfold web_fallback.
    destruct (web_searcher self); [| done].
    rewrite bool_decide_eq_false_2; [done | lia].
  - intros Hfew ws Hws. unfold web_fallback. rewrite Hws.
    rewrite bool_decide_eq_true_2 by done.
    destruct (find_resources_for_skill_requests rt ws skill st1) as (evs & Hevs & Hurls).
    unfold try_except, bind.
    destruct (find_resources_for_skill rt ws skill st1) as [st2 [d | e]];
      simpl in Hevs; eexists st2, _; (split; [reflexivity |]); (split; [done |]);
      by rewrite Hevs, http_urls_app, Hurls, Hquiet.
Qed.

(** C7.  The lists with which a skill is resolved are, category by category,
    the list read from the store followed by the list taken from the web
    search. *)
Theorem merge_ordering self skill st st' l :
  resolve_skill rt self skill st = (st', Ok l) ->
  exists st1 store web,
    store_lookup rt self skill st = (st1, Ok store) /\
    l = merge_lists store web /\
    (web = no_lists \/
     exists ws web_resources,
       web_searcher self = Some ws /\
       find_resources_for_skill rt ws skill st1 = (st', Ok web_resources) /\
       web = web_part web_resources).
Proof.
  unfold resolve_skill, bind.
  destruct (store_lookup rt self skill st) as [st1 [store | e]] eqn:Hrun; [| done].
  intros Hweb. apply web_fallback_merge in Hweb as (web & Hl & Hweb).
  by exists st1, store, web.
Qed.


(** C4 (as amended).  When the fan-out has produced candidates and
    [save_batch] raises, [find_resources_for_skill] raises too; the
    aggregation loop catches the exception and goes on with the lists of
    the store alone: nothing is surfaced, and the candidates of the web are
    dropped for this skill. *)
Theorem persistence_failure_drops_web_candidates self ws skill l st st1 p st2 e :
  web_searcher self = Some ws ->
  store_count l < 5 ->
  fan_out rt ws skill st = (st1, Ok p) ->
  all_resources p ≠ [] ->
  save_batch rt (resource_repository ws) (all_resources p) st1 = (st2, Raise e) ->
  find_resources_for_skill rt ws skill st = (st2, Raise e) /\
  web_fallback rt self skill l st = (st2, Ok l).
Proof.
  intros Hws Hfew Hfan Hsome Hsave.
  assert (Hweb : find_resources_for_skill rt ws skill st = (st2, Raise e)).
  { unfold find_resources_for_skill, bind. rewrite Hfan.
    destruct (all_resources p) as [| r rs]; [done |]. by rewrite Hsave. }
  split; [done |].
  destruct l as [[[courses articles] projects] competitions].
  unfold web_fallback. rewrite Hws, bool_decide_eq_true_2 by done.
  unfold try_except, bind. by rewrite Hweb.
Qed.

End OneSkill.

(** ** The parsers *)

Section Parsers.

Lemma for_each_invariant {A B : Type} (body : B -> A -> result B) (I : B -> Prop)
    (xs : list A) :
  (forall acc x acc', I acc -> body acc x = Ok acc' -> I acc') ->
  forall acc r, I acc -> for_each body xs acc = Ok r -> I r.
Proof.
  intros Hbody. induction xs as [| x xs IH]; intros acc r Hacc; simpl.
  - by intros [= <-].
  - destruct (body acc x) as [acc' | e] eqn:Hx; simpl; [| done].
    apply IH. by eapply Hbody.
Qed.

Lemma truthy_non_empty (s : string) : truthy s = true -> s ≠ "".
Proof.
  unfold truthy. intros H ->. done.
Qed.

(** The Coursera parser keeps a result only if its title is not empty, and
    the link of what it keeps is empty or starts with the origin. *)
Lemma coursera_title_policy (soup : list node) (courses : list Resource) :
  parse_courses_from_coursera soup = Ok courses ->
  Forall (fun r => title r ≠ "" /\
                   (url r = "" \/ exists h, url r = "https://www.coursera.org" +:+ h))
    courses.
Proof.
  unfold parse_courses_from_coursera.
  apply for_each_invariant; [| constructor].
  intros acc res acc' Hacc. unfold coursera_body.
  destruct (find_parent res "a") as [t |]; simpl.
  - destruct (getitem t "href") as [h | e]; simpl; [| done].
    destruct (truthy (strip (get_text res))) eqn:Ht; intros [= <-]; [| done].
    apply Forall_app. split; [done |]. constructor; [| constructor]. simpl.
    split; [by apply truthy_non_empty | right; by exists h].
  - destruct (truthy (strip (get_text res))) eqn:Ht; intros [= <-]; [| done].
    apply Forall_app. split; [done |]. constructor; [| constructor]. simpl.
    split; [by apply truthy_non_empty | by left].
Qed.

(** The link of every course of the Stepik parser starts with the origin. *)
Lemma stepik_links_absolute (soup : list node) (courses : list Resource) :
  parse_courses_from_stepik soup = Ok courses ->
  Forall (fun r => exists h, url r = "https://stepik.org" +:+ h) courses.
Proof.
  unfold parse_courses_from_stepik.
  apply for_each_invariant; [| constructor].
  intros acc res acc' Hacc. unfold stepik_body.
  destruct (getitem res "href") as [h | e]; simpl; [| done].
  intros [= <-]. apply Forall_app. split; [done |].
  constructor; [| constructor]. simpl. by exists h.
Qed.

(** C5.  A course card of Stepik without [href], and a vacancy card of Habr
    Career whose link has no [href], make the parser raise [KeyError]. *)
Theorem parsers_raise_on_missing_href :
  parse_courses_from_stepik
    [Tag "a" ["course-card__title"] [] [Text "Python"]]
  = Raise (KeyError "href") /\
  parse_vacancies_from_habr
    [Tag "div" ["vacancy-card__title"] [] [Tag "a" [] [] [Text "Python developer"]]]
  = Raise (KeyError "href").
Proof. split; reflexivity. Qed.

(** C6.  A course card of Stepik with a link and no text gives a course
    whose title is empty. *)
Theorem stepik_emits_untitled_course :
  parse_courses_from_stepik
    [Tag "a" ["course-card__title"] [("href", "/course/67")] []]
  = Ok [new_Resource "" "https://stepik.org/course/67" "" COURSE
          [("source", MStr "stepik")]].
Proof. reflexivity. Qed.

End Parsers.

(** C1 fails as first stated.  The store files one address both as a course and
    as an article; the article is the only candidate of its category, and it
    is dropped, whereas de-duplication within the category would keep it. *)
Lemma cross_category_duplicate_dropped :
  let self := Scenario.service Scenario.shared_url_client false in
  exists st rbc res course article,
    collect Scenario.runtime self ["Docker"] Scenario.start = (st, Ok rbc) /\
    _find_resources_for_skills Scenario.runtime self ["Docker"] Scenario.start
    = (st, Ok res) /\
    assoc_get "courses" rbc = Some [course] /\
    assoc_get "articles" rbc = Some [article] /\
    url article = url course /\ url article ≠ "" /\
    assoc_get "articles" res = Some [] /\
    assoc_get "articles" (dedupe_per_category rbc) = Some [article].
Proof.
  eexists _, _, _, _, _. vm_compute.
  split; [reflexivity |]. split; [reflexivity |].
  split; [reflexivity |]. split; [reflexivity |].
  split; [reflexivity |]. split; [discriminate |].
  split; reflexivity.
Qed.

(** C4 fails as first stated.  With a store that refuses the write, the course
    that the fan-out found is missing from the result; with a store that
    accepts it, the same call returns the course. *)
Lemma persistence_failure_changes_result :
  let refused := Scenario.service Scenario.read_only_client true in
  let accepted := Scenario.service Scenario.empty_client true in
  exists st st' res res' course,
    _find_resources_for_skills Scenario.runtime accepted ["Docker"] Scenario.start
    = (st, Ok res) /\
    _find_resources_for_skills Scenario.runtime refused ["Docker"] Scenario.start
    = (st', Ok res') /\
    assoc_get "courses" res = Some [course] /\
    assoc_get "courses" res' = Some [].
Proof.
  eexists _, _, _, _, _. vm_compute.
  split; [reflexivity |]. split; [reflexivity |]. split; reflexivity.
Qed.

(** The fan-out does fetch and parse vacancies: here it finds one, which the
    aggregated result does not show. *)
Lemma vacancy_candidates_discarded :
  let self := Scenario.service Scenario.empty_client true in
  let ws : WebSearcher :=
    {| resource_repository := {| vector_store := {| client := Scenario.empty_client |} |} |} in
  exists st p vacancy st' res,
    fan_out Scenario.runtime ws "Docker" Scenario.start = (st, Ok p) /\
    p.1.1.2 = [vacancy] /\
    url vacancy = "https://career.habr.com/vacancies/7" /\
    _find_resources_for_skills Scenario.runtime self ["Docker"] Scenario.start
    = (st', Ok res) /\
    assoc_get "vacancies" res = Some [].
Proof.
  eexists _, _, _, _, _. vm_compute.
  split; [reflexivity |]. split; [reflexivity |]. split; [reflexivity |].
  split; reflexivity.
Qed.

(** ** The theorems at work on the concrete worlds *)

Lemma threshold_gating_witness :
  let full := Scenario.service Scenario.full_client true in
  let empty := Scenario.service Scenario.empty_client true in
  (exists st1 l,
     store_lookup Scenario.runtime full "Docker" Scenario.start = (st1, Ok l) /\
     5 <= store_count l /\
     resolve_skill Scenario.runtime full "Docker" Scenario.start = (st1, Ok l) /\
     http_urls st1.2 = []) /\
  (exists st1 l st2 l',
     store_lookup Scenario.runtime empty "Docker" Scenario.start = (st1, Ok l) /\
     store_count l < 5 /\
     resolve_skill Scenario.runtime empty "Docker" Scenario.start = (st2, Ok l') /\
     http_urls st2.2 = fan_out_urls "Docker").
Proof.
  intros full empty. split.
  - eassert (Hrun : store_lookup Scenario.runtime full "Docker" Scenario.start
                    = (_, Ok _)) by (vm_compute; reflexivity).
    destruct (threshold_gating Scenario.runtime full "Docker" _ _ _ Hrun) as [Hmany _].
    assert (Hcount : 5 <= 5) by lia.
    destruct (Hmany Hcount) as [Hres Hurls].
    eexists _, _. split; [exact Hrun |]. split; [exact Hcount |].
    split; [exact Hres | exact Hurls].
  - eassert (Hrun : store_lookup Scenario.runtime empty "Docker" Scenario.start
                    = (_, Ok _)) by (vm_compute; reflexivity).
    destruct (threshold_gating Scenario.runtime empty "Docker" _ _ _ Hrun) as [_ Hfew].
    assert (Hcount : 0 < 5) by lia.
    destruct (Hfew Hcount _ eq_refl) as (st2 & l' & Hres & _ & Hurls).
    eexists _, _, st2, l'. split; [exact Hrun |]. split; [exact Hcount |].
    split; [exact Hres | exact Hurls].
Defined.

Lemma merge_ordering_witness :
  let self := Scenario.service Scenario.shared_url_client true in
  exists st' l,
    resolve_skill Scenario.runtime self "Docker" Scenario.start = (st', Ok l) /\
    exists st1 store web,
      store_lookup Scenario.runtime self "Docker" Scenario.start = (st1, Ok store) /\
      l = merge_lists store web /\
      (web = no_lists \/
       exists ws web_resources,
         web_searcher self = Some ws /\
         find_resources_for_skill Scenario.runtime ws "Docker" st1
         = (st', Ok web_resources) /\
         web = web_part web_resources).
Proof.
  intros self.
  eassert (Hrun : resolve_skill Scenario.runtime self "Docker" Scenario.start
                  = (_, Ok _)) by (vm_compute; reflexivity).
  eexists _, _. split; [exact Hrun |].
  exact (merge_ordering Scenario.runtime self "Docker" _ _ _ Hrun).
Defined.

Lemma persistence_failure_witness :
  let self := Scenario.service Scenario.read_only_client true in
  let ws : WebSearcher :=
    {| resource_repository := {| vector_store := {| client := Scenario.read_only_client |} |} |} in
  exists st1 p st2 e,
    web_searcher self = Some ws /\
    store_count no_lists < 5 /\
    fan_out Scenario.runtime ws "Docker" Scenario.start = (st1, Ok p) /\
    all_resources p ≠ [] /\
    save_batch Scenario.runtime (resource_repository ws) (all_resources p) st1
    = (st2, Raise e) /\
    find_resources_for_skill Scenario.runtime ws "Docker" Scenario.start
    = (st2, Raise e) /\
    web_fallback Scenario.runtime self "Docker" no_lists Scenario.start
    = (st2, Ok no_lists).
Proof.
  intros self ws.
  eassert (Hfan : fan_out Scenario.runtime ws "Docker" Scenario.start = (_, Ok _))
    by (vm_compute; reflexivity).
  match type of Hfan with
  | _ = (?st1, Ok ?p) =>
      eassert (Hsave : save_batch Scenario.runtime (resource_repository ws)
                         (all_resources p) st1 = (_, Raise _))
        by (vm_compute; reflexivity);
      assert (Hsome : all_resources p ≠ []) by (vm_compute; discriminate)
  end.
  assert (Hws : web_searcher self = Some ws) by reflexivity.
  assert (Hfew : store_count no_lists < 5) by (simpl; lia).
  eexists _, _, _, _.
  split; [exact Hws |]. split; [exact Hfew |]. split; [exact Hfan |].
  split; [exact Hsome |]. split; [exact Hsave |].
  exact (persistence_failure_drops_web_candidates Scenario.runtime self ws "Docker"
           no_lists _ _ _ _ _ Hws Hfew Hfan Hsome Hsave).
Defined.


(** * Further properties of the code *)

(** ** The parsers: how many candidates, and of what kind *)

Section ParserShape.

Lemma for_each_length_le {A : Type} (body : list Resource -> A -> result (list Resource))
    (xs : list A) :
  (forall acc x acc', body acc x = Ok acc' -> length acc' <= S (length acc)) ->
  forall acc r, for_each body xs acc = Ok r -> length r <= length acc + length xs.
Proof.
  intros Hbody. induction xs as [| x xs IH]; intros acc r; simpl.
  - intros [= <-]. lia.
  - destruct (body acc x) as [acc' | e] eqn:Hx; simpl; [| done].
    intros Hrun. apply IH in Hrun. apply Hbody in Hx. lia.
Qed.

Lemma for_each_length_eq {A : Type} (body : list Resource -> A -> result (list Resource))
    (xs : list A) :
  (forall acc x acc', body acc x = Ok acc' -> length acc' = S (length acc)) ->
  forall acc r, for_each body xs acc = Ok r -> length r = length acc + length xs.
Proof.
  intros Hbody. induction xs as [| x xs IH]; intros acc r; simpl.
  - intros [= <-]. lia.
  - destruct (body acc x) as [acc' | e] eqn:Hx; simpl; [| done].
    intros Hrun. apply IH in Hrun. apply Hbody in Hx. lia.
Qed.

(** A loop body that appends one resource after computing a link. *)
Lemma append_one_length (link : result string) (mk : string -> Resource)
    (acc acc' : list Resource) :
  rbind link (fun l => Ok (acc ++ [mk l])) = Ok acc' -> length acc' = S (length acc).
Proof.
  destruct link as [l | e]; simpl; [| done].
  intros [= <-]. rewrite length_app. simpl. lia.
Qed.

Lemma coursera_body_length acc res acc' :
  coursera_body acc res = Ok acc' -> length acc' <= S (length acc).
Proof.
  unfold coursera_body.
  destruct (match find_parent res "a" with
            | Some t => rbind (getitem t "href")
                          (fun h => Ok ("https://www.coursera.org" +:+ h))
            | None => Ok ""
            end) as [link | e]; simpl; [| done].
  destruct (truthy (strip (get_text res))); intros [= <-]; [| lia].
  rewrite length_app. simpl. lia.
Qed.

Lemma stepik_body_length acc res acc' :
  stepik_body acc res = Ok acc' -> length acc' = S (length acc).
Proof. apply append_one_length. Qed.

Lemma habr_article_body_length acc res acc' :
  habr_article_body acc res = Ok acc' -> length acc' = S (length acc).
Proof. apply append_one_length. Qed.

Lemma habr_vacancy_body_length acc res acc' :
  habr_vacancy_body acc res = Ok acc' -> length acc' = S (length acc).
Proof. apply append_one_length. Qed.

Lemma kaggle_body_length acc res acc' :
  kaggle_body acc res = Ok acc' -> length acc' = S (length acc).
Proof. apply append_one_length. Qed.

Lemma github_body_length acc repo acc' :
  github_body acc repo = Ok acc' -> length acc' = S (length acc).
Proof.
  destruct repo as [| repo]; simpl; [done |].
  intros [= <-]. rewrite length_app. simpl. lia.
Qed.

(** The document read as the parser reads it: the list it loops over, when
    it gets that far. *)
Lemma parse_projects_from_github_loop json_data l :
  parse_projects_from_github json_data = Ok l ->
  for_each github_body (take 3 (repositories json_data)) [] = Ok l.
Proof.
  unfold parse_projects_from_github, repositories.
  destruct json_data as [| [[[| repos] |]]]; simpl; done.
Qed.


(** X1.  Whatever the page, a parser that returns gives at most three
    candidates. *)
Theorem parsers_return_at_most_three (soup : list node) (json_data : github_json)
    (l : list Resource) :
  parse_courses_from_coursera soup = Ok l \/
  parse_courses_from_stepik soup = Ok l \/
  parse_articles_from_habr soup = Ok l \/
  parse_vacancies_from_habr soup = Ok l \/
  parse_projects_from_github json_data = Ok l \/
  parse_competitions_from_kaggle soup = Ok l ->
  length l <= 3.
Proof.
  assert (Htake : forall (A : Type) (xs : list A), length (take 3 xs) <= 3).
  { intros A xs. rewrite length_take. lia. }
  intros [H | [H | [H | [H | [H | H]]]]].
  - apply for_each_length_le in H; [| exact coursera_body_length].
    specialize (Htake _ (find_all soup "h2" (Some "card-title"))). simpl in H. lia.
  - apply for_each_length_eq in H; [| exact stepik_body_length].
    specialize (Htake _ (find_all soup "a" (Some "course-card__title"))). simpl in H. lia.
  - apply for_each_length_eq in H; [| exact habr_article_body_length].
    specialize (Htake _ (find_all soup "article" (Some "post"))). simpl in H. lia.
  - apply for_each_length_eq in H; [| exact habr_vacancy_body_length].
    specialize (Htake _ (find_all soup "div" (Some "vacancy-card__title"))). simpl in H. lia.
  - apply parse_projects_from_github_loop in H.
    apply for_each_length_eq in H; [| exact github_body_length].
    specialize (Htake _ (repositories json_data)). simpl in H. lia.
  - apply for_each_length_eq in H; [| exact kaggle_body_length].
    specialize (Htake _ (find_all soup "div" (Some "competition-card__header"))).
    simpl in H. lia.
Qed.


End ParserShape.

(** ** What a save does to the resources *)

Section Saving.

Context {World : Type} (rt : Runtime (World := World)).
Implicit Types (st : state (World := World)).

Lemma ensures_ret {A : Type} (a : A) (Q : A -> Prop) :
  Q a -> ensures (ret a : M (World := World) A) Q.
Proof. intros Ha st st' a' [= <- <-]. exact Ha. Qed.

Lemma ensures_bind {A B : Type} (m : M (World := World) A) (f : A -> M B)
    (P : A -> Prop) (Q : B -> Prop) :
  ensures m P -> (forall a, P a -> ensures (f a) Q) -> ensures (bind m f) Q.
Proof.
  intros Hm Hf st st' b. unfold bind.
  destruct (m st) as [st1 [a | e]] eqn:Hrun; [| done].
  intros Hrun'. eapply Hf; [| exact Hrun']. by eapply Hm.
Qed.

Lemma ensures_any {A : Type} (m : M (World := World) A) : ensures m (fun _ => True).
Proof. done. Qed.

Lemma ensures_lift {A : Type} (r : result A) (Q : A -> Prop) :
  (forall a, r = Ok a -> Q a) -> ensures (lift r : M (World := World) A) Q.
Proof. intros Hr st st' a [= <- ->]. by apply Hr. Qed.

Lemma fresh_resource_id_spec (u : string) st :
  exists w' i,
    fresh_resource_id rt u st = ((w', st.2), Ok i) /\ i ≠ "".
Proof.
  unfold fresh_resource_id. destruct (now_timestamp rt st.1) as [w' ts].
  exists w', ("resource_" +:+ ts +:+ "_" +:+ hash rt u). split; [done |].
  simpl. discriminate.
Qed.

Lemma resource_id_of_spec (resource : Resource) st :
  exists w' i,
    resource_id_of rt resource st = ((w', st.2), Ok i) /\
    i ≠ "" /\ (forall i0, id resource = Some i0 -> i0 ≠ "" -> i = i0).
Proof.
  unfold resource_id_of. destruct (id resource) as [i0 |] eqn:Hid.
  - destruct (truthy i0) eqn:Ht.
    + exists st.1, i0. split; [by destruct st |].
      split; [by apply truthy_non_empty | by intros ? [= ->]].
    + destruct (fresh_resource_id_spec (url resource) st) as (w' & i & Hrun & Hi).
      exists w', i. split; [done |]. split; [done |].
      intros ? [= <-] Hne. exfalso. apply Hne.
      unfold truthy in Ht. apply negb_false_iff, String.eqb_eq in Ht. done.
  - destruct (fresh_resource_id_spec (url resource) st) as (w' & i & Hrun & Hi).
    exists w', i. split; [done |]. split; [done | done].
Qed.

Lemma save_batch_body_spec documents metadatas ids saved (r : Resource) st :
  exists w' i,
    save_batch_body rt (documents, metadatas, ids, saved) r st
    = ((w', st.2),
       Ok (documents ++ [_resource_to_text (set_id i r)],
           metadatas ++ [stored_metadata rt i (set_id i r)],
           ids ++ [i], saved ++ [set_id i r])) /\
    i ≠ "" /\ (forall i0, id r = Some i0 -> i0 ≠ "" -> i = i0).
Proof.
  destruct (resource_id_of_spec r st) as (w1 & i & Hrun & Hi & Hkeep).
  exists w1, i. split; [| done].
  unfold save_batch_body, bind. by rewrite Hrun.
Qed.

(** The loop of [save_batch] always returns; it records nothing, gives one id
    for each resource and hands the resources back with these ids. *)
Lemma save_loop_spec (resources : list Resource) :
  forall documents metadatas ids saved st,
    exists w' new_ids out_documents out_metadatas,
      for_eachM (save_batch_body rt) resources (documents, metadatas, ids, saved) st
      = ((w', st.2),
         Ok (out_documents, out_metadatas, ids ++ new_ids,
             saved ++ zip_with set_id new_ids resources)) /\
      ids_kept resources new_ids.
Proof.
  induction resources as [| r rs IH]; intros documents metadatas ids saved st.
  - exists st.1, [], documents, metadatas. simpl. rewrite !app_nil_r.
    split; [by destruct st | constructor].
  - destruct (save_batch_body_spec documents metadatas ids saved r st)
      as (w1 & i & Hrun & Hi & Hkeep).
    destruct (IH (documents ++ [_resource_to_text (set_id i r)])
                (metadatas ++ [stored_metadata rt i (set_id i r)])
                (ids ++ [i]) (saved ++ [set_id i r]) (w1, st.2))
      as (w' & new_ids & out_d & out_m & Hloop & Hids).
    exists w', (i :: new_ids), out_d, out_m.
    change (for_eachM (save_batch_body rt) (r :: rs) (documents, metadatas, ids, saved) st)
      with (bind (save_batch_body rt (documents, metadatas, ids, saved) r)
              (for_eachM (save_batch_body rt) rs) st).
    unfold bind. rewrite Hrun, Hloop. simpl.
    rewrite <- !app_assoc. simpl. split; [done |]. by constructor.
Qed.

Lemma save_batch_spec (self : VectorResourceRepository (World := World))
    (resources : list Resource) st st' (ids : list string) (saved : list Resource) :
  save_batch rt self resources st = (st', Ok (ids, saved)) ->
  length ids = length resources /\
  ids_kept resources ids /\
  saved = zip_with set_id ids resources /\
  last st'.2 = Some (EvAdd COLLECTION_NAME ids).
Proof.
  unfold save_batch. unfold bind at 1.
  destruct (_create_collection_if_not_exists self st) as [st1 [[] | e]]; [| done].
  unfold bind at 1.
  destruct (save_loop_spec resources [] [] [] [] st1)
    as (w' & new_ids & out_d & out_m & Hloop & Hids).
  rewrite Hloop. simpl.
  unfold bind at 1. unfold add_documents, try_except, bind, call, raise, ret. simpl.
  destruct (get_or_create_collection (client (vector_store self)) COLLECTION_NAME w')
    as [w2 [[] | e]]; simpl; [| done].
  destruct (collection_add (client (vector_store self)) COLLECTION_NAME out_d out_m
              new_ids w2) as [w3 [[] | e]]; simpl; [| done].
  intros [= <- <- <-]. simpl.
  split; [symmetry; by eapply Forall2_length |]. split; [done |]. split; [done |].
  by rewrite last_snoc.
Qed.

(** X3.  When [save_batch] returns, it has given one id for each resource, in
    order; none is empty and a resource that already had a non-empty id keeps
    it; the resources carry these ids afterwards; and the last thing done is
    the addition of exactly these ids to the collection. *)
Theorem save_batch_assigns_ids (self : VectorResourceRepository (World := World))
    (resources : list Resource) st st' (ids : list string) (saved : list Resource) :
  save_batch rt self resources st = (st', Ok (ids, saved)) ->
  length ids = length resources /\
  ids_kept resources ids /\
  saved = zip_with set_id ids resources /\
  last st'.2 = Some (EvAdd COLLECTION_NAME ids).
Proof. apply save_batch_spec. Qed.

End Saving.

(** ** What the web search returns *)

Section WebResult.

Context {World : Type} (rt : Runtime (World := World)).
Implicit Types (st : state (World := World)) (self : WebSearcher (World := World)).

Lemma append_one_fresh (t : ResourceType) (link : result string)
    (ttl : string) (md : list (string * meta_val)) (acc acc' : list Resource) :
  Forall (fresh_of t) acc ->
  rbind link (fun l => Ok (acc ++ [new_Resource ttl l "" t md])) = Ok acc' ->
  Forall (fresh_of t) acc'.
Proof.
  intros Hacc. destruct link as [l | e]; simpl; [| done].
  intros [= <-]. apply Forall_app. split; [done |]. by repeat constructor.
Qed.

Lemma parse_courses_from_coursera_fresh soup l :
  parse_courses_from_coursera soup = Ok l -> Forall (fresh_of COURSE) l.
Proof.
  apply for_each_invariant; [| constructor].
  intros acc res acc' Hacc. unfold coursera_body.
  destruct (match find_parent res "a" with
            | Some t => rbind (getitem t "href")
                          (fun h => Ok ("https://www.coursera.org" +:+ h))
            | None => Ok ""
            end) as [link | e]; simpl; [| done].
  destruct (truthy (strip (get_text res))); intros [= <-]; [| done].
  apply Forall_app. split; [done |]. by repeat constructor.
Qed.

Lemma parse_courses_from_stepik_fresh soup l :
  parse_courses_from_stepik soup = Ok l -> Forall (fresh_of COURSE) l.
Proof.
  apply for_each_invariant; [| constructor].
  intros acc res acc' Hacc. by apply append_one_fresh.
Qed.

Lemma parse_articles_from_habr_fresh soup l :
  parse_articles_from_habr soup = Ok l -> Forall (fresh_of ARTICLE) l.
Proof.
  apply for_each_invariant; [| constructor].
  intros acc res acc' Hacc. by apply append_one_fresh.
Qed.

Lemma parse_vacancies_from_habr_fresh soup l :
  parse_vacancies_from_habr soup = Ok l -> Forall (fresh_of VACANCY) l.
Proof.
  apply for_each_invariant; [| constructor].
  intros acc res acc' Hacc. by apply append_one_fresh.
Qed.

Lemma parse_competitions_from_kaggle_fresh soup l :
  parse_competitions_from_kaggle soup = Ok l -> Forall (fresh_of COMPETITION) l.
Proof.
  apply for_each_invariant; [| constructor].
  intros acc res acc' Hacc. by apply append_one_fresh.
Qed.

Lemma parse_projects_from_github_fresh json_data l :
  parse_projects_from_github json_data = Ok l -> Forall (fresh_of PROJECT) l.
Proof.
  intros Hrun. apply parse_projects_from_github_loop in Hrun. revert Hrun.
  apply for_each_invariant; [| constructor].
  intros acc [| repo] acc' Hacc; simpl; [done |]. intros [= <-].
  apply Forall_app. split; [done |]. by repeat constructor.
Qed.

Lemma set_skill_found (skill_name : string) (t : ResourceType) (l : list Resource) :
  Forall (fresh_of t) l ->
  Forall (fun r => found_for skill_name t r /\ id r = None) (set_skill skill_name <$> l).
Proof.
  intros Hl. apply Forall_fmap. eapply Forall_impl; [exact Hl |].
  intros r [Ht Hid]. by repeat split.
Qed.

(** The lists of the fan-out: each holds resources of its own type, all with
    the skill written in and none with an id yet. *)
Lemma fan_out_found self skill_name :
  ensures (fan_out rt self skill_name)
    (fun p =>
       let '(courses, articles, vacancies, projects, competitions) := p in
       Forall (fun r => found_for skill_name COURSE r /\ id r = None) courses /\
       Forall (fun r => found_for skill_name ARTICLE r /\ id r = None) articles /\
       Forall (fun r => found_for skill_name VACANCY r /\ id r = None) vacancies /\
       Forall (fun r => found_for skill_name PROJECT r /\ id r = None) projects /\
       Forall (fun r => found_for skill_name COMPETITION r /\ id r = None) competitions).
Proof.
  unfold fan_out.
  do 6 (eapply ensures_bind; [apply ensures_any | intros ? _]).
  eapply ensures_bind;
    [apply ensures_lift; intros ? H; exact (parse_courses_from_coursera_fresh _ _ H) |].
  intros coursera Hc.
  eapply ensures_bind;
    [apply ensures_lift; intros ? H; exact (parse_courses_from_stepik_fresh _ _ H) |].
  intros stepik Hs.
  eapply ensures_bind;
    [apply ensures_lift; intros ? H; exact (parse_articles_from_habr_fresh _ _ H) |].
  intros articles Ha.
  eapply ensures_bind;
    [apply ensures_lift; intros ? H; exact (parse_vacancies_from_habr_fresh _ _ H) |].
  intros vacancies Hv.
  eapply ensures_bind;
    [apply ensures_lift; intros ? H; exact (parse_projects_from_github_fresh _ _ H) |].
  intros projects Hp.
  eapply ensures_bind;
    [apply ensures_lift; intros ? H; exact (parse_competitions_from_kaggle_fresh _ _ H) |].
  intros competitions Hk.
  apply ensures_ret.
  repeat split; apply set_skill_found; try done.
  apply Forall_app. by split.
Qed.

Lemma zip_with_set_id_saved (resources : list Resource) (ids : list string) :
  ids_kept resources ids ->
  Forall2 saved_as resources (zip_with set_id ids resources).
Proof.
  induction 1 as [| r i rs ids [Hi _] _ IH]; simpl; constructor; [| done].
  by exists i.
Qed.

Lemma with_saved_lists (courses articles vacancies projects competitions saved
    : list Resource) :
  Forall2 saved_as (courses ++ articles ++ vacancies ++ projects ++ competitions) saved ->
  let '(courses', articles', vacancies', projects', competitions') :=
    with_saved (courses, articles, vacancies, projects, competitions) saved in
  Forall2 saved_as courses courses' /\
  Forall2 saved_as articles articles' /\
  Forall2 saved_as vacancies vacancies' /\
  Forall2 saved_as projects projects' /\
  Forall2 saved_as competitions competitions'.
Proof.
  intros H. simpl.
  apply Forall2_app_inv_l in H as (s1 & r1 & H1 & H & ->).
  apply Forall2_app_inv_l in H as (s2 & r2 & H2 & H & ->).
  apply Forall2_app_inv_l in H as (s3 & r3 & H3 & H & ->).
  apply Forall2_app_inv_l in H as (s4 & s5 & H4 & H5 & ->).
  rewrite (Forall2_length _ _ _ H1), (Forall2_length _ _ _ H2),
    (Forall2_length _ _ _ H3), (Forall2_length _ _ _ H4).
  rewrite take_app_length.
  rewrite drop_app_length, take_app_length.
  rewrite <- (drop_drop (s1 ++ s2 ++ s3 ++ s4 ++ s5)), drop_app_length.
  rewrite drop_app_length, take_app_length.
  rewrite <- (drop_drop (s1 ++ s2 ++ s3 ++ s4 ++ s5)),
    <- (drop_drop (s1 ++ s2 ++ s3 ++ s4 ++ s5)).
  rewrite !drop_app_length, take_app_length.
  rewrite <- !(drop_drop (s1 ++ s2 ++ s3 ++ s4 ++ s5)).
  rewrite !drop_app_length.
  done.
Qed.

Lemma web_dict_elem (p : web_lists) (key : string) (rs : list Resource) :
  (key, rs) ∈ web_dict p ->
  let '(courses, articles, vacancies, projects, competitions) := p in
  key = "courses" /\ rs = courses \/ key = "articles" /\ rs = articles \/
  key = "vacancies" /\ rs = vacancies \/ key = "projects" /\ rs = projects \/
  key = "competitions" /\ rs = competitions.
Proof.
  destruct p as [[[[courses articles] vacancies] projects] competitions]. simpl.
  rewrite !elem_of_cons, elem_of_nil.
  intros [[= -> ->] | [[= -> ->] | [[= -> ->] | [[= -> ->] | [[= -> ->] | []]]]]]; tauto.
Qed.

Lemma saved_found (skill_name : string) (t : ResourceType) (l l' : list Resource) :
  Forall (fun r => found_for skill_name t r /\ id r = None) l ->
  Forall2 saved_as l l' ->
  Forall (fun r => found_for skill_name t r /\ exists i, id r = Some i /\ i ≠ "") l'.
Proof.
  intros Hl Hsaved. revert Hl.
  induction Hsaved as [| r r' l l' (i & Hi & ->) _ IH]; [constructor |].
  intros Hl. apply Forall_cons in Hl as [[[Ht Hs] _] Hl].
  constructor; [| by apply IH].
  split; [by split |]. by exists i.
Qed.

(** X4.  When the search on the web returns, its dictionary has the five
    categories as keys, and every resource in it has the type of the key it
    is filed under, the skill that was searched, and a non-empty id. *)
Theorem web_search_result_shape self (skill_name : string) st st'
    (d : list (string * list Resource)) :
  find_resources_for_skill rt self skill_name st = (st', Ok d) ->
  d.*1 = CATEGORY_KEYS /\
  forall key rs r,
    (key, rs) ∈ d -> r ∈ rs ->
    category_type key = Some (resource_type r) /\
    skill r = skill_name /\
    exists i, id r = Some i /\ i ≠ "".
Proof.
  unfold find_resources_for_skill, bind.
  destruct (fan_out rt self skill_name st) as [st1 [p | e]] eqn:Hfan; [| done].
  pose proof (fan_out_found self skill_name _ _ _ Hfan) as Hp.
  destruct p as [[[[courses articles] vacancies] projects] competitions].
  destruct Hp as (Hc & Ha & Hv & Hpr & Hk).
  destruct (all_resources (courses, articles, vacancies, projects, competitions))
    as [| r0 rest] eqn:Hall.
  - intros [= <- <-]. split; [done |].
    simpl in Hall.
    apply app_eq_nil in Hall as [-> Hall]. apply app_eq_nil in Hall as [-> Hall].
    apply app_eq_nil in Hall as [-> Hall]. apply app_eq_nil in Hall as [-> ->].
    intros key rs r Hin Hr. exfalso.
    apply (web_dict_elem ([], [], [], [], [])) in Hin.
    destruct Hin as [[_ ->] | [[_ ->] | [[_ ->] | [[_ ->] | [_ ->]]]]];
      by apply elem_of_nil in Hr.
  - rewrite <- Hall.
    destruct (save_batch rt (resource_repository self)
                (all_resources (courses, articles, vacancies, projects, competitions)) st1)
      as [st2 [[ids saved] | e]] eqn:Hsave; [| done].
    intros [= <- <-].
    apply save_batch_spec in Hsave as (_ & Hids & -> & _).
    apply zip_with_set_id_saved in Hids.
    unfold all_resources in Hids |- *. cbn [snd].
    pose proof (with_saved_lists _ _ _ _ _ _ Hids) as Hlists.
    destruct (with_saved (courses, articles, vacancies, projects, competitions)
                (zip_with set_id ids
                   (courses ++ articles ++ vacancies ++ projects ++ competitions)))
      as [[[[courses' articles'] vacancies'] projects'] competitions'] eqn:Hws.
    destruct Hlists as (Hc' & Ha' & Hv' & Hpr' & Hk').
    split; [done |].
    intros key rs r Hin Hr.
    assert (Hin' : (key, rs) ∈ web_dict (courses', articles', vacancies', projects',
                                          competitions')).
    { simpl in Hws. injection Hws as <- <- <- <- <-. exact Hin. }
    clear Hin. apply web_dict_elem in Hin'. rename Hin' into Hin.
    assert (Hgen : forall t l l',
              Forall (fun r => found_for skill_name t r /\ id r = None) l ->
              Forall2 saved_as l l' -> r ∈ l' ->
              Some t = Some (resource_type r) /\ skill r = skill_name /\
              exists i, id r = Some i /\ i ≠ "").
    { intros t l l' Hl Hs Hrl. pose proof (saved_found _ _ _ _ Hl Hs) as Hf.
      rewrite Forall_forall in Hf. destruct (Hf r Hrl) as [[<- Hsk] Hid]. done. }
    destruct Hin as [[-> ->] | [[-> ->] | [[-> ->] | [[-> ->] | [-> ->]]]]];
      eapply Hgen; eauto.
Qed.

End WebResult.

(** ** The web search when the network is down, and what is stored *)

Section Offline.

Context {World : Type} (rt : Runtime (World := World)).
Implicit Types (st : state (World := World)) (self : WebSearcher (World := World)).

Lemma bind_ok {A B : Type} (m : M (World := World) A) (f : A -> M B) st st1 (a : A) :
  m st = (st1, Ok a) -> bind m f st = f a st1.
Proof. intros H. unfold bind. by rewrite H. Qed.

Lemma fetch_text_offline self (url : string) st :
  (forall u headers w, exists w' e, session_get rt u headers w = (w', Raise e)) ->
  exists w', fetch_text rt self url st = ((w', st.2 ++ [EvHttpGet url]), Ok "").
Proof.
  intros Hnet.
  destruct (Hnet url [("User-Agent", "Mozilla/5.0")] st.1) as (w' & e & Hget).
  exists w'. unfold fetch_text, try_except, bind, call. by rewrite Hget.
Qed.

(** X5.  When every request fails, the search on the web still returns: it
    has made its six requests, it gives five empty lists, and it has not
    touched the store. *)
Theorem web_search_offline self (skill_name : string) st :
  (forall u headers w, exists w' e, session_get rt u headers w = (w', Raise e)) ->
  BeautifulSoup rt "" = [] ->
  exists w',
    find_resources_for_skill rt self skill_name st
    = ((w', st.2 ++ (EvHttpGet <$> fan_out_urls skill_name)),
       Ok (web_dict ([], [], [], [], []))).
Proof.
  intros Hnet Hsoup.
  unfold find_resources_for_skill, fan_out.
  set (t1 := st.2 ++ [EvHttpGet (COURSERA_SEARCH_URL skill_name)]).
  set (t2 := t1 ++ [EvHttpGet (STEPIK_SEARCH_URL skill_name)]).
  set (t3 := t2 ++ [EvHttpGet (HABR_ARTICLES_SEARCH_URL skill_name)]).
  set (t4 := t3 ++ [EvHttpGet (HABR_VACANCY_SEARCH_URL skill_name)]).
  set (t5 := t4 ++ [EvHttpGet (GITHUB_SEARCH_API skill_name)]).
  destruct (fetch_text_offline self (COURSERA_SEARCH_URL skill_name) st Hnet)
    as (w1 & H1).
  destruct (fetch_text_offline self (STEPIK_SEARCH_URL skill_name) (w1, t1) Hnet)
    as (w2 & H2).
  destruct (fetch_text_offline self (HABR_ARTICLES_SEARCH_URL skill_name) (w2, t2) Hnet)
    as (w3 & H3).
  destruct (fetch_text_offline self (HABR_VACANCY_SEARCH_URL skill_name) (w3, t3) Hnet)
    as (w4 & H4).
  set (headers := match GITHUB_TOKEN rt with
                  | Some gh_token =>
                      if truthy gh_token
                      then [("Authorization", "token " +:+ gh_token)] else []
                  | None => []
                  end).
  destruct (Hnet (GITHUB_SEARCH_API skill_name) headers w4) as (w5 & e & H5).
  destruct (fetch_text_offline self (KAGGLE_COMPETITIONS_URL skill_name) (w5, t5) Hnet)
    as (w6 & H6).
  fold t1 in H1. simpl in H2, H3, H4, H6. fold t2 in H2. fold t3 in H3. fold t4 in H4.
  exists w6. unfold bind at 1. unfold bind at 1. rewrite H1.
  unfold bind at 1. rewrite H2.
  unfold bind at 1. rewrite H3.
  unfold bind at 1. rewrite H4.
  unfold bind at 1. unfold gathered, call. cbn [fst snd]. rewrite H5. fold t5.
  unfold bind at 1. rewrite H6.
  rewrite Hsoup. simpl. unfold fan_out_urls, t5, t4, t3, t2, t1. simpl.
  by rewrite <- !app_assoc.
Qed.

(** X6.  What [save_batch] stores for a resource is read back as the same
    resource with its id, provided the JSON text of its [metadata] is read
    back as that dictionary: a hit carrying the stored dictionary adds exactly
    that resource to the result of a search. *)
Theorem stored_metadata_round_trip (resource_id : string) (r : Resource)
    (found : list Resource) (h : hit) :
  json_loads rt (json_dumps rt (metadata r)) = Ok (metadata r) ->
  hit_metadata h = Some (stored_metadata rt resource_id r) ->
  _metadata_to_resource rt (Some (stored_metadata rt resource_id r))
  = Ok (set_id resource_id r) /\
  convert_hit rt found h = found ++ [set_id resource_id r].
Proof.
  intros Hjson Hh.
  assert (Hconv : _metadata_to_resource rt (Some (stored_metadata rt resource_id r))
                  = Ok (set_id resource_id r)).
  { destruct r as [i t u d ty sk md].
    unfold _metadata_to_resource, stored_metadata, dict_get, set_id. simpl in *.
    rewrite Hjson. by destruct ty. }
  split; [exact Hconv |].
  unfold convert_hit. by rewrite Hh, Hconv.
Qed.

End Offline.

(** ** The aggregated result as a whole *)

Section WholeResult.

Implicit Types (seen : gset string) (xs : list Resource).

Lemma unique_loop_parts seen xs :
  exists seen' uniq,
    unique_loop seen xs = (seen', uniq) /\
    uniq `sublist_of` xs /\
    NoDup (url <$> uniq) /\
    Forall (fun r => url r ≠ "" /\ (url r ∉ seen)) uniq /\
    (forall u, u ≠ "" -> (u ∈ seen' <-> u ∈ seen \/ u ∈ url <$> xs)).
Proof.
  destruct (unique_loop seen xs) as [seen' uniq] eqn:Hloop. exists seen', uniq.
  split; [done |].
  assert (Huniq : uniq = dedupe_from (elements seen)
                           (filter (fun r => url r ∉ @nil string) xs)).
  { change uniq with (seen', uniq).2. rewrite <- Hloop. unfold unique_loop.
    rewrite (unique_loop_dedupe xs seen (elements seen) [] []); [done |].
    intros u _. rewrite elem_of_elements, elem_of_nil. tauto. }
  destruct (dedupe_from_spec (filter (fun r => url r ∉ @nil string) xs)
              (elements seen)) as (Hnd & Hall & Hsub).
  rewrite <- Huniq in *. split; [| split; [done | split]].
  - etrans; [exact Hsub | apply sublist_filter].
  - eapply Forall_impl; [exact Hall |]. simpl. intros r [? Hn].
    split; [done |]. by rewrite <- elem_of_elements.
  - intros u Hu. change seen' with (seen', uniq).1. rewrite <- Hloop.
    by apply unique_loop_seen.
Qed.

Lemma dedup_categories_global (cats : list (string * list Resource)) :
  forall seen,
    NoDup (url <$> concat (dedup_categories seen cats).*2) /\
    Forall (fun r => url r ≠ "" /\ (url r ∉ seen))
      (concat (dedup_categories seen cats).*2).
Proof.
  induction cats as [| [c xs] cats IH]; intros seen; simpl.
  - split; constructor.
  - destruct (unique_loop_parts seen xs) as (seen' & uniq & -> & Hsub & Hnd & Hall & Hseen).
    simpl. destruct (IH seen') as (Hnd' & Hall').
    assert (Htake : take 10 uniq `sublist_of` uniq) by apply sublist_take.
    split.
    + rewrite fmap_app. apply NoDup_app. split; [| split; [| done]].
      * rewrite fmap_take. eapply sublist_NoDup; [exact Hnd | apply sublist_take].
      * intros u Hu Hu'.
        apply list_elem_of_fmap in Hu as (r & -> & Hr).
        apply list_elem_of_fmap in Hu' as (r' & Heq & Hr').
        rewrite Forall_forall in Hall'. destruct (Hall' r' Hr') as [Hne Hnot].
        apply Hnot. rewrite <- Heq. apply Hseen; [by rewrite Heq |]. right.
        apply list_elem_of_fmap. exists r. split; [done |].
        eapply elem_of_sublist; [exact Hr |]. by etrans.
    + apply Forall_app. split.
      * by apply Forall_take.
      * eapply Forall_impl; [exact Hall' |]. simpl. intros r [Hne Hnot].
        split; [done |]. intros Hin. apply Hnot. apply Hseen; [done | by left].
Qed.

Lemma filter_nothing_blocked xs : filter (fun r => url r ∉ @nil string) xs = xs.
Proof.
  induction xs as [| r xs IH]; [done |].
  rewrite filter_cons_True; [by rewrite IH |]. apply not_elem_of_nil.
Qed.

Lemma dedupe_from_fixed xs :
  forall seenl : list string,
    NoDup (url <$> xs) ->
    Forall (fun r => url r ≠ "" /\ (url r ∉ seenl)) xs ->
    dedupe_from seenl xs = xs.
Proof.
  induction xs as [| r xs IH]; intros seenl Hnd Hall; simpl; [done |].
  apply Forall_cons in Hall as [[Hne Hnot] Hall].
  rewrite fmap_cons in Hnd. apply NoDup_cons in Hnd as [Hr Hnd].
  rewrite bool_decide_eq_false_2 by tauto. f_equal. apply IH; [done |].
  rewrite Forall_forall in Hall |- *. intros r' Hr'.
  destruct (Hall r' Hr') as [Hne' Hnot']. split; [done |].
  rewrite elem_of_cons. intros [Heq | Hin]; [| done].
  apply Hr. rewrite <- Heq. apply list_elem_of_fmap. by exists r'.
Qed.

Lemma dedup_categories_fixed (cats : list (string * list Resource)) :
  forall seen,
    NoDup (url <$> concat cats.*2) ->
    Forall (fun r => url r ≠ "" /\ (url r ∉ seen)) (concat cats.*2) ->
    Forall (fun kv => length kv.2 <= 10) cats ->
    dedup_categories seen cats = cats.
Proof.
  induction cats as [| [c xs] cats IH]; intros seen Hnd Hall Hlen; simpl; [done |].
  simpl in Hnd, Hall. rewrite fmap_app in Hnd.
  apply NoDup_app in Hnd as (Hnd1 & Hdisj & Hnd2).
  apply Forall_app in Hall as [Hall1 Hall2].
  apply Forall_cons in Hlen as [Hlen1 Hlen2]. simpl in Hlen1.
  destruct (unique_loop seen xs) as [seen' uniq] eqn:Hloop.
  assert (Huniq : uniq = xs).
  { change uniq with (seen', uniq).2. rewrite <- Hloop. unfold unique_loop.
    rewrite (unique_loop_dedupe xs seen (elements seen) [] []).
    - rewrite filter_nothing_blocked. apply dedupe_from_fixed; [done |].
      eapply Forall_impl; [exact Hall1 |]. simpl. intros r [? Hn].
      split; [done |]. by rewrite elem_of_elements.
    - intros u _. rewrite elem_of_elements, elem_of_nil. tauto. }
  subst uniq. rewrite take_ge by done. f_equal. apply IH; [done | | done].
  rewrite Forall_forall in Hall2 |- *. intros r Hr.
  destruct (Hall2 r Hr) as [Hne Hnot]. split; [done |].
  change seen' with (seen', xs).1. rewrite <- Hloop. unfold unique_loop.
  rewrite unique_loop_seen by done. intros [Hin | Hin]; [done |].
  apply (Hdisj (url r)); [done |]. apply list_elem_of_fmap. by exists r.
Qed.

Lemma dedup_categories_lengths (cats : list (string * list Resource)) seen :
  Forall (fun kv => length kv.2 <= 10) (dedup_categories seen cats).
Proof.
  eapply Forall2_Forall_r; [apply dedup_categories_buckets |].
  apply Forall_forall. intros kv _ kv' (_ & uniq & -> & _).
  rewrite length_take. lia.
Qed.

(** X7.  No address occurs twice in the whole result of the de-duplication,
    whatever the categories of the two candidates, and none is empty. *)
Theorem result_urls_unique (resources_by_category : list (string * list Resource)) :
  NoDup (url <$> concat (remove_duplicates resources_by_category).*2) /\
  Forall (fun r => url r ≠ "") (concat (remove_duplicates resources_by_category).*2).
Proof.
  destruct (dedup_categories_global resources_by_category ∅) as [Hnd Hall].
  split; [exact Hnd |]. eapply Forall_impl; [exact Hall |]. simpl. tauto.
Qed.

(** X8.  De-duplicating a result again changes nothing. *)
Theorem remove_duplicates_idempotent (resources_by_category : list (string * list Resource)) :
  remove_duplicates (remove_duplicates resources_by_category)
  = remove_duplicates resources_by_category.
Proof.
  destruct (dedup_categories_global resources_by_category ∅) as [Hnd Hall].
  unfold remove_duplicates at 1. apply dedup_categories_fixed.
  - exact Hnd.
  - exact Hall.
  - apply dedup_categories_lengths.
Qed.

End WholeResult.

(** ** The call over several skills *)

Section SeveralSkills.

Context {World : Type} (rt : Runtime (World := World)).
Implicit Types (self : CareerService (World := World)) (st : state (World := World)).

Lemma for_eachM_cons {A B : Type} (body : B -> A -> M (World := World) B)
    (x : A) (xs : list A) (acc : B) st :
  for_eachM body (x :: xs) acc st = bind (body acc x) (for_eachM body xs) st.
Proof. reflexivity. Qed.

(** One skill: it is resolved, and the requests made are the six of the
    fan-out or none; none when no web searcher is configured. *)
Lemma resolve_skill_trace self (skill_name : string) st :
  exists st' l evs (b : bool),
    resolve_skill rt self skill_name st = (st', Ok l) /\
    st'.2 = st.2 ++ evs /\
    http_urls evs = (if b then fan_out_urls skill_name else []) /\
    (web_searcher self = None -> b = false).
Proof.
  destruct (store_lookup_returns rt self skill_name st) as (st1 & l & Hrun & _).
  destruct (store_lookup_requests rt self skill_name st) as (evs1 & Hevs1 & Hurls1).
  rewrite Hrun in Hevs1. simpl in Hevs1.
  destruct (web_fallback_returns rt self skill_name l st1) as (st2 & l' & Hweb & _).
  assert (Hreq : exists evs2 (b : bool),
            st2.2 = st1.2 ++ evs2 /\
            http_urls evs2 = (if b then fan_out_urls skill_name else []) /\
            (web_searcher self = None -> b = false)).
  { destruct l as [[[courses articles] projects] competitions].
    unfold web_fallback in Hweb.
    destruct (web_searcher self) as [ws |] eqn:Hws.
    - case_bool_decide.
      + assert (Hr : requests
                       (try_except
                          (bind (find_resources_for_skill rt ws skill_name)
                             (fun web_resources =>
                                ret (courses ++ get_list "courses" web_resources,
                                     articles ++ get_list "articles" web_resources,
                                     projects ++ get_list "projects" web_resources,
                                     competitions ++ get_list "competitions" web_resources)))
                          (fun _ => ret (courses, articles, projects, competitions)))
                       (fan_out_urls skill_name)).
        { apply requests_try; [| intros; apply requests_ret].
          apply requests_bind_quiet; [apply find_resources_for_skill_requests |].
          intros; apply requests_ret. }
        destruct (Hr st1) as (evs2 & Hevs2 & Hurls2).
        match type of Hevs2 with
        | (?t).1.2 = _ => replace t with (st2, Ok l') in Hevs2 by (symmetry; exact Hweb)
        end.
        exists evs2, true. done.
      + injection Hweb as <- _. exists [], false. by rewrite app_nil_r.
    - injection Hweb as <- _. exists [], false. by rewrite app_nil_r. }
  destruct Hreq as (evs2 & b & Hevs2 & Hurls2 & Hnone).
  exists st2, l', (evs1 ++ evs2), b. split.
  - unfold resolve_skill, bind. by rewrite Hrun.
  - split; [by rewrite Hevs2, Hevs1, app_assoc |].
    split; [by rewrite http_urls_app, Hurls1, Hurls2 | done].
Qed.

Lemma http_urls_requests_of_cons (b : bool) (flags : list bool) (skill_name : string)
    (skills : list string) :
  requests_of (b :: flags) (skill_name :: skills)
  = (if b then fan_out_urls skill_name else []) ++ requests_of flags skills.
Proof. reflexivity. Qed.

Lemma collect_trace self (skills : list string) :
  forall d st,
    exists st' d' evs flags,
      for_eachM (skill_body rt self) skills d st = (st', Ok d') /\
      st'.2 = st.2 ++ evs /\
      length flags = length skills /\
      http_urls evs = requests_of flags skills /\
      (web_searcher self = None -> http_urls evs = []).
Proof.
  induction skills as [| skill_name skills IH]; intros d st.
  - exists st, d, [], []. simpl. by rewrite app_nil_r.
  - destruct (resolve_skill_trace self skill_name st)
      as (st1 & l & evs1 & b & Hrun & Hevs1 & Hurls1 & Hnone).
    destruct l as [[[courses articles] projects] competitions].
    destruct (IH (extend "competitions" competitions
                    (extend "projects" projects
                       (extend "articles" articles (extend "courses" courses d)))) st1)
      as (st2 & d' & evs2 & flags & Hloop & Hevs2 & Hlen & Hurls2 & Hnone2).
    exists st2, d', (evs1 ++ evs2), (b :: flags).
    rewrite for_eachM_cons. unfold bind at 1. unfold skill_body at 1, bind at 1.
    rewrite Hrun. unfold ret at 1. rewrite Hloop.
    split; [done |]. split; [by rewrite Hevs2, Hevs1, app_assoc |].
    split; [simpl; by rewrite Hlen |]. split.
    + by rewrite http_urls_app, Hurls1, Hurls2, http_urls_requests_of_cons.
    + intros Hws. rewrite http_urls_app, Hurls1, (Hnone Hws), (Hnone2 Hws). done.
Qed.

(** X9.  The requests made by a call are, skill after skill in the order of
    the list, the six requests of the fan-out for that skill or none; a
    service without web searcher makes none. *)
Theorem call_requests self (skills : list string) st :
  exists st' res evs flags,
    _find_resources_for_skills rt self skills st = (st', Ok res) /\
    st'.2 = st.2 ++ evs /\
    length flags = length skills /\
    http_urls evs = requests_of flags skills /\
    (web_searcher self = None -> http_urls evs = []).
Proof.
  destruct (collect_trace self skills empty_buckets st)
    as (st' & d & evs & flags & Hrun & Hrest).
  exists st', (remove_duplicates d), evs, flags. split; [| exact Hrest].
  unfold _find_resources_for_skills, collect, bind. by rewrite Hrun.
Qed.

Lemma collect_concat self (skills : list string) :
  forall courses articles projects competitions st,
    exists st' ls,
      resolve_all rt self skills st = (st', Ok ls) /\
      for_eachM (skill_body rt self) skills
        (buckets courses articles [] projects competitions) st
      = (st', Ok (buckets (courses ++ concat ((fun l : skill_lists => l.1.1.1) <$> ls))
                          (articles ++ concat ((fun l : skill_lists => l.1.1.2) <$> ls))
                          []
                          (projects ++ concat ((fun l : skill_lists => l.1.2) <$> ls))
                          (competitions ++ concat ((fun l : skill_lists => l.2) <$> ls)))).
Proof.
  induction skills as [| skill_name skills IH];
    intros courses articles projects competitions st.
  - exists st, []. simpl. by rewrite !app_nil_r.
  - destruct (resolve_skill_returns rt self skill_name st) as (st1 & l & Hrun & _).
    destruct l as [[[c a] p] k].
    destruct (IH (courses ++ c) (articles ++ a) (projects ++ p) (competitions ++ k) st1)
      as (st2 & ls & Hall & Hloop).
    exists st2, ((c, a, p, k) :: ls). split.
    + simpl. unfold bind at 1. rewrite Hrun. unfold bind at 1. by rewrite Hall.
    + rewrite for_eachM_cons. unfold bind at 1. unfold skill_body at 1, bind at 1.
      rewrite Hrun. unfold ret at 1.
      change (extend "competitions" k
                (extend "projects" p
                   (extend "articles" a
                      (extend "courses" c
                         (buckets courses articles [] projects competitions)))))
        with (buckets (courses ++ c) (articles ++ a) [] (projects ++ p)
                (competitions ++ k)).
      rewrite Hloop. simpl. by rewrite <- !app_assoc.
Qed.

(** X10.  Before de-duplication, the bucket of a category is the lists that
    the skills were resolved with, put end to end in the order of the skills
    (and the bucket of vacancies is empty); each skill is resolved from the
    state in which the skill before it left the world. *)
Theorem buckets_follow_skill_order self (skills : list string) st :
  exists st' ls,
    resolve_all rt self skills st = (st', Ok ls) /\
    length ls = length skills /\
    collect rt self skills st = (st', Ok (buckets_of ls)) /\
    _find_resources_for_skills rt self skills st
    = (st', Ok (remove_duplicates (buckets_of ls))).
Proof.
  destruct (collect_concat self skills [] [] [] [] st) as (st' & ls & Hall & Hloop).
  exists st', ls. split; [done |].
  assert (Hcollect : collect rt self skills st = (st', Ok (buckets_of ls)))
    by exact Hloop.
  split; [| split; [done |]].
  - clear Hloop Hcollect. revert st st' ls Hall.
    induction skills as [| skill_name skills IH]; intros st st' ls; simpl.
    + by intros [= <- <-].
    + unfold bind at 1.
      destruct (resolve_skill rt self skill_name st) as [st1 [l | e]]; [| done].
      unfold bind at 1.
      destruct (resolve_all rt self skills st1) as [st2 [ls' | e]] eqn:Hrest; [| done].
      intros [= <- <-]. simpl. f_equal. by eapply IH.
  - unfold _find_resources_for_skills, bind. by rewrite Hcollect.
Qed.

(** The result of a call, bucket by bucket. *)
Lemma aggregated_result_shape self (skills : list string) st :
  exists st' courses articles projects competitions,
    _find_resources_for_skills rt self skills st
    = (st', Ok (buckets courses articles [] projects competitions)) /\
    length courses <= 10 /\ length articles <= 10 /\
    length projects <= 10 /\ length competitions <= 10.
Proof.
  destruct (collect_returns rt self skills st) as (st' & rbc & Hrun & Hkeys & Hvac).
  pose proof (dedup_categories_keys rbc ∅) as Hkeys'. rewrite Hkeys in Hkeys'.
  pose proof (dedup_categories_empty rbc ∅ "vacancies" Hvac) as Hvac'.
  pose proof (dedup_categories_lengths rbc ∅) as Hlen.
  fold (remove_duplicates rbc) in Hkeys', Hvac', Hlen.
  destruct (remove_duplicates rbc) as [| [k1 b1] [| [k2 b2] [| [k3 b3] [| [k4 b4]
             [| [k5 b5] [| ? ?]]]]]] eqn:Hres; try done.
  simpl in Hkeys'. injection Hkeys' as -> -> -> -> ->.
  simpl in Hvac'. injection Hvac' as ->.
  repeat (apply Forall_cons in Hlen as [? Hlen]). simpl in *.
  exists st', b1, b2, b4, b5. split; [| done].
  unfold _find_resources_for_skills, bind. by rewrite Hrun, Hres.
Qed.

(** X11.  The public search returns, for every list of skills, a dictionary
    with the five categories as keys whose lists hold 40 entries at most in
    all: this is the most that the endpoint [/api/find-resources] can
    report as [total_resources]. *)
Theorem total_resources_bound self (skills : list string) st :
  exists st' resources,
    find_resources_for_skills rt self skills st = (st', Ok resources) /\
    resources.*1 = CATEGORY_KEYS /\
    total_resources resources <= 40.
Proof.
  destruct (aggregated_result_shape self skills st)
    as (st' & c & a & p & k & Hrun & Hc & Ha & Hp & Hk).
  eexists st', _. split.
  - unfold find_resources_for_skills, bind. rewrite Hrun. reflexivity.
  - split; [done |]. unfold total_resources. simpl.
    rewrite !length_fmap. lia.
Qed.

End SeveralSkills.

(** ** The two families of parsers *)

Section TwoFamilies.

Lemma for_each_sim {A X Y : Type} (f : X -> Y)
    (body_w : list X -> A -> result (list X)) (body_s : list Y -> A -> result (list Y))
    (xs : list A) :
  (forall acc x, body_s (f <$> acc) x = rmap (fmap f) (body_w acc x)) ->
  forall acc, for_each body_s xs (f <$> acc) = rmap (fmap f) (for_each body_w xs acc).
Proof.
  intros Hbody. induction xs as [| x xs IH]; intros acc; simpl; [done |].
  rewrite Hbody. destruct (body_w acc x) as [acc' | e]; simpl; [apply IH | done].
Qed.

(** Bodies that compute a link and append one candidate. *)
Lemma append_one_sim (link : result string) (t : string) (rtype : ResourceType)
    (md : list (string * meta_val)) (acc : list Resource) :
  rbind link (fun l => Ok ((item_of <$> acc) ++ [Standalone.title_url t l]))
  = rmap (fmap item_of)
      (rbind link (fun l => Ok (acc ++ [new_Resource t l "" rtype md]))).
Proof.
  destruct link as [l | e]; simpl; [| done]. by rewrite fmap_app.
Qed.

Lemma github_loop_texts (repos : list (nullable repo_json)) :
  forall (acc_s : list Standalone.item) (acc_w : list Resource),
    item_texts <$> acc_s = (fun r => (title r, url r)) <$> acc_w ->
    rmap (fmap item_texts) (for_each Standalone.github_body repos acc_s)
    = rmap (fmap (fun r => (title r, url r))) (for_each github_body repos acc_w).
Proof.
  induction repos as [| [| repo] repos IH]; intros acc_s acc_w Hacc; simpl.
  - by rewrite Hacc.
  - done.
  - apply IH. rewrite !fmap_app, Hacc. reflexivity.
Qed.

Lemma parsers_agree (soup : list node) (json_data : github_json) :
  Standalone.parse_courses_from_coursera soup
  = rmap (fmap item_of) (parse_courses_from_coursera soup) /\
  Standalone.parse_courses_from_stepik soup
  = rmap (fmap item_of) (parse_courses_from_stepik soup) /\
  Standalone.parse_articles_from_habr soup
  = rmap (fmap item_of) (parse_articles_from_habr soup) /\
  Standalone.parse_vacancies_from_habr soup
  = rmap (fmap item_of) (parse_vacancies_from_habr soup) /\
  Standalone.parse_competitions_from_kaggle soup
  = rmap (fmap item_of) (parse_competitions_from_kaggle soup) /\
  rmap (fmap item_texts) (Standalone.parse_projects_from_github json_data)
  = rmap (fmap (fun r => (title r, url r))) (parse_projects_from_github json_data).
Proof.
  repeat split.
  - apply (for_each_sim item_of coursera_body Standalone.coursera_body _) with (acc := []).
    intros acc res. unfold coursera_body, Standalone.coursera_body.
    destruct (match find_parent res "a" with
              | Some t => rbind (getitem t "href")
                            (fun h => Ok ("https://www.coursera.org" +:+ h))
              | None => Ok ""
              end) as [link | e]; simpl; [| done].
    destruct (truthy (strip (get_text res))); simpl; [| done].
    by rewrite fmap_app.
  - apply (for_each_sim item_of stepik_body Standalone.stepik_body _) with (acc := []).
    intros acc res. apply append_one_sim.
  - apply (for_each_sim item_of habr_article_body Standalone.habr_article_body _)
      with (acc := []).
    intros acc res. apply append_one_sim.
  - apply (for_each_sim item_of habr_vacancy_body Standalone.habr_vacancy_body _)
      with (acc := []).
    intros acc res. apply append_one_sim.
  - apply (for_each_sim item_of kaggle_body Standalone.kaggle_body _) with (acc := []).
    intros acc res. apply append_one_sim.
  - unfold Standalone.parse_projects_from_github, parse_projects_from_github.
    destruct json_data as [| [[[| repos] |]]]; simpl; try done.
    by apply github_loop_texts.
Qed.

(** X12.  The parsers of the stand-alone agent and those of [WebSearcher]
    agree on every page: they raise the same exception, or they return
    candidates with the same titles and addresses in the same order (for
    GitHub, an absent name or address is [None] for the first and [""] for
    the second). *)
Theorem parser_families_agree (soup : list node) (json_data : github_json) :
  Standalone.parse_courses_from_coursera soup
  = rmap (fmap item_of) (parse_courses_from_coursera soup) /\
  Standalone.parse_courses_from_stepik soup
  = rmap (fmap item_of) (parse_courses_from_stepik soup) /\
  Standalone.parse_articles_from_habr soup
  = rmap (fmap item_of) (parse_articles_from_habr soup) /\
  Standalone.parse_vacancies_from_habr soup
  = rmap (fmap item_of) (parse_vacancies_from_habr soup) /\
  Standalone.parse_competitions_from_kaggle soup
  = rmap (fmap item_of) (parse_competitions_from_kaggle soup) /\
  rmap (fmap item_texts) (Standalone.parse_projects_from_github json_data)
  = rmap (fmap (fun r => (title r, url r))) (parse_projects_from_github json_data).
Proof. apply parsers_agree. Qed.

End TwoFamilies.

(** ** The two searches for one skill *)

Section TwoSearches.

Context {World : Type} (rt : Runtime (World := World)).
Implicit Types (st : state (World := World)) (self : WebSearcher (World := World)).

Lemma fetch_text_sim self (url : string) st :
  fetch_text rt self url st
  = ((Standalone.fetch_text rt url st).1,
     Ok (Standalone.text_or_empty (Standalone.fetch_text rt url st).2)).
Proof.
  unfold fetch_text, Standalone.fetch_text, try_except, bind, call.
  destruct (session_get rt url [("User-Agent", "Mozilla/5.0")] st.1) as [w' [resp | e]];
    simpl; [| done].
  case_bool_decide; [done |]. unfold lift. by destruct (text resp).
Qed.

Lemma bind_lift {A B : Type} (r : result A) (f : A -> M (World := World) B) st :
  bind (lift r) f st = match r with Ok a => f a st | Raise e => (st, Raise e) end.
Proof. unfold bind, lift. by destruct r. Qed.

Lemma texts_item_of (skill_name : string) (l : list Resource) :
  item_texts <$> (item_of <$> l)
  = (fun r => (title r, url r)) <$> (set_skill skill_name <$> l).
Proof. induction l as [| r l IH]; simpl; [done | f_equal; exact IH]. Qed.

Lemma texts_set_skill (skill_name : string) (l : list Resource) :
  (fun r => (title r, url r)) <$> (set_skill skill_name <$> l)
  = (fun r => (title r, url r)) <$> l.
Proof. induction l as [| r l IH]; simpl; [done | f_equal; exact IH]. Qed.

(** X13.  From the same state of the world, the search of the stand-alone
    agent and the fan-out of [WebSearcher] make the same requests and leave
    the same world; they raise the same exception, or they find, category by
    category, candidates with the same titles and addresses. *)
Theorem searches_agree self (skill_name : string) st :
  (Standalone.find_resources_for_skill rt skill_name st).1
  = (fan_out rt self skill_name st).1 /\
  rmap texts_of (Standalone.find_resources_for_skill rt skill_name st).2
  = rmap texts_of_web (fan_out rt self skill_name st).2.
Proof.
  unfold Standalone.find_resources_for_skill, fan_out.
  assert (Hstep : forall url s,
            exists s' r,
              gathered (Standalone.fetch_text rt url) s = (s', Ok r) /\
              fetch_text rt self url s = (s', Ok (Standalone.text_or_empty r))).
  { intros url s. exists (Standalone.fetch_text rt url s).1,
      (Standalone.fetch_text rt url s).2. split.
    - unfold gathered. by destruct (Standalone.fetch_text rt url s).
    - apply fetch_text_sim. }
  destruct (Hstep (COURSERA_SEARCH_URL skill_name) st) as (st1 & r0 & G1 & F1).
  rewrite (bind_ok _ _ _ _ _ G1), (bind_ok _ _ _ _ _ F1).
  destruct (Hstep (STEPIK_SEARCH_URL skill_name) st1) as (st2 & r1 & G2 & F2).
  rewrite (bind_ok _ _ _ _ _ G2), (bind_ok _ _ _ _ _ F2).
  destruct (Hstep (HABR_ARTICLES_SEARCH_URL skill_name) st2) as (st3 & r2 & G3 & F3).
  rewrite (bind_ok _ _ _ _ _ G3), (bind_ok _ _ _ _ _ F3).
  destruct (Hstep (HABR_VACANCY_SEARCH_URL skill_name) st3) as (st4 & r3 & G4 & F4).
  rewrite (bind_ok _ _ _ _ _ G4), (bind_ok _ _ _ _ _ F4).
  cbv zeta.
  match goal with
  | |- context [bind (gathered ?c) _ st4] =>
      destruct (returns_gathered c st4) as (st5 & g & G5 & _)
  end.
  rewrite !(bind_ok _ _ _ _ _ G5).
  destruct (Hstep (KAGGLE_COMPETITIONS_URL skill_name) st5) as (st6 & r5 & G6 & F6).
  rewrite (bind_ok _ _ _ _ _ G6), (bind_ok _ _ _ _ _ F6).
  rewrite !bind_lift.
  destruct (parsers_agree (BeautifulSoup rt (Standalone.text_or_empty r0)) empty_json)
    as (-> & _).
  destruct (parse_courses_from_coursera
              (BeautifulSoup rt (Standalone.text_or_empty r0))) as [coursera | e];
    simpl; [| done].
  rewrite !bind_lift.
  destruct (parsers_agree (BeautifulSoup rt (Standalone.text_or_empty r1)) empty_json)
    as (_ & -> & _).
  destruct (parse_courses_from_stepik
              (BeautifulSoup rt (Standalone.text_or_empty r1))) as [stepik | e];
    simpl; [| done].
  rewrite !bind_lift.
  destruct (parsers_agree (BeautifulSoup rt (Standalone.text_or_empty r2)) empty_json)
    as (_ & _ & -> & _).
  destruct (parse_articles_from_habr
              (BeautifulSoup rt (Standalone.text_or_empty r2))) as [articles | e];
    simpl; [| done].
  rewrite !bind_lift.
  destruct (parsers_agree (BeautifulSoup rt (Standalone.text_or_empty r3)) empty_json)
    as (_ & _ & _ & -> & _).
  destruct (parse_vacancies_from_habr
              (BeautifulSoup rt (Standalone.text_or_empty r3))) as [vacancies | e];
    simpl; [| done].
  rewrite !bind_lift.
  match goal with
  | |- context [parse_projects_from_github ?github_data] =>
      destruct (parsers_agree [] github_data) as (_ & _ & _ & _ & _ & Hprojects);
      destruct (Standalone.parse_projects_from_github github_data) as [items | e1];
      destruct (parse_projects_from_github github_data) as [projects | e2];
      simpl in Hprojects; try done
  end.
  2: { by injection Hprojects as ->. }
  injection Hprojects as Hprojects.
  rewrite !bind_lift.
  destruct (parsers_agree (BeautifulSoup rt (Standalone.text_or_empty r5)) empty_json)
    as (_ & _ & _ & _ & -> & _).
  destruct (parse_competitions_from_kaggle
              (BeautifulSoup rt (Standalone.text_or_empty r5))) as [competitions | e];
    simpl; [| done].
  split; [done |]. unfold texts_of, texts_of_web. simpl.
  rewrite <- (fmap_app item_of), !(texts_item_of skill_name).
  by rewrite (texts_set_skill skill_name projects), Hprojects.
Qed.

End TwoSearches.

(** ** The stand-alone agent over several skills *)

Section AgentSkills.

Context {World : Type} (rt : Runtime (World := World)).
Implicit Types (st : state (World := World)).

Lemma gather_skills_returns (skills : list string) :
  forall st, exists st' results,
    Standalone.gather_skills rt skills st = (st', Ok results) /\
    length results = length skills.
Proof.
  induction skills as [| skill_name skills IH]; intros st; simpl.
  - by exists st, [].
  - destruct (returns_gathered (Standalone.find_resources_for_skill rt skill_name) st)
      as (st1 & r & Hrun & _).
    destruct (IH st1) as (st2 & rs & Hrest & Hlen).
    exists st2, (r :: rs). unfold bind at 1. rewrite Hrun.
    unfold bind at 1. rewrite Hrest. simpl. by rewrite Hlen.
Qed.

Lemma set_key_fresh {V : Type} (key : string) (v : V) (d : list (string * V)) :
  key ∉ d.*1 -> Standalone.set_key key v d = d ++ [(key, v)].
Proof.
  induction d as [| [k v0] d IH]; simpl; [done |].
  rewrite not_elem_of_cons. intros [Hne Hnot].
  destruct (String.eqb k key) eqn:Hk.
  - apply String.eqb_eq in Hk. by subst.
  - by rewrite IH.
Qed.

Lemma resources_by_skill_distinct (skills : list string) :
  forall (results : list (result (list (string * list Standalone.item))))
         (d : list (string * list (string * list Standalone.item))),
    NoDup (d.*1 ++ skills) ->
    foldl (fun d sr => Standalone.set_key sr.1 (Standalone.result_or_empty sr.2) d) d
      (zip skills results)
    = d ++ zip skills (Standalone.result_or_empty <$> results).
Proof.
  induction skills as [| skill_name skills IH]; intros results d Hnd; simpl.
  - by rewrite app_nil_r.
  - destruct results as [| r results]; simpl; [by rewrite app_nil_r |].
    rewrite set_key_fresh.
    + rewrite IH.
      * by rewrite <- app_assoc.
      * rewrite fmap_app. simpl. by rewrite <- app_assoc.
    + apply NoDup_app in Hnd as (_ & Hdisj & _). intros Hin.
      apply (Hdisj _ Hin). by left.
Qed.

Lemma combine_category_buckets (skill_name : string)
    (res : list (string * list Standalone.item)) c a v p k :
  Standalone.combine_category skill_name "competitions" res
    (Standalone.combine_category skill_name "projects" res
       (Standalone.combine_category skill_name "vacancies" res
          (Standalone.combine_category skill_name "articles" res
             (Standalone.combine_category skill_name "courses" res
                (item_buckets c a v p k)))))
  = item_buckets
      (c ++ (Standalone.set_key "skill" (Some skill_name)
               <$> default [] (assoc_get "courses" res)))
      (a ++ (Standalone.set_key "skill" (Some skill_name)
               <$> default [] (assoc_get "articles" res)))
      (v ++ (Standalone.set_key "skill" (Some skill_name)
               <$> default [] (assoc_get "vacancies" res)))
      (p ++ (Standalone.set_key "skill" (Some skill_name)
               <$> default [] (assoc_get "projects" res)))
      (k ++ (Standalone.set_key "skill" (Some skill_name)
               <$> default [] (assoc_get "competitions" res))).
Proof.
  unfold Standalone.combine_category.
  generalize (default [] (assoc_get "courses" res)) as xs1.
  generalize (default [] (assoc_get "articles" res)) as xs2.
  generalize (default [] (assoc_get "vacancies" res)) as xs3.
  generalize (default [] (assoc_get "projects" res)) as xs4.
  generalize (default [] (assoc_get "competitions" res)) as xs5.
  intros xs5 xs4 xs3 xs2 xs1.
  assert (H1 : forall xs c a v p k,
    foldl (fun comb x => Standalone.append_to "courses"
                           (Standalone.set_key "skill" (Some skill_name) x) comb)
      (item_buckets c a v p k) xs
    = item_buckets (c ++ (Standalone.set_key "skill" (Some skill_name) <$> xs)) a v p k).
  { induction xs as [| x xs IH]; intros; simpl; [by rewrite app_nil_r |].
    unfold item_buckets in IH. rewrite IH. by rewrite <- app_assoc. }
  assert (H2 : forall xs c a v p k,
    foldl (fun comb x => Standalone.append_to "articles"
                           (Standalone.set_key "skill" (Some skill_name) x) comb)
      (item_buckets c a v p k) xs
    = item_buckets c (a ++ (Standalone.set_key "skill" (Some skill_name) <$> xs)) v p k).
  { induction xs as [| x xs IH]; intros; simpl; [by rewrite app_nil_r |].
    unfold item_buckets in IH. rewrite IH. by rewrite <- app_assoc. }
  assert (H3 : forall xs c a v p k,
    foldl (fun comb x => Standalone.append_to "vacancies"
                           (Standalone.set_key "skill" (Some skill_name) x) comb)
      (item_buckets c a v p k) xs
    = item_buckets c a (v ++ (Standalone.set_key "skill" (Some skill_name) <$> xs)) p k).
  { induction xs as [| x xs IH]; intros; simpl; [by rewrite app_nil_r |].
    unfold item_buckets in IH. rewrite IH. by rewrite <- app_assoc. }
  assert (H4 : forall xs c a v p k,
    foldl (fun comb x => Standalone.append_to "projects"
                           (Standalone.set_key "skill" (Some skill_name) x) comb)
      (item_buckets c a v p k) xs
    = item_buckets c a v (p ++ (Standalone.set_key "skill" (Some skill_name) <$> xs)) k).
  { induction xs as [| x xs IH]; intros; simpl; [by rewrite app_nil_r |].
    unfold item_buckets in IH. rewrite IH. by rewrite <- app_assoc. }
  assert (H5 : forall xs c a v p k,
    foldl (fun comb x => Standalone.append_to "competitions"
                           (Standalone.set_key "skill" (Some skill_name) x) comb)
      (item_buckets c a v p k) xs
    = item_buckets c a v p (k ++ (Standalone.set_key "skill" (Some skill_name) <$> xs))).
  { induction xs as [| x xs IH]; intros; simpl; [by rewrite app_nil_r |].
    unfold item_buckets in IH. rewrite IH. by rewrite <- app_assoc. }
  by rewrite H1, H2, H3, H4, H5.
Qed.

Lemma combine_buckets (skills : list string) :
  forall (results : list (result (list (string * list Standalone.item)))) c a v p k,
    foldl (fun combined sr =>
             Standalone.combine_category sr.1 "competitions" sr.2
               (Standalone.combine_category sr.1 "projects" sr.2
                  (Standalone.combine_category sr.1 "vacancies" sr.2
                     (Standalone.combine_category sr.1 "articles" sr.2
                        (Standalone.combine_category sr.1 "courses" sr.2 combined)))))
      (item_buckets c a v p k)
      (zip skills (Standalone.result_or_empty <$> results))
    = item_buckets
        (c ++ concat (zip_with (fun s r => stamped s "courses" r) skills results))
        (a ++ concat (zip_with (fun s r => stamped s "articles" r) skills results))
        (v ++ concat (zip_with (fun s r => stamped s "vacancies" r) skills results))
        (p ++ concat (zip_with (fun s r => stamped s "projects" r) skills results))
        (k ++ concat (zip_with (fun s r => stamped s "competitions" r) skills results)).
Proof.
  induction skills as [| skill_name skills IH]; intros results c a v p k; simpl.
  - by rewrite !app_nil_r.
  - destruct results as [| r results]; simpl; [by rewrite !app_nil_r |].
    rewrite combine_category_buckets, IH. unfold stamped.
    by rewrite <- !app_assoc.
Qed.

Lemma combined_recommendations_spec (skills : list string) st :
  NoDup skills ->
  exists st' results,
    Standalone.gather_skills rt skills st = (st', Ok results) /\
    length results = length skills /\
    Standalone.combined_recommendations rt skills st
    = (st', Ok (item_buckets
                  (concat (zip_with (fun s r => stamped s "courses" r) skills results))
                  (concat (zip_with (fun s r => stamped s "articles" r) skills results))
                  (concat (zip_with (fun s r => stamped s "vacancies" r) skills results))
                  (concat (zip_with (fun s r => stamped s "projects" r) skills results))
                  (concat (zip_with (fun s r => stamped s "competitions" r) skills
                             results)))).
Proof.
  intros Hnd. destruct (gather_skills_returns skills st) as (st' & results & Hrun & Hlen).
  exists st', results. split; [done |]. split; [done |].
  unfold Standalone.combined_recommendations, bind. rewrite Hrun. unfold ret. do 2 f_equal.
  unfold Standalone.resources_by_skill, Standalone.combine.
  rewrite (resources_by_skill_distinct skills results []) by done. simpl.
  exact (combine_buckets skills results [] [] [] [] []).
Qed.

(** X14.  In the stand-alone agent, with distinct skills, the searches never
    abort the batch: the combined dictionary holds, category by category and
    in the order of the skills, what each search found, with the skill
    written into every item; a search that raised brings nothing, and the
    others are not affected. *)
Theorem agent_isolates_skills (skills : list string) st :
  NoDup skills ->
  exists st' results,
    Standalone.gather_skills rt skills st = (st', Ok results) /\
    length results = length skills /\
    (forall s key e, stamped s key (Raise e) = []) /\
    Standalone.combined_recommendations rt skills st
    = (st', Ok [("courses",
                 concat (zip_with (fun s r => stamped s "courses" r) skills results));
                ("articles",
                 concat (zip_with (fun s r => stamped s "articles" r) skills results));
                ("vacancies",
                 concat (zip_with (fun s r => stamped s "vacancies" r) skills results));
                ("projects",
                 concat (zip_with (fun s r => stamped s "projects" r) skills results));
                ("competitions",
                 concat (zip_with (fun s r => stamped s "competitions" r) skills
                           results))]).
Proof.
  intros Hnd.
  destruct (combined_recommendations_spec skills st Hnd)
    as (st' & results & Hrun & Hlen & Hcomb).
  exists st', results. split; [done |]. split; [done |]. split; [| exact Hcomb].
  intros s key e. unfold stamped, Standalone.result_or_empty, Standalone.empty_resources.
  cbn [assoc_get].
  repeat (destruct (String.eqb _ key); [reflexivity |]). reflexivity.
Qed.

End AgentSkills.

(** ** Saving and reading back one resource *)

Section OneResource.

Context {World : Type} (rt : Runtime (World := World)).
Context (collection_get : string -> list string -> World -> World * result GetResult).
Implicit Types (st : state (World := World))
  (self : VectorResourceRepository (World := World)).

(** X15.  Saving one resource is saving the batch made of it alone: the same
    calls, the same world afterwards, the same exception or the same id and
    updated resource. *)
Theorem save_is_save_batch_of_one self (r : Resource) st :
  save_batch rt self [r] st
  = ((save rt self r st).1,
     rmap (fun ir => ([ir.1], [ir.2])) (save rt self r st).2).
Proof.
  assert (Hraise : forall (A B : Type) (m : M (World := World) A) (f : A -> M B) s s1 e,
            m s = (s1, Raise e) -> bind m f s = (s1, Raise e)).
  { intros A B m f s s1 e H. unfold bind. by rewrite H. }
  unfold save_batch, save.
  destruct (_create_collection_if_not_exists self st) as [st1 [[] | e]] eqn:Hc.
  - rewrite !(bind_ok _ _ _ _ _ Hc).
    destruct (save_batch_body_spec rt [] [] [] [] r st1) as (w & i & Hbody & _).
    assert (Hid : resource_id_of rt r st1 = ((w, st1.2), Ok i)).
    { destruct (resource_id_of_spec rt r st1) as (w' & i' & Hid & _).
      unfold save_batch_body, bind in Hbody. rewrite Hid in Hbody. simpl in Hbody.
      injection Hbody as <- <-. exact Hid. }
    assert (Hloop : for_eachM (save_batch_body rt) [r] ([], [], [], []) st1
                    = ((w, st1.2),
                       Ok ([_resource_to_text (set_id i r)],
                           [stored_metadata rt i (set_id i r)], [i], [set_id i r]))).
    { rewrite for_eachM_cons, (bind_ok _ _ _ _ _ Hbody). reflexivity. }
    rewrite (bind_ok _ _ _ _ _ Hloop), !(bind_ok _ _ _ _ _ Hid). cbv zeta.
    destruct (add_documents (vector_store self) COLLECTION_NAME
                [_resource_to_text (set_id i r)]
                [stored_metadata rt i (set_id i r)] [i] (w, st1.2))
      as [st2 [ids | e]] eqn:Hadd.
    + by rewrite !(bind_ok _ _ _ _ _ Hadd).
    + by rewrite !(Hraise _ _ _ _ _ _ _ Hadd).
  - by rewrite !(Hraise _ _ _ _ _ _ _ Hc).
Qed.

Lemma get_by_ids_returns (store : ChromaVectorStore (World := World)) name ids st :
  exists st' records, get_by_ids collection_get store name ids st = (st', Ok records).
Proof.
  unfold get_by_ids, try_except.
  match goal with
  | |- context [match ?b st with _ => _ end] => destruct (b st) as [st' [records | e]]
  end; by eauto.
Qed.

(** X16.  [get_by_id] does not surface a failure of the store: when the read
    fails it answers [None], as for an id that is not there.  When the store
    hands back the record that a save has written, it answers the resource
    that was saved. *)
Theorem get_by_id_outcomes self (resource_id : string) st :
  (forall w e,
     (get_or_create_collection (client (vector_store self)) COLLECTION_NAME st.1
      = (w, Raise e) \/
      exists w0, get_or_create_collection (client (vector_store self))
                   COLLECTION_NAME st.1 = (w0, Ok tt) /\
                 collection_get COLLECTION_NAME [resource_id] w0 = (w, Raise e)) ->
     get_by_id rt collection_get self resource_id st
     = ((w, st.2 ++ [EvGetOrCreate COLLECTION_NAME]), Ok None)) /\
  (forall w0 w doc (r : Resource),
     get_or_create_collection (client (vector_store self)) COLLECTION_NAME st.1
     = (w0, Ok tt) ->
     collection_get COLLECTION_NAME [resource_id] w0
     = (w, Ok {| gr_ids := [resource_id]; gr_documents := Some [doc];
                 gr_metadatas := Some [Some (stored_metadata rt resource_id r)] |}) ->
     json_loads rt (json_dumps rt (metadata r)) = Ok (metadata r) ->
     get_by_id rt collection_get self resource_id st
     = ((w, st.2 ++ [EvGetOrCreate COLLECTION_NAME]), Ok (Some (set_id resource_id r)))).
Proof.
  split.
  - intros w e [Hfail | (w0 & Hok & Hfail)];
      unfold get_by_id, get_by_ids, try_except, bind, call, call_unrecorded; simpl.
    + by rewrite Hfail.
    + rewrite Hok. simpl. by rewrite Hfail.
  - intros w0 w doc r Hok Hget Hjson.
    assert (Hrecords :
      get_by_ids collection_get (vector_store self) COLLECTION_NAME [resource_id] st
      = ((w, st.2 ++ [EvGetOrCreate COLLECTION_NAME]),
         Ok [mkStoredRecord resource_id doc (Some (stored_metadata rt resource_id r))])).
    { unfold get_by_ids, try_except, bind, call, call_unrecorded.
      rewrite Hok. cbn [fst snd]. by rewrite Hget. }
    assert (Hconv : _metadata_to_resource rt (Some (stored_metadata rt resource_id r))
                    = Ok (set_id resource_id r)).
    { destruct r as [i t u d ty sk md].
      unfold _metadata_to_resource, stored_metadata, dict_get, set_id. simpl in *.
      rewrite Hjson. by destruct ty. }
    unfold get_by_id. rewrite (bind_ok _ _ _ _ _ Hrecords). cbn [rec_metadata].
    unfold bind, lift. by rewrite Hconv.
Qed.

End OneResource.

(** ** The texts built from the resources *)

Section Texts.

Lemma fallback_category_cap (message : string) (category : string) (items : list Resource) :
  fallback_category message (category, take 5 items)
  = fallback_category message (category, items).
Proof.
  unfold fallback_category, fallback_items. simpl.
  destruct items as [| r items]; [done |]. simpl.
  by rewrite take_take.
Qed.

Lemma fallback_category_empty (message : string) (category : string) :
  fallback_category message (category, []) = message.
Proof. done. Qed.

(** X17.  The fallback text depends only on the non-empty categories and on
    the first five resources of each: the other resources and the empty
    categories leave no trace in it. *)
Theorem fallback_shows_first_five (user_profile : UserProfile)
    (resources : list (string * list Resource)) :
  _format_fallback_recommendations user_profile resources
  = _format_fallback_recommendations user_profile
      ((fun kv : string * list Resource => (kv.1, take 5 kv.2))
         <$> filter (fun kv : string * list Resource => kv.2 ≠ []) resources).
Proof.
  unfold _format_fallback_recommendations.
  generalize ("Основываясь на ваших целях (" +:+ goals user_profile
              +:+ ") и выявленных пробелах в навыках ("
              +:+ join ", " (missing_skills user_profile)
              +:+ "), рекомендую следующие ресурсы:" +:+ NL +:+ NL) as message.
  induction resources as [| [category items] resources IH]; intros message; [done |].
  destruct items as [| r items].
  - rewrite filter_cons_False by (simpl; tauto). simpl. apply IH.
  - rewrite filter_cons_True by done.
    rewrite fmap_cons. cbn [foldl fst snd].
    rewrite fallback_category_cap. apply IH.
Qed.







End Texts.

(** ** The conversation as a text *)

Section ConversationText.

Context (lower capitalize : string -> string).

Lemma loader_lines_ok (messages : list message) :
  forall acc,
    Forall (fun msg => is_Some (assoc_get "role" msg)
                       /\ is_Some (assoc_get "message" msg)) messages ->
    exists lines,
      for_each (loader_format_body lower capitalize) messages acc = Ok lines.
Proof.
  induction messages as [| msg messages IH]; intros acc Hall; simpl; [by eauto |].
  apply Forall_cons in Hall as [[[role Hrole] [content Hcontent]] Hall].
  unfold loader_format_body at 1, message_item. rewrite Hrole, Hcontent. simpl.
  by apply IH.
Qed.

Lemma check_loop_ok (data : list message) :
  for_each check_message data tt = Ok tt
  <-> Forall (fun msg => is_Some (assoc_get "role" msg)
                         /\ is_Some (assoc_get "message" msg)) data.
Proof.
  induction data as [| msg data IH]; simpl; [by split |].
  unfold check_message at 1.
  destruct (assoc_get "role" msg) as [role |] eqn:Hrole;
    destruct (assoc_get "message" msg) as [content |] eqn:Hcontent; simpl.
  - rewrite IH. split.
    + intros Hall. apply Forall_cons. rewrite Hrole, Hcontent. by eauto.
    + intros Hall. by apply Forall_cons in Hall as [_ Hall].
  - split; [done |]. intros Hall. apply Forall_cons in Hall as [[_ Hm] _].
    rewrite Hcontent in Hm. by destruct Hm.
  - split; [done |]. intros Hall. apply Forall_cons in Hall as [[Hr _] _].
    rewrite Hrole in Hr. by destruct Hr.
  - split; [done |]. intros Hall. apply Forall_cons in Hall as [[Hr _] _].
    rewrite Hrole in Hr. by destruct Hr.
Qed.

Lemma loader_lines_fail (messages : list message) :
  forall acc lines,
    for_each (loader_format_body lower capitalize) messages acc = Ok lines ->
    Forall (fun msg => is_Some (assoc_get "role" msg)
                       /\ is_Some (assoc_get "message" msg)) messages.
Proof.
  induction messages as [| msg messages IH]; intros acc lines Hrun; simpl in Hrun; [done |].
  unfold loader_format_body at 1, message_item in Hrun.
  destruct (assoc_get "role" msg) as [role |] eqn:Hrole; [| done].
  destruct (assoc_get "message" msg) as [content |] eqn:Hcontent; [| done].
  simpl in Hrun. apply Forall_cons. rewrite Hrole, Hcontent. split; [by eauto |].
  by eapply IH.
Qed.

(** X20.  The check of [load_conversation] is exactly what
    [format_conversation] needs: for messages whose fields are strings, the
    formatter returns a text on the data that the check accepts, and raises on
    the data that the check refuses. *)
Theorem checked_conversation_formats (data : list message) :
  check_messages data = Ok data
  <-> exists text, loader_format_conversation lower capitalize data = Ok text.
Proof.
  unfold check_messages, loader_format_conversation. split.
  - intros Hcheck.
    destruct (for_each check_message data tt) as [[] | e] eqn:Hloop; [| done].
    apply check_loop_ok in Hloop.
    destruct (loader_lines_ok data [] Hloop) as [lines ->]. simpl. by eauto.
  - intros [text Hformat].
    destruct (for_each (loader_format_body lower capitalize) data [])
      as [lines | e] eqn:Hloop; [| done].
    apply loader_lines_fail in Hloop. apply check_loop_ok in Hloop.
    by rewrite Hloop.
Qed.

Lemma formatters_agree_from (messages : list message) :
  forall acc,
    Forall (fun msg =>
              exists role content,
                assoc_get "role" msg = Some role /\
                assoc_get "message" msg = Some content /\
                (content = "" -> default "" (assoc_get "content" msg) = ""))
      messages ->
    for_each (loader_format_body lower capitalize) messages acc
    = Ok (foldl (fun formatted_lines msg =>
                   let role := lower (default "unknown" (assoc_get "role" msg)) in
                   let content :=
                     let m := default "" (assoc_get "message" msg) in
                     if truthy m then m else default "" (assoc_get "content" msg) in
                   formatted_lines ++ [format_line capitalize role content])
            acc messages).
Proof.
  induction messages as [| msg messages IH]; intros acc Hall; [done |].
  apply Forall_cons in Hall as [(role & content & Hrole & Hcontent & Hother) Hall].
  cbn [for_each foldl]. unfold loader_format_body at 1, message_item.
  set (other := default "" (assoc_get "content" msg)) in *.
  rewrite Hrole, Hcontent. cbn [rbind default]. rewrite (IH _ Hall).
  do 3 f_equal. unfold truthy, Datatypes.id.
  destruct (String.eqb content "") eqn:Heq; [| done].
  apply String.eqb_eq in Heq. cbn [negb]. rewrite (Hother Heq). by subst content.
Qed.

(** X21.  The two formatters of a conversation give the same text for
    messages that have the fields role and message, unless a message has an
    empty message and a non-empty content, which only
    [CareerService._format_conversation] reads. *)
Theorem formatters_agree (messages : list message) :
  Forall (fun msg =>
            exists role content,
              assoc_get "role" msg = Some role /\
              assoc_get "message" msg = Some content /\
              (content = "" -> default "" (assoc_get "content" msg) = ""))
    messages ->
  loader_format_conversation lower capitalize messages
  = Ok (_format_conversation lower capitalize messages).
Proof.
  intros Hall. unfold loader_format_conversation, _format_conversation.
  by rewrite (formatters_agree_from messages [] Hall).
Qed.

End ConversationText.

(** ** The further properties at work on the concrete worlds *)

Lemma parsers_return_at_most_three_witness :
  exists l,
    parse_courses_from_stepik (Scenario.soup_of (STEPIK_SEARCH_URL "Docker")) = Ok l /\
    length l <= 3.
Proof.
  eassert (Hrun : parse_courses_from_stepik
                    (Scenario.soup_of (STEPIK_SEARCH_URL "Docker")) = Ok _)
    by (vm_compute; reflexivity).
  eexists. split; [exact Hrun |].
  apply (parsers_return_at_most_three
           (Scenario.soup_of (STEPIK_SEARCH_URL "Docker")) empty_json).
  right. left. exact Hrun.
Defined.


Lemma save_batch_assigns_ids_witness :
  exists st' ids saved,
    save_batch Scenario.runtime Cases.repository
      [Cases.docker_course; set_id "r-7" Cases.docker_course] Scenario.start
    = (st', Ok (ids, saved)) /\
    length ids = 2 /\
    saved = zip_with set_id ids
              [Cases.docker_course; set_id "r-7" Cases.docker_course] /\
    last st'.2 = Some (EvAdd COLLECTION_NAME ids).
Proof.
  eassert (Hrun : save_batch Scenario.runtime Cases.repository
                    [Cases.docker_course; set_id "r-7" Cases.docker_course]
                    Scenario.start = (_, Ok (_, _)))
    by (vm_compute; reflexivity).
  destruct (save_batch_assigns_ids Scenario.runtime Cases.repository _ _ _ _ _ Hrun)
    as (Hlen & _ & Hsaved & Hlast).
  eexists _, _, _. split; [exact Hrun |]. split; [exact Hlen |].
  split; [exact Hsaved | exact Hlast].
Defined.

Lemma web_search_result_shape_witness :
  let ws : WebSearcher := {| resource_repository := Cases.repository |} in
  exists st' d,
    find_resources_for_skill Scenario.runtime ws "Docker" Scenario.start = (st', Ok d) /\
    d.*1 = CATEGORY_KEYS /\
    forall key rs r,
      (key, rs) ∈ d -> r ∈ rs ->
      category_type key = Some (resource_type r) /\
      skill r = "Docker" /\
      exists i, id r = Some i /\ i ≠ "".
Proof.
  intros ws.
  eassert (Hrun : find_resources_for_skill Scenario.runtime ws "Docker" Scenario.start
                  = (_, Ok _)) by (vm_compute; reflexivity).
  eexists _, _. split; [exact Hrun |].
  exact (web_search_result_shape Scenario.runtime ws "Docker" _ _ _ Hrun).
Defined.

Lemma web_search_offline_witness :
  let ws : WebSearcher := {| resource_repository := Cases.repository |} in
  exists w',
    find_resources_for_skill Cases.offline_runtime ws "Docker" Scenario.start
    = ((w', Scenario.start.2 ++ (EvHttpGet <$> fan_out_urls "Docker")),
       Ok (web_dict ([], [], [], [], []))).
Proof.
  intros ws.
  apply (web_search_offline Cases.offline_runtime ws "Docker" Scenario.start).
  - intros u headers w. eexists _, _. reflexivity.
  - reflexivity.
Defined.

Lemma stored_metadata_round_trip_witness :
  let h := {| hit_id := "r-1"; hit_document := "Docker basics";
              hit_metadata :=
                Some (stored_metadata Scenario.runtime "r-1" Cases.docker_course);
              hit_distance := 0%Q |} in
  _metadata_to_resource Scenario.runtime
    (Some (stored_metadata Scenario.runtime "r-1" Cases.docker_course))
  = Ok (set_id "r-1" Cases.docker_course) /\
  convert_hit Scenario.runtime [] h = [set_id "r-1" Cases.docker_course].
Proof.
  intros h.
  apply (stored_metadata_round_trip Scenario.runtime "r-1" Cases.docker_course [] h).
  - reflexivity.
  - reflexivity.
Defined.

Lemma agent_isolates_skills_witness :
  NoDup ["Docker"; "Python"] /\
  exists st' results,
    Standalone.gather_skills Cases.broken_runtime ["Docker"; "Python"] Scenario.start
    = (st', Ok results) /\
    length results = 2 /\
    results !! 0 = Some (Raise (KeyError "href")).
Proof.
  assert (Hdistinct : NoDup ["Docker"; "Python"]).
  { apply NoDup_cons. split.
    - intros Hin. apply elem_of_cons in Hin as [Hin | Hin]; [discriminate Hin |].
      by apply elem_of_nil in Hin.
    - apply NoDup_singleton. }
  split; [exact Hdistinct |].
  destruct (agent_isolates_skills Cases.broken_runtime ["Docker"; "Python"]
              Scenario.start Hdistinct)
    as (st' & results & Hgather & Hlen & _).
  exists st', results. split; [exact Hgather |]. split; [exact Hlen |].
  vm_compute in Hgather. injection Hgather as _ <-. reflexivity.
Defined.

Lemma get_by_id_outcomes_witness :
  get_by_id Scenario.runtime Cases.collection_get Cases.repository "r-2" Scenario.start
  = ((tt, [EvGetOrCreate COLLECTION_NAME]), Ok None) /\
  get_by_id Scenario.runtime Cases.collection_get Cases.repository "r-1" Scenario.start
  = ((tt, [EvGetOrCreate COLLECTION_NAME]), Ok (Some (set_id "r-1" Cases.docker_course))).
Proof.
  split.
  - destruct (get_by_id_outcomes Scenario.runtime Cases.collection_get Cases.repository
                "r-2" Scenario.start) as [Hfails _].
    apply (Hfails tt (ExternalError "get failed")).
    right. exists tt. split; reflexivity.
  - destruct (get_by_id_outcomes Scenario.runtime Cases.collection_get Cases.repository
                "r-1" Scenario.start) as [_ Hfound].
    apply (Hfound tt tt "Docker basics" Cases.docker_course); reflexivity.
Defined.


Lemma checked_conversation_formats_witness :
  check_messages Cases.conversation = Ok Cases.conversation /\
  exists text,
    loader_format_conversation Cases.lower Cases.capitalize Cases.conversation = Ok text.
Proof.
  assert (Hchecked : check_messages Cases.conversation = Ok Cases.conversation)
    by (vm_compute; reflexivity).
  split; [exact Hchecked |].
  exact (proj1 (checked_conversation_formats Cases.lower Cases.capitalize
                  Cases.conversation) Hchecked).
Defined.

Lemma formatters_agree_witness :
  loader_format_conversation Cases.lower Cases.capitalize Cases.conversation
  = Ok (_format_conversation Cases.lower Cases.capitalize Cases.conversation).
Proof.
  apply (formatters_agree Cases.lower Cases.capitalize Cases.conversation).
  apply Forall_cons. split.
  { exists "User", "I want to learn Docker".
    split; [reflexivity |]. split; [reflexivity | discriminate]. }
  apply Forall_cons. split.
  { exists "assistant", "What do you know already?".
    split; [reflexivity |]. split; [reflexivity | discriminate]. }
  apply Forall_cons. split; [| apply Forall_nil_2].
  exists "system", "". split; [reflexivity |]. split; reflexivity.
Defined.
